(** * gatedrop: the SupercrossLive results scraper

    A shallow embedding of [service/scrape_supercross.py]: link discovery
    on the events listing and on an event page, the table-first results
    parser and its text fallback, together with the parts of the Python
    runtime these functions call ([str] methods, three [re] patterns,
    [urllib.parse], the navigation methods of a BeautifulSoup tree).

    Conventions of the model.
    - A Python [str] is a [string]; the character classes ([\s], [\d],
      [str.strip], [str.upper] ...) are those of the ASCII range, every
      character above 127 is an ordinary character without case.
    - Python's [int] is [Z].
    - An exception is a value: a function that can raise returns a
      [result], [try/except] is [catch].
    - The parsers receive the tree BeautifulSoup has built; the tokenizer
      that turns markup text into that tree is outside the model.
    - A [dict] is an association list in insertion order.
    - [urllib.parse] follows CPython 3.11. Of its checks on a host written
      between brackets only the pairing of the brackets is modelled, and a
      percent-decoded byte above 127 stays a byte. *)

From Stdlib Require Import String Ascii List ZArith Lia Bool Arith.
Import ListNotations.

Local Open Scope string_scope.
Local Open Scope list_scope.
Local Open Scope nat_scope.

(** ** Exceptions as values *)

Inductive exn : Type :=
| ValueError
| IndexError.

Inductive result (A : Type) : Type :=
| Ok (a : A)
| Raise (e : exn).

Arguments Ok {A} a.
Arguments Raise {A} e.

Definition bind {A B : Type} (m : result A) (k : A -> result B) : result B :=
  match m with
  | Ok a => k a
  | Raise e => Raise e
  end.

(** [try: m except Exception: h] *)
Definition catch {A : Type} (m : result A) (h : A) : result A :=
  match m with
  | Ok a => Ok a
  | Raise _ => Ok h
  end.

Notation "x <- m ;; k" := (bind m (fun x => k))
  (at level 61, m at next level, right associativity).

(** ** Python [str] *)

Module Str.

Definition ord (c : ascii) : nat := nat_of_ascii c.
Definition chr (n : nat) : ascii := ascii_of_nat n.

Definition TAB : ascii := chr 9.
Definition LF : ascii := chr 10.
Definition CR : ascii := chr 13.

Definition between (lo hi : nat) (c : ascii) : bool :=
  (lo <=? ord c) && (ord c <=? hi).

(** [str.isspace] on one character: TAB LF VT FF CR, FS GS RS US, SPACE. *)
Definition isspace (c : ascii) : bool :=
  between 9 13 c || between 28 31 c || (ord c =? 32).

Definition isdigit (c : ascii) : bool := between 48 57 c.
Definition isupper (c : ascii) : bool := between 65 90 c.
Definition islower (c : ascii) : bool := between 97 122 c.
Definition isalpha (c : ascii) : bool := isupper c || islower c.

Definition to_upper (c : ascii) : ascii :=
  if islower c then chr (ord c - 32) else c.
Definition to_lower (c : ascii) : ascii :=
  if isupper c then chr (ord c + 32) else c.

Fixpoint map (f : ascii -> ascii) (s : string) : string :=
  match s with
  | EmptyString => EmptyString
  | String c r => String (f c) (map f r)
  end.

Definition upper : string -> string := map to_upper.
Definition lower : string -> string := map to_lower.

Fixpoint all (p : ascii -> bool) (s : string) : bool :=
  match s with
  | EmptyString => true
  | String c r => p c && all p r
  end.

(** [c in s] for a character [c]. *)
Fixpoint mem (c : ascii) (s : string) : bool :=
  match s with
  | EmptyString => false
  | String d r => Ascii.eqb c d || mem c r
  end.

(** [bool(s)]: a string is true when it is not empty. *)
Definition truthy (s : string) : bool :=
  match s with
  | EmptyString => false
  | String _ _ => true
  end.

(** [s.startswith(p)] *)
Fixpoint startswith (s p : string) {struct p} : bool :=
  match p with
  | EmptyString => true
  | String c p' =>
      match s with
      | EmptyString => false
      | String d s' => Ascii.eqb c d && startswith s' p'
      end
  end.

(** [needle in hay] *)
Fixpoint contains (needle hay : string) : bool :=
  startswith hay needle ||
  match hay with
  | EmptyString => false
  | String _ r => contains needle r
  end.

Fixpoint lstrip_by (p : ascii -> bool) (s : string) : string :=
  match s with
  | EmptyString => EmptyString
  | String c r => if p c then lstrip_by p r else s
  end.

Fixpoint rstrip_by (p : ascii -> bool) (s : string) : string :=
  match s with
  | EmptyString => EmptyString
  | String c r =>
      match rstrip_by p r with
      | EmptyString => if p c then EmptyString else String c EmptyString
      | r' => String c r'
      end
  end.

(** [s.strip()] *)
Definition strip (s : string) : string :=
  lstrip_by isspace (rstrip_by isspace s).

(** [s.replace(c, "")] for a set of characters. *)
Fixpoint remove (p : ascii -> bool) (s : string) : string :=
  match s with
  | EmptyString => EmptyString
  | String c r => if p c then remove p r else String c (remove p r)
  end.

(** The longest prefix whose characters satisfy [p], and the rest. *)
Fixpoint span (p : ascii -> bool) (s : string) : string * string :=
  match s with
  | EmptyString => (EmptyString, EmptyString)
  | String c r =>
      if p c then let (a, b) := span p r in (String c a, b)
      else (EmptyString, s)
  end.

(** [s.partition(c)] without the middle component: [None] when [c] does
    not occur, else the text before and after its first occurrence. *)
Fixpoint partition (c : ascii) (s : string) : option (string * string) :=
  match s with
  | EmptyString => None
  | String d r =>
      if Ascii.eqb c d then Some (EmptyString, r)
      else match partition c r with
           | Some (a, b) => Some (String d a, b)
           | None => None
           end
  end.

(** [s.split(c)]: never empty, [""] splits to [[""]]. *)
Fixpoint split (c : ascii) (s : string) : list string :=
  match s with
  | EmptyString => [EmptyString]
  | String d r =>
      if Ascii.eqb c d then EmptyString :: split c r
      else match split c r with
           | [] => [String d EmptyString]
           | h :: t => String d h :: t
           end
  end.

(** [s.split()]: the maximal runs of non-space characters. *)
Fixpoint split_ws_aux (cur : option string) (s : string) : list string :=
  match s with
  | EmptyString =>
      match cur with Some w => [w] | None => [] end
  | String c r =>
      if isspace c then
        match cur with
        | Some w => w :: split_ws_aux None r
        | None => split_ws_aux None r
        end
      else
        match cur with
        | Some w => split_ws_aux (Some (w ++ String c EmptyString)%string) r
        | None => split_ws_aux (Some (String c EmptyString)) r
        end
  end.

Definition split_ws (s : string) : list string := split_ws_aux None s.

(** [sep.join(l)] *)
Fixpoint join (sep : string) (l : list string) : string :=
  match l with
  | [] => EmptyString
  | [x] => x
  | x :: r => (x ++ sep ++ join sep r)%string
  end.

(** Line boundaries of [str.splitlines] in the ASCII range:
    LF, CR (and CR LF as one), VT, FF, FS, GS, RS. *)
Definition islinebreak (c : ascii) : bool :=
  between 10 13 c || between 28 30 c.

Fixpoint splitlines_aux (cur : string) (s : string) : list string :=
  match s with
  | EmptyString =>
      match cur with EmptyString => [] | _ => [cur] end
  | String c r =>
      if islinebreak c then
        match r with
        | String d r' =>
            if Ascii.eqb c CR && Ascii.eqb d LF
            then cur :: splitlines_aux EmptyString r'
            else cur :: splitlines_aux EmptyString r
        | EmptyString => [cur]
        end
      else splitlines_aux (cur ++ String c EmptyString)%string r
  end.

Definition splitlines (s : string) : list string :=
  splitlines_aux EmptyString s.

(** [int(s)] for a string of decimal digits. *)
Definition digit_val (c : ascii) : Z := Z.of_nat (ord c - 48).

Fixpoint int_aux (acc : Z) (s : string) : Z :=
  match s with
  | EmptyString => acc
  | String c r => int_aux (10 * acc + digit_val c)%Z r
  end.

(** [int(s)]. The parsers call it only on text a [\d+] pattern has
    matched; on any other argument the model raises [ValueError]. The
    integers are unbounded: the interpreter's limit on the number of digits
    of a decimal literal is not modelled. *)
Definition int (s : string) : result Z :=
  if truthy s && all isdigit s then Ok (int_aux 0 s) else Raise ValueError.

End Str.

(** ** The three [re] patterns of the scraper *)

Module Re.

(** [re.sub(r"\s+", " ", s)]: every maximal run of white space becomes
    one space. [in_run] tells that the previous character was white
    space, whose replacement is already written. *)
Fixpoint sub_ws (in_run : bool) (s : string) : string :=
  match s with
  | EmptyString => EmptyString
  | String c r =>
      if Str.isspace c then
        if in_run then sub_ws true r else String " " (sub_ws true r)
      else String c (sub_ws false r)
  end.

(** [re.fullmatch(r"\d+", s)] as a truth value. *)
Definition fullmatch_digits (s : string) : bool :=
  Str.truthy s && Str.all Str.isdigit s.

(** The last group with the end anchor, on the text that is left: the
    dot stops at a line feed, and the dollar accepts the end of the
    string or a single line feed that ends it. *)
Definition dot_star_eol (s : string) : option string :=
  let (body, rest) := Str.span (fun c => negb (Ascii.eqb c Str.LF)) s in
  match rest with
  | EmptyString => Some body
  | String _ EmptyString => Some body
  | _ => None
  end.

(** [re.match] of the row pattern, digits, white space, a token, white
    space and the rest of the line: the three groups. Every
    repetition is followed by a character class disjoint from its own,
    so the only split the backtracking matcher can accept is the one of
    the greedy runs. *)
Definition match_row (s : string) : option (string * string * string) :=
  let (g1, s1) := Str.span Str.isdigit s in
  let (w1, s2) := Str.span Str.isspace s1 in
  let (g2, s3) := Str.span (fun c => negb (Str.isspace c)) s2 in
  let (w2, s4) := Str.span Str.isspace s3 in
  if Str.truthy g1 && Str.truthy w1 && Str.truthy g2 && Str.truthy w2 then
    match dot_star_eol s4 with
    | Some g3 => Some (g1, g2, g3)
    | None => None
    end
  else None.

End Re.

(** ** [urllib.parse], after CPython 3.11 *)

Module Urllib.

Record ParseResult : Type := mkParseResult {
  scheme : string;
  netloc : string;
  path : string;
  params : string;
  query : string;
  fragment : string
}.

Definition uses_relative : list string :=
  [""; "ftp"; "http"; "gopher"; "nntp"; "imap"; "wais"; "file"; "https";
   "shttp"; "mms"; "prospero"; "rtsp"; "rtspu"; "sftp"; "svn"; "svn+ssh";
   "ws"; "wss"].

Definition uses_netloc : list string :=
  [""; "ftp"; "http"; "gopher"; "nntp"; "telnet"; "imap"; "wais"; "file";
   "mms"; "https"; "shttp"; "snews"; "prospero"; "rtsp"; "rtspu"; "rsync";
   "svn"; "svn+ssh"; "sftp"; "nfs"; "git"; "git+ssh"; "ws"; "wss"].

Definition uses_params : list string :=
  [""; "ftp"; "hdl"; "prospero"; "http"; "imap"; "https"; "shttp"; "rtsp";
   "rtspu"; "sip"; "sips"; "mms"; "sftp"; "tel"].

Definition str_in (s : string) (l : list string) : bool :=
  existsb (String.eqb s) l.

(** [scheme_chars]: letters, digits and [+-.] *)
Definition is_scheme_char (c : ascii) : bool :=
  Str.isalpha c || Str.isdigit c || Str.mem c "+-.".

(** [_WHATWG_C0_CONTROL_OR_SPACE] *)
Definition is_c0_or_space (c : ascii) : bool := Str.ord c <=? 32.

(** [_UNSAFE_URL_BYTES_TO_REMOVE] *)
Definition is_unsafe (c : ascii) : bool :=
  Ascii.eqb c Str.TAB || Ascii.eqb c Str.CR || Ascii.eqb c Str.LF.

Definition is_netloc_end (c : ascii) : bool := Str.mem c "/?#".

(** The scheme test of [urlsplit]: a colon after the first character,
    a letter first, scheme characters up to the colon. *)
Definition split_scheme (dflt url : string) : string * string :=
  match url with
  | String c0 _ =>
      match Str.partition ":" url with
      | Some (String _ _ as pre, post) =>
          if Str.isalpha c0 && Str.all is_scheme_char pre
          then (Str.lower pre, post)
          else (dflt, url)
      | _ => (dflt, url)
      end
  | EmptyString => (dflt, url)
  end.

(** [if c in url: url, rest = url.split(c, 1)] *)
Definition split_once (c : ascii) (url : string) : string * string :=
  match Str.partition c url with
  | Some (a, b) => (a, b)
  | None => (url, EmptyString)
  end.

(** [urlsplit(url, scheme)]: [(scheme, netloc, path, query, fragment)].
    The one failure modelled is the bracket test on the network
    location; what stands between a matching pair of brackets is not
    examined. *)
Definition urlsplit (url dflt : string)
  : result (string * string * string * string * string) :=
  let url := Str.lstrip_by is_c0_or_space url in
  let dflt := Str.rstrip_by is_c0_or_space (Str.lstrip_by is_c0_or_space dflt) in
  let url := Str.remove is_unsafe url in
  let dflt := Str.remove is_unsafe dflt in
  let (sch, url) := split_scheme dflt url in
  nl <- match url with
        | String "/" (String "/" r) =>
            let (nl, rest) := Str.span (fun c => negb (is_netloc_end c)) r in
            if xorb (Str.mem "[" nl) (Str.mem "]" nl)
            then Raise ValueError
            else Ok (nl, rest)
        | _ => Ok (EmptyString, url)
        end ;;
  let (nl, url) := nl in
  let (url, frag) := split_once "#" url in
  let (url, qry) := split_once "?" url in
  Ok (sch, nl, url, qry, frag).

(** The text after the last [/] of [s], with what precedes it. *)
Fixpoint rsplit_slash (s : string) : string * string :=
  match s with
  | EmptyString => (EmptyString, EmptyString)
  | String c r =>
      let (a, b) := rsplit_slash r in
      if Str.mem "/" r then (String c a, b)
      else if Ascii.eqb c "/" then (String c EmptyString, r)
      else (EmptyString, s)
  end.

(** [_splitparams(url)], called when [;] occurs in [url]: the split is
    at the first [;] of the last path segment. *)
Definition splitparams (url : string) : string * string :=
  let (dir, last) := rsplit_slash url in
  match Str.partition ";" last with
  | Some (a, b) => ((dir ++ a)%string, b)
  | None => (url, EmptyString)
  end.

Definition urlparse (url dflt : string) : result ParseResult :=
  r <- urlsplit url dflt ;;
  let '(sch, nl, p, q, f) := r in
  let (p, prm) :=
    if str_in sch uses_params && Str.mem ";" p then splitparams p
    else (p, EmptyString) in
  Ok (mkParseResult sch nl p prm q f).

(** [if part: url = url + mark + part] *)
Definition add_part (url mark part : string) : string :=
  if Str.truthy part then (url ++ mark ++ part)%string else url.

Definition urlunsplit (sch nl url q f : string) : string :=
  let url :=
    if Str.truthy nl ||
       (Str.truthy sch && str_in sch uses_netloc && negb (Str.startswith url "//"))
    then
      let url := if Str.truthy url && negb (Str.startswith url "/")
                 then ("/" ++ url)%string else url in
      ("//" ++ nl ++ url)%string
    else url in
  let url := if Str.truthy sch then (sch ++ ":" ++ url)%string else url in
  add_part (add_part url "?" q) "#" f.

Definition urlunparse (r : ParseResult) : string :=
  let url := if Str.truthy (params r)
             then (path r ++ ";" ++ params r)%string else path r in
  urlunsplit (scheme r) (netloc r) url (query r) (fragment r).

(** [segments[1:-1] = filter(None, segments[1:-1])] *)
Definition filter_middle (l : list string) : list string :=
  match l with
  | [] => []
  | [x] => [x]
  | x :: r => x :: filter Str.truthy (removelast r) ++ [last r EmptyString]
  end.

(** The loop over [segments] that builds [resolved_path]. *)
Fixpoint resolve_segments (resolved segs : list string) : list string :=
  match segs with
  | [] => resolved
  | seg :: r =>
      if String.eqb seg ".." then resolve_segments (removelast resolved) r
      else if String.eqb seg "." then resolve_segments resolved r
      else resolve_segments (resolved ++ [seg]) r
  end.

Definition urljoin (base url : string) : result string :=
  if negb (Str.truthy base) then Ok url
  else if negb (Str.truthy url) then Ok base
  else
    b <- urlparse base EmptyString ;;
    u <- urlparse url (scheme b) ;;
    if negb (String.eqb (scheme u) (scheme b)) || negb (str_in (scheme u) uses_relative)
    then Ok url
    else if str_in (scheme u) uses_netloc && Str.truthy (netloc u)
    then Ok (urlunparse u)
    else
      let nl := if str_in (scheme u) uses_netloc then netloc b else netloc u in
      if negb (Str.truthy (path u)) && negb (Str.truthy (params u)) then
        let q := if Str.truthy (query u) then query u else query b in
        Ok (urlunparse (mkParseResult (scheme u) nl (path b) (params b) q (fragment u)))
      else
        let base_parts := Str.split "/" (path b) in
        let base_parts :=
          if Str.truthy (last base_parts EmptyString)
          then removelast base_parts else base_parts in
        let segments :=
          if Str.startswith (path u) "/" then Str.split "/" (path u)
          else filter_middle (base_parts ++ Str.split "/" (path u)) in
        let resolved := resolve_segments [] segments in
        let last_seg := last segments EmptyString in
        let resolved :=
          if String.eqb last_seg "." || String.eqb last_seg ".."
          then resolved ++ [EmptyString] else resolved in
        let joined := Str.join "/" resolved in
        let p := if Str.truthy joined then joined else "/" in
        Ok (urlunparse (mkParseResult (scheme u) nl p (params u) (query u) (fragment u))).

Definition ishex (c : ascii) : bool :=
  Str.isdigit c || Str.between 65 70 c || Str.between 97 102 c.

Definition hexval (c : ascii) : nat :=
  if Str.isdigit c then Str.ord c - 48
  else if Str.between 65 70 c then Str.ord c - 55
  else Str.ord c - 87.

(** [unquote(s)]: each [%xx] with two hexadecimal digits becomes the
    byte it names, any other [%] stays. The bytes are left as they are:
    the replacement of ill-formed UTF-8 is not modelled. *)
Fixpoint unquote (s : string) : string :=
  match s with
  | EmptyString => EmptyString
  | String c r =>
      if Ascii.eqb c "%" then
        match r with
        | String a (String b r') =>
            if ishex a && ishex b
            then String (Str.chr (16 * hexval a + hexval b)) (unquote r')
            else String c (unquote r)
        | _ => String c (unquote r)
        end
      else String c (unquote r)
  end.

Definition plus_to_space (c : ascii) : ascii :=
  if Ascii.eqb c "+" then " "%char else c.

(** [parse_qsl(qs)] with its defaults: fields are separated by [&], a
    field without [=] or with nothing after it is left out. *)
Definition parse_field (nv : string) : list (string * string) :=
  match Str.partition "=" nv with
  | Some (n, v) =>
      if Str.truthy v
      then [(unquote (Str.map plus_to_space n), unquote (Str.map plus_to_space v))]
      else []
  | None => []
  end.

Definition parse_qsl (qs : string) : list (string * string) :=
  if Str.truthy qs then flat_map parse_field (Str.split "&" qs) else [].

(** [parsed_result[name].append(value)], or a new entry at the end. *)
Fixpoint dict_append (d : list (string * list string)) (k v : string)
  : list (string * list string) :=
  match d with
  | [] => [(k, [v])]
  | (k', vs) :: r =>
      if String.eqb k k' then (k', vs ++ [v]) :: r
      else (k', vs) :: dict_append r k v
  end.

Definition parse_qs (qs : string) : list (string * list string) :=
  fold_left (fun d nv => dict_append d (fst nv) (snd nv)) (parse_qsl qs) [].

(** [d[k]] when [k in d] *)
Fixpoint dict_lookup {V : Type} (d : list (string * V)) (k : string) : option V :=
  match d with
  | [] => None
  | (k', v) :: r => if String.eqb k k' then Some v else dict_lookup r k
  end.

(** [d.get(k, dflt)] *)
Definition dict_get {V : Type} (d : list (string * V)) (k : string) (dflt : V) : V :=
  match dict_lookup d k with
  | Some v => v
  | None => dflt
  end.

End Urllib.

(** ** The BeautifulSoup tree *)

#[local] Set Warnings "-register-all".

Module Bs4.

(** A parsed document: text nodes (the kinds [get_text] yields) and
    tags with their attributes and children, in document order. *)
Inductive node : Type :=
| NavigableString (s : string)
| Tag (name : string) (attrs : list (string * string)) (contents : list node).

(** [tag.descendants]: pre-order, the tag itself left out. *)
Fixpoint descendants_of (n : node) : list node :=
  match n with
  | NavigableString _ => []
  | Tag _ _ cs => flat_map (fun c => c :: descendants_of c) cs
  end.

Definition descendants (cs : list node) : list node :=
  flat_map (fun c => c :: descendants_of c) cs.

Definition contents_of (n : node) : list node :=
  match n with
  | NavigableString _ => []
  | Tag _ _ cs => cs
  end.

Definition is_tag_named (names : list string) (n : node) : bool :=
  match n with
  | NavigableString _ => false
  | Tag nm _ _ => existsb (String.eqb nm) names
  end.

(** [x.find_all(names)] on the children [cs] of [x]. *)
Definition find_all (names : list string) (cs : list node) : list node :=
  filter (is_tag_named names) (descendants cs).

(** [x.find(name)] *)
Definition find (nm : string) (cs : list node) : option node :=
  hd_error (find_all [nm] cs).

Fixpoint attr (k : string) (attrs : list (string * string)) : option string :=
  match attrs with
  | [] => None
  | (k', v) :: r => if String.eqb k k' then Some v else attr k r
  end.

Definition has_attr (k : string) (n : node) : bool :=
  match n with
  | NavigableString _ => false
  | Tag _ attrs _ => match attr k attrs with Some _ => true | None => false end
  end.

(** [a["href"]] of a tag [find_all("a", href=True)] has returned. *)
Definition get_attr (k : string) (n : node) : string :=
  match n with
  | NavigableString _ => EmptyString
  | Tag _ attrs _ =>
      match attr k attrs with Some v => v | None => EmptyString end
  end.

(** [soup.find_all("a", href=True)] *)
Definition find_all_with (nm k : string) (cs : list node) : list node :=
  filter (has_attr k) (find_all [nm] cs).

Definition string_of (n : node) : list string :=
  match n with
  | NavigableString s => [s]
  | Tag _ _ _ => []
  end.

(** [x.get_text(sep, strip=True)]: the stripped, non-empty strings under
    [x], joined by [sep]. *)
Definition get_text (sep : string) (cs : list node) : string :=
  Str.join sep
    (filter Str.truthy (List.map Str.strip (flat_map string_of (descendants cs)))).

End Bs4.

(** ** The scraper *)

Definition BASE : string := "https://results.supercrosslive.com".
Definition EVENTS_URL : string := BASE ++ "/events/".
Definition RESULTS_ROOT : string := BASE ++ "/results/".

Record EventRef : Type := mkEventRef {
  event_id : string;
  name : string;
  url : string
}.

Record SessionRef : Type := mkSessionRef {
  race_result_id : string;
  session_name : string;
  session_url : string
}.

(** [normalize_ws], lines 61-62. *)
Definition normalize_ws (s : string) : string :=
  Str.strip (Re.sub_ws false s).

(** [l[0]] *)
Definition index0 {A : Type} (l : list A) : result A :=
  match l with
  | x :: _ => Ok x
  | [] => Raise IndexError
  end.

(** [l[i]] for [i >= 0] *)
Definition index {A : Type} (l : list A) (i : nat) : result A :=
  match nth_error l i with
  | Some x => Ok x
  | None => Raise IndexError
  end.

(** [extract_query_param], lines 72-78. *)
Definition extract_query_param (u key : string) : result (option string) :=
  catch
    (r <- Urllib.urlparse u EmptyString ;;
     let q := Urllib.parse_qs (Urllib.query r) in
     let vals := Urllib.dict_get q key [] in
     match vals with
     | [] => Ok None
     | _ => v <- index0 vals ;; Ok (Some v)
     end)
    None.

(** A [for] loop whose body either [continue]s or appends one element,
    and can raise. *)
Fixpoint collect {A B : Type} (body : A -> result (option B)) (l : list A)
  : result (list B) :=
  match l with
  | [] => Ok []
  | x :: r =>
      o <- body x ;;
      rest <- collect body r ;;
      Ok (match o with Some y => y :: rest | None => rest end)
  end.

(** [uniq.setdefault(k, v)] *)
Fixpoint setdefault {V : Type} (uniq : list (string * V)) (k : string) (v : V)
  : list (string * V) :=
  match uniq with
  | [] => [(k, v)]
  | (k', v') :: r =>
      if String.eqb k k' then uniq else (k', v') :: setdefault r k v
  end.

(** One pass of the de-dupe loop. *)
Definition dedupe_step {V : Type} (key : V -> string) (uniq : list (string * V)) (e : V)
  : list (string * V) :=
  setdefault uniq (key e) e.

(** The de-dupe loop and [list(uniq.values())]. *)
Definition dedupe {V : Type} (key : V -> string) (found : list V) : list V :=
  List.map snd (fold_left (dedupe_step key) found []).

(** [(q.get("p", [""])[0] or "").strip().lower()] *)
Definition pval_of (q : list (string * list string)) : result string :=
  v <- index0 (Urllib.dict_get q "p" [EmptyString]) ;;
  Ok (Str.lower (Str.strip v)).

(** [q.get("id", [None])[0]] *)
Definition id_of (q : list (string * list string)) : result (option string) :=
  match Urllib.dict_lookup q "id" with
  | Some vals => v <- index0 vals ;; Ok (Some v)
  | None => index0 [None]
  end.

(** [x or dflt] *)
Definition or_else (s dflt : string) : string :=
  if Str.truthy s then s else dflt.

(** The body of the loop of [discover_events], lines 92-109. *)
Definition event_of_anchor (a : Bs4.node) : result (option EventRef) :=
  let href_raw := Str.strip (Bs4.get_attr "href" a) in
  if negb (Str.truthy href_raw) then Ok None
  else
    href <- Urllib.urljoin EVENTS_URL href_raw ;;
    r <- Urllib.urlparse href EmptyString ;;
    let q := Urllib.parse_qs (Urllib.query r) in
    pval <- pval_of q ;;
    if negb (String.eqb pval "view_event") then Ok None
    else
      eid <- id_of q ;;
      match eid with
      | None => Ok None
      | Some eid =>
          if negb (Str.truthy eid) then Ok None
          else
            let nm := or_else (normalize_ws (Bs4.get_text " " (Bs4.contents_of a)))
                              ("event_" ++ eid) in
            Ok (Some (mkEventRef eid nm href))
      end.

(** [discover_events], lines 84-116. *)
Definition discover_events (soup : list Bs4.node) : result (list EventRef) :=
  found <- collect event_of_anchor (Bs4.find_all_with "a" "href" soup) ;;
  Ok (dedupe event_id found).

(** The two bases of [discover_sessions], lines 143-146. *)
Definition session_href (href_raw : string) : result string :=
  if Str.startswith href_raw "?"
  then Urllib.urljoin RESULTS_ROOT href_raw
  else Urllib.urljoin (BASE ++ "/") href_raw.

(** The body of the loop of [discover_sessions], lines 137-162. *)
Definition session_of_anchor (a : Bs4.node) : result (option SessionRef) :=
  let href_raw := Str.strip (Bs4.get_attr "href" a) in
  if negb (Str.truthy href_raw) then Ok None
  else
    href <- session_href href_raw ;;
    if negb (Str.contains "view_race_result" href) then Ok None
    else
      r <- Urllib.urlparse href EmptyString ;;
      let q := Urllib.parse_qs (Urllib.query r) in
      pval <- pval_of q ;;
      if negb (String.eqb pval "view_race_result") then Ok None
      else
        rrid <- id_of q ;;
        match rrid with
        | None => Ok None
        | Some rrid =>
            if negb (Str.truthy rrid) then Ok None
            else
              let nm := or_else (normalize_ws (Bs4.get_text " " (Bs4.contents_of a)))
                                ("race_result_" ++ rrid) in
              Ok (Some (mkSessionRef rrid nm href))
        end.

(** [discover_sessions], lines 122-169. *)
Definition discover_sessions (soup : list Bs4.node) : result (list SessionRef) :=
  sessions <- collect session_of_anchor (Bs4.find_all_with "a" "href" soup) ;;
  Ok (dedupe race_result_id sessions).

(** *** Results: the table parser *)

Record TableRow : Type := mkTableRow {
  pos : Z;
  number : option string;
  rider : option string;
  bike : option string;
  best_lap : option string;
  time : option string;
  gap : option string;
  points : option string;
  raw : list string
}.

Record TextRow : Type := mkTextRow {
  text_pos : Z;
  text_number : string;
  rider_guess : option string;
  line : string
}.

(** A result row is one of the two dictionaries the parsers build. *)
Inductive ResultRow : Type :=
| FromTable (r : TableRow)
| FromText (r : TextRow).


(** [d[k] = v] *)
Fixpoint dict_set {V : Type} (d : list (string * V)) (k : string) (v : V)
  : list (string * V) :=
  match d with
  | [] => [(k, v)]
  | (k', v') :: r =>
      if String.eqb k k' then (k', v) :: r else (k', v') :: dict_set r k v
  end.

(** [{h: i for i, h in enumerate(header)}], counting from [i]. *)
Fixpoint col_map_from (i : nat) (header : list string) (d : list (string * nat))
  : list (string * nat) :=
  match header with
  | [] => d
  | h :: r => col_map_from (S i) r (dict_set d h i)
  end.

Definition col_map_of (header : list string) : list (string * nat) :=
  col_map_from 0 header [].

(** [get_cell], lines 199-205; [col_map] is the variable it closes over. *)
Fixpoint get_cell (col_map : list (string * nat)) (cells : list string)
  (names : list string) : result (option string) :=
  match names with
  | [] => Ok None
  | n :: r =>
      let k := Str.upper n in
      match Urllib.dict_lookup col_map k with
      | Some i =>
          if i <? length cells then
            v <- index cells i ;;
            Ok (if Str.truthy v then Some v else None)
          else get_cell col_map cells r
      | None => get_cell col_map cells r
      end
  end.

Definition cell_text (x : Bs4.node) : string :=
  normalize_ws (Bs4.get_text " " (Bs4.contents_of x)).

(** The header of a table, lines 184-191: the cells of its [thead], else
    of its first [tr], else nothing. *)
Definition header_of (t : Bs4.node) : list string :=
  match Bs4.find "thead" (Bs4.contents_of t) with
  | Some thead =>
      List.map (fun x => Str.upper (cell_text x))
        (Bs4.find_all ["th"; "td"] (Bs4.contents_of thead))
  | None =>
      match Bs4.find "tr" (Bs4.contents_of t) with
      | Some first_tr =>
          List.map (fun x => Str.upper (cell_text x))
            (Bs4.find_all ["th"; "td"] (Bs4.contents_of first_tr))
      | None => []
      end
  end.

(** The body of the loop over the rows of a table, lines 210-231. *)
Definition row_of_tr (col_map : list (string * nat)) (tr : Bs4.node)
  : result (option ResultRow) :=
  let cells := List.map cell_text (Bs4.find_all ["td"; "th"] (Bs4.contents_of tr)) in
  match cells with
  | [] => Ok None
  | _ =>
      pos_raw <- get_cell col_map cells ["POS"] ;;
      match pos_raw with
      | None => Ok None
      | Some pos_raw =>
          if negb (Str.truthy pos_raw) || negb (Re.fullmatch_digits pos_raw)
          then Ok None
          else
            p <- Str.int pos_raw ;;
            c_number <- get_cell col_map cells ["#"; "NUM"; "NO"; "NUMBER"] ;;
            c_rider <- get_cell col_map cells ["RIDER"; "NAME"] ;;
            c_bike <- get_cell col_map cells ["BIKE"] ;;
            c_best <- get_cell col_map cells ["BEST LAP"; "BEST"] ;;
            c_time <- get_cell col_map cells ["TIME"; "TOTAL TIME"] ;;
            c_gap <- get_cell col_map cells ["GAP"; "INTERVAL"] ;;
            c_points <- get_cell col_map cells ["POINTS"; "PTS"] ;;
            Ok (Some (FromTable
                        (mkTableRow p c_number c_rider c_bike c_best c_time
                           c_gap c_points cells)))
      end
  end.





(** *** Results: the text fallback *)

(** The test of the header loop on one line. *)
Definition is_header_line (ln : string) : bool :=
  let up := Str.upper ln in
  Str.contains "POS" up
  && (Str.contains "RIDER" up || Str.contains "NAME" up)
  && (Str.contains "#" up || Str.contains "BIKE" up).

(** The header loop, lines 255-260: the index of the first header line,
    counted from [i]. *)
Fixpoint find_header (i : nat) (lines : list string) : option nat :=
  match lines with
  | [] => None
  | ln :: r => if is_header_line ln then Some i else find_header (S i) r
  end.

Definition is_footer_line (ln : string) : bool :=
  Str.startswith (Str.upper ln) "GENERATED BY"
  || Str.startswith (Str.upper ln) "LIVE SUPER".

(** [" ".join(tokens[:2])] when there are two tokens at least. *)
Definition guess_rider (rest : string) : option string :=
  let tokens := Str.split_ws rest in
  if 2 <=? length tokens then Some (Str.join " " (firstn 2 tokens)) else None.

(** The loop over the lines after the header, lines 267-298. *)
Fixpoint scan_lines (lines : list string) : result (list ResultRow) :=
  match lines with
  | [] => Ok []
  | ln :: r =>
      if is_footer_line ln then Ok []
      else
        match Re.match_row ln with
        | None => scan_lines r
        | Some (g1, g2, g3) =>
            p <- Str.int g1 ;;
            rest <- scan_lines r ;;
            Ok (FromText (mkTextRow p g2 (guess_rider g3) ln) :: rest)
        end
  end.

(** The parser from the list [lines] on. *)
Definition fallback_of_lines (lines : list string) : result (list ResultRow) :=
  match find_header 0 lines with
  | None => Ok []
  | Some header_idx => scan_lines (skipn (header_idx + 1) lines)
  end.

Definition lines_of_text (text : string) : list string :=
  List.map normalize_ws
    (filter (fun ln => Str.truthy (normalize_ws ln)) (Str.splitlines text)).



(** ** Reference definitions

    What the properties below compare the code with. *)


(** [k in d] *)
Definition has_key {V : Type} (k : string) (d : list (string * V)) : bool :=
  existsb (fun kv => String.eqb k (fst kv)) d.

(** Follows the spec's words for the de-duplication: of the elements
    with one key, the first is kept and the later ones are discarded. *)
Fixpoint first_occurrences {V : Type} (key : V -> string) (l : list V) : list V :=
  match l with
  | [] => []
  | x :: r =>
      x :: filter (fun y => negb (String.eqb (key y) (key x))) (first_occurrences key r)
  end.

(** [a] stands before [b] in [l], and it is the first element of [l] with
    its key, and so is [b]. *)
Definition first_before {V : Type} (key : V -> string) (a b : V) (l : list V) : Prop :=
  exists l1 l2 l3,
    l = l1 ++ a :: l2 ++ b :: l3
    /\ ~ In (key a) (List.map key l1)
    /\ ~ In (key b) (List.map key (l1 ++ a :: l2)).

(** What de-duplication promises of its output [out] for the input
    [found]: one element for every key of [found], each the first of
    [found] with its key, in the order of these first places. *)
Definition first_of_each_key {V : Type} (key : V -> string) (found out : list V) : Prop :=
  NoDup (List.map key out)
  /\ (forall e, In e found -> exists e', In e' out /\ key e' = key e)
  /\ (forall e', In e' out ->
        List.find (fun x => String.eqb (key x) (key e')) found = Some e')
  /\ (forall p a m b s, out = p ++ a :: m ++ b :: s -> first_before key a b found).

(** *** The table parser without its exceptions

    The same computations as values: what [get_cell], the loop body
    [row_of_tr] and the loop [rows_of_table] return when nothing is
    raised. The properties show that nothing is. *)

(** The alias [n] names a column that the row reaches: the test of the
    loop of [get_cell]. *)
Definition alias_usable (col_map : list (string * nat)) (cells : list string)
  (n : string) : bool :=
  match Urllib.dict_lookup col_map (Str.upper n) with
  | Some i => i <? length cells
  | None => false
  end.

(** [v if v != "" else None] *)
Definition non_blank (v : string) : option string :=
  if Str.truthy v then Some v else None.

(** The cell of the column of alias [n], blank read as absent. *)
Definition cell_of_alias (col_map : list (string * nat)) (cells : list string)
  (n : string) : option string :=
  match Urllib.dict_lookup col_map (Str.upper n) with
  | Some i =>
      match nth_error cells i with
      | Some v => non_blank v
      | None => None
      end
  | None => None
  end.

Definition field_of (col_map : list (string * nat)) (cells : list string)
  (names : list string) : option string :=
  match List.find (alias_usable col_map cells) names with
  | Some n => cell_of_alias col_map cells n
  | None => None
  end.

Definition table_row (col_map : list (string * nat)) (cells : list string)
  : option TableRow :=
  match cells with
  | [] => None
  | _ =>
      match field_of col_map cells ["POS"] with
      | Some pos_raw =>
          if Re.fullmatch_digits pos_raw then
            Some (mkTableRow (Str.int_aux 0 pos_raw)
                    (field_of col_map cells ["#"; "NUM"; "NO"; "NUMBER"])
                    (field_of col_map cells ["RIDER"; "NAME"])
                    (field_of col_map cells ["BIKE"])
                    (field_of col_map cells ["BEST LAP"; "BEST"])
                    (field_of col_map cells ["TIME"; "TOTAL TIME"])
                    (field_of col_map cells ["GAP"; "INTERVAL"])
                    (field_of col_map cells ["POINTS"; "PTS"])
                    cells)
          else None
      | None => None
      end
  end.

(** The elements a loop with [continue] appends. *)
Definition kept {A B : Type} (f : A -> option B) (l : list A) : list B :=
  flat_map (fun x => match f x with Some y => [y] | None => [] end) l.

Definition cells_of (tr : Bs4.node) : list string :=
  List.map cell_text (Bs4.find_all ["td"; "th"] (Bs4.contents_of tr)).



(** *** The text fallback without its exceptions *)

(** The lines before the first footer line: where the loop stops. *)
Fixpoint until_footer (lines : list string) : list string :=
  match lines with
  | [] => []
  | ln :: r => if is_footer_line ln then [] else ln :: until_footer r
  end.

(** The row of a line that matches the row pattern. *)
Definition text_row (ln : string) : option TextRow :=
  match Re.match_row ln with
  | Some (g1, g2, g3) =>
      Some (mkTextRow (Str.int_aux 0 g1) g2 (guess_rider g3) ln)
  | None => None
  end.

Definition text_rows (lines : list string) : list ResultRow :=
  kept (fun ln => option_map FromText (text_row ln)) (until_footer lines).

(** Follows the spec's words for a data line: a leading unsigned integer
    [g1], white space, one token [g2] without white space, white space,
    the remaining text [g3]; the end of the line may be one line feed. *)
Definition row_shape (ln g1 g2 g3 : string) : Prop :=
  exists w1 w2 nl : string,
    ln = (g1 ++ w1 ++ g2 ++ w2 ++ g3 ++ nl)%string
    /\ Re.fullmatch_digits g1 = true
    /\ (Str.truthy w1 = true /\ Str.all Str.isspace w1 = true)
    /\ (Str.truthy g2 = true /\ Str.all (fun c => negb (Str.isspace c)) g2 = true)
    /\ (Str.truthy w2 = true /\ Str.all Str.isspace w2 = true)
    /\ Str.mem Str.LF g3 = false
    /\ (nl = EmptyString \/ nl = String Str.LF EmptyString).

Definition fallback_rows (lines : list string) : list ResultRow :=
  match find_header 0 lines with
  | None => []
  | Some header_idx => text_rows (skipn (header_idx + 1) lines)
  end.

(** ** Sample documents *)

(** [<a href="href">label</a>] *)
Definition anchor (href label : string) : Bs4.node :=
  Bs4.Tag "a" [("href", href)] [Bs4.NavigableString label].

(** [<tag>text</tag>] *)
Definition cell (tag text : string) : Bs4.node :=
  Bs4.Tag tag [] [Bs4.NavigableString text].

(** [<tr>] with one cell for each text. *)
Definition tr_of (tag : string) (texts : list string) : Bs4.node :=
  Bs4.Tag "tr" [] (List.map (cell tag) texts).

(** [<table>] with a first row of [th] cells and rows of [td] cells. *)
Definition table_of (header : list string) (rows : list (list string)) : Bs4.node :=
  Bs4.Tag "table" [] (tr_of "th" header :: List.map (tr_of "td") rows).




(** A table with both headers of the rider field and a row of two cells. *)
Definition short_row_table : Bs4.node :=
  table_of ["POS"; "NAME"; "RIDER"] [["1"; "Bob"]].

(** An events listing that links the event 5 twice, under two labels. *)
Definition twice_linked_doc : list Bs4.node :=
  [Bs4.Tag "ul" []
     [anchor "/results/?id=5&p=view_event" "Anaheim 1";
      anchor "/results/?id=9&p=view_event" "San Diego";
      anchor "/results/?p=view_event&id=5" "Round 1 (Anaheim)"]].

(** ** More of the scraper

    Of [main], the two choices it makes between its requests: the event
    to scrape and the sessions to fetch. [http_get], the parsing of the
    command line and the writing of the output file are input and output,
    and are not modelled. *)

(** [is_main_event], lines 303-305. *)
Definition is_main_event (session_name : string) : bool :=
  let s := Str.lower session_name in
  Str.contains "main event" s && Str.contains "results" s.

(** [(x.session_name.lower(), x.race_result_id)]: the sort key of [main],
    line 367. *)
Definition session_key (x : SessionRef) : string * string :=
  (Str.lower (session_name x), race_result_id x).

(** [a < b] on pairs of strings: the first components decide, the second
    ones when the first are equal; strings compare character by
    character. *)
Definition key_lt (a b : string * string) : bool :=
  match String.compare (fst a) (fst b) with
  | Lt => true
  | Eq => String.ltb (snd a) (snd b)
  | Gt => false
  end.

(** [list.sort(key=...)] is a stable sort that compares keys with [<]:
    each element goes before the first one already placed whose key is
    not below its own. *)
Fixpoint insert_session (x : SessionRef) (l : list SessionRef) : list SessionRef :=
  match l with
  | [] => [x]
  | y :: r =>
      if key_lt (session_key y) (session_key x) then y :: insert_session x r
      else x :: y :: r
  end.

Fixpoint sort_sessions (l : list SessionRef) : list SessionRef :=
  match l with
  | [] => []
  | x :: r => insert_session x (sort_sessions r)
  end.

(** The sessions [main] fetches, lines 363-370: the main events only when
    asked, sorted, cut to the limit when it is positive. *)
Definition select_sessions (only_main_events : bool) (limit_sessions : Z)
  (sessions : list SessionRef) : list SessionRef :=
  let sessions :=
    if only_main_events
    then filter (fun sess => is_main_event (session_name sess)) sessions
    else sessions in
  let sessions := sort_sessions sessions in
  if (0 <? limit_sessions)%Z
  then firstn (Z.to_nat limit_sessions) sessions
  else sessions.

(** The choice of the event in [main], lines 323-337: [None] stands for
    the return of the exit status 2. [wanted] is [args.event_id], absent
    when the option is not given. *)
Definition choose_event (wanted : option string) (events : list EventRef)
  : option EventRef :=
  match events with
  | [] => None
  | first :: _ =>
      match wanted with
      | Some (String _ _ as w) => find (fun e => String.eqb (event_id e) w) events
      | _ => Some first
      end
  end.

(** *** Reference definitions for the further properties *)

(** The words of [s] with one space between them, written in one pass:
    [pending] tells that white space was read since the last word,
    [started] that a word has been written. *)
Fixpoint squeeze (pending started : bool) (s : string) : string :=
  match s with
  | EmptyString => EmptyString
  | String c r =>
      if Str.isspace c then squeeze true started r
      else if pending && started
           then String " " (String c (squeeze false true r))
           else String c (squeeze false true r)
  end.

(** A word: not empty and free of white space. *)
Definition is_word (w : string) : bool :=
  Str.truthy w && Str.all (fun c => negb (Str.isspace c)) w.

(** The three-way comparison of two sort keys that [key_lt] decides. *)
Definition key_compare (a b : string * string) : comparison :=
  match String.compare (fst a) (fst b) with
  | Eq => String.compare (snd a) (snd b)
  | c => c
  end.

(** Two sort keys are the same. *)
Definition key_eqb (a b : string * string) : bool :=
  String.eqb (fst a) (fst b) && String.eqb (snd a) (snd b).

(** The place of the last occurrence of [k] in [l]. *)
Fixpoint last_index (k : string) (l : list string) : option nat :=
  match l with
  | [] => None
  | h :: r =>
      match last_index k r with
      | Some j => Some (S j)
      | None => if String.eqb k h then Some 0 else None
      end
  end.

(** No square bracket occurs in [s]. *)
Definition no_bracket (c : ascii) : bool :=
  negb (Ascii.eqb c "[" || Ascii.eqb c "]").

Definition bracket_free (s : string) : bool := Str.all no_bracket s.

Definition parts_bracket_free (r : Urllib.ParseResult) : bool :=
  bracket_free (Urllib.scheme r) && bracket_free (Urllib.netloc r)
  && bracket_free (Urllib.path r) && bracket_free (Urllib.params r)
  && bracket_free (Urllib.query r) && bracket_free (Urllib.fragment r).

(** * Properties *)

(** ** The exception layer *)

Lemma bind_ok {A B : Type} (m : result A) (k : A -> result B) (b : B) :
  bind m k = Ok b -> exists a, m = Ok a /\ k a = Ok b.
Proof.
  destruct m as [a|e]; simpl; intro H; [exists a; auto | discriminate].
Qed.

Lemma index_in_range {A : Type} (l : list A) (i : nat) :
  i < length l -> exists v, index l i = Ok v /\ nth_error l i = Some v.
Proof.
  intro H. unfold index.
  destruct (nth_error l i) as [v|] eqn:E.
  - exists v; auto.
  - apply nth_error_None in E. lia.
Qed.

(** ** Query parameters *)






(** ** Resolving query-only links *)

Lemma split_scheme_query_only (dflt q : string) :
  Urllib.split_scheme dflt (String "?" q) = (dflt, String "?" q).
Proof.
  unfold Urllib.split_scheme.
  destruct (Str.partition ":" (String "?" q)) as [[[|c pre] post]|]; reflexivity.
Qed.

Lemma split_once_query_only (q : string) :
  Urllib.split_once "#" (String "?" q) =
  (String "?" (fst (Urllib.split_once "#" q)), snd (Urllib.split_once "#" q)).
Proof.
  unfold Urllib.split_once. simpl.
  destruct (Str.partition "#" q) as [[a b]|]; reflexivity.
Qed.

(** A link that starts with [?] has a query and a fragment and nothing
    else; the scheme is the default one. *)
Lemma urlparse_query_only (q : string) :
  Urllib.urlparse (String "?" q) "https" =
  Ok (Urllib.mkParseResult "https" "" "" ""
        (fst (Urllib.split_once "#" (Str.remove Urllib.is_unsafe q)))
        (snd (Urllib.split_once "#" (Str.remove Urllib.is_unsafe q)))).
Proof.
  unfold Urllib.urlparse, Urllib.urlsplit.
  change (Str.lstrip_by Urllib.is_c0_or_space (String "?" q)) with (String "?" q).
  change (Str.remove Urllib.is_unsafe (String "?" q))
    with (String "?" (Str.remove Urllib.is_unsafe q)).
  rewrite split_scheme_query_only.
  cbn [bind].
  rewrite split_once_query_only.
  destruct (Urllib.split_once "#" (Str.remove Urllib.is_unsafe q)) as [a b].
  reflexivity.
Qed.

Lemma urlparse_RESULTS_ROOT :
  Urllib.urlparse RESULTS_ROOT "" =
  Ok (Urllib.mkParseResult "https" "results.supercrosslive.com" "/results/" "" "" "").
Proof. reflexivity. Qed.

Lemma urlparse_EVENTS_URL :
  Urllib.urlparse EVENTS_URL "" =
  Ok (Urllib.mkParseResult "https" "results.supercrosslive.com" "/events/" "" "" "").
Proof. reflexivity. Qed.

(** Joined to a base whose URL has no query, a link that starts with [?]
    is the base followed by the query and the fragment of the link. *)
Lemma urljoin_query_only (base p q : string) :
  Str.truthy base = true ->
  Urllib.urlparse base "" =
    Ok (Urllib.mkParseResult "https" "results.supercrosslive.com" p "" "" "") ->
  Str.startswith p "/" = true ->
  Urllib.urljoin base (String "?" q) =
  Ok (Urllib.add_part
        (Urllib.add_part ("https://results.supercrosslive.com" ++ p) "?"
           (fst (Urllib.split_once "#" (Str.remove Urllib.is_unsafe q))))
        "#" (snd (Urllib.split_once "#" (Str.remove Urllib.is_unsafe q)))).
Proof.
  intros Hb Hp Hs. unfold Urllib.urljoin. rewrite Hb, Hp.
  cbn [negb Str.truthy bind Urllib.scheme].
  rewrite urlparse_query_only.
  destruct (Urllib.split_once "#" (Str.remove Urllib.is_unsafe q)) as [a b].
  cbn [bind Urllib.scheme Urllib.netloc Urllib.path Urllib.params Urllib.query
       Urllib.fragment fst snd].
  change (negb (String.eqb "https" "https") || negb (Urllib.str_in "https" Urllib.uses_relative))
    with false.
  change (Urllib.str_in "https" Urllib.uses_netloc) with true.
  cbn [Str.truthy andb negb].
  unfold Urllib.urlunparse, Urllib.urlunsplit.
  cbn [Urllib.scheme Urllib.netloc Urllib.path Urllib.params Urllib.query
       Urllib.fragment Str.truthy orb].
  destruct p as [|c p']; cbn [Str.startswith] in Hs; [discriminate Hs|].
  destruct (Ascii.eqb "/" c) eqn:E; [|discriminate Hs].
  apply Ascii.eqb_eq in E. subst c.
  destruct a; reflexivity.
Qed.

Lemma urljoin_RESULTS_ROOT_query_only (q : string) :
  Urllib.urljoin RESULTS_ROOT (String "?" q) =
  Ok (Urllib.add_part
        (Urllib.add_part RESULTS_ROOT "?"
           (fst (Urllib.split_once "#" (Str.remove Urllib.is_unsafe q))))
        "#" (snd (Urllib.split_once "#" (Str.remove Urllib.is_unsafe q)))).
Proof.
  exact (urljoin_query_only RESULTS_ROOT "/results/" q eq_refl
           urlparse_RESULTS_ROOT eq_refl).
Qed.

Lemma urljoin_EVENTS_URL_query_only (q : string) :
  Urllib.urljoin EVENTS_URL (String "?" q) =
  Ok (Urllib.add_part
        (Urllib.add_part EVENTS_URL "?"
           (fst (Urllib.split_once "#" (Str.remove Urllib.is_unsafe q))))
        "#" (snd (Urllib.split_once "#" (Str.remove Urllib.is_unsafe q)))).
Proof.
  exact (urljoin_query_only EVENTS_URL "/events/" q eq_refl
           urlparse_EVENTS_URL eq_refl).
Qed.

(** The URL of a discovered event is the link joined to [EVENTS_URL]. *)
Lemma event_of_anchor_url (a : Bs4.node) (e : EventRef) :
  event_of_anchor a = Ok (Some e) ->
  Urllib.urljoin EVENTS_URL (Str.strip (Bs4.get_attr "href" a)) = Ok (url e).
Proof.
  unfold event_of_anchor.
  destruct (negb (Str.truthy (Str.strip (Bs4.get_attr "href" a)))); [discriminate|].
  destruct (Urllib.urljoin EVENTS_URL (Str.strip (Bs4.get_attr "href" a)))
    as [href|]; [|discriminate].
  cbn [bind].
  destruct (Urllib.urlparse href "") as [r|]; [|discriminate].
  cbn [bind].
  destruct (pval_of (Urllib.parse_qs (Urllib.query r))) as [pv|]; [|discriminate].
  cbn [bind].
  destruct (negb (String.eqb pv "view_event")); [discriminate|].
  destruct (id_of (Urllib.parse_qs (Urllib.query r))) as [[eid|]|]; try discriminate.
  cbn [bind].
  destruct (negb (Str.truthy eid)); [discriminate|].
  intro H. inversion H. reflexivity.
Qed.

(** The URL of a discovered session is the link joined by [session_href]. *)
Lemma session_of_anchor_url (a : Bs4.node) (s : SessionRef) :
  session_of_anchor a = Ok (Some s) ->
  session_href (Str.strip (Bs4.get_attr "href" a)) = Ok (session_url s).
Proof.
  unfold session_of_anchor.
  destruct (negb (Str.truthy (Str.strip (Bs4.get_attr "href" a)))); [discriminate|].
  destruct (session_href (Str.strip (Bs4.get_attr "href" a)))
    as [href|]; [|discriminate].
  cbn [bind].
  destruct (negb (Str.contains "view_race_result" href)); [discriminate|].
  destruct (Urllib.urlparse href "") as [r|]; [|discriminate].
  cbn [bind].
  destruct (pval_of (Urllib.parse_qs (Urllib.query r))) as [pv|]; [|discriminate].
  cbn [bind].
  destruct (negb (String.eqb pv "view_race_result")); [discriminate|].
  destruct (id_of (Urllib.parse_qs (Urllib.query r))) as [[rrid|]|]; try discriminate.
  cbn [bind].
  destruct (negb (Str.truthy rrid)); [discriminate|].
  intro H. inversion H. reflexivity.
Qed.

(** C1, as stated, fails in event discovery: a link that starts with [?]
    is joined there to the events listing, not to [RESULTS_ROOT]. *)
Lemma events_query_only_not_at_results_root :
  ~ (forall (a : Bs4.node) (e : EventRef),
        Str.startswith (Str.strip (Bs4.get_attr "href" a)) "?" = true ->
        event_of_anchor a = Ok (Some e) ->
        Urllib.urljoin RESULTS_ROOT (Str.strip (Bs4.get_attr "href" a)) = Ok (url e)).
Proof.
  intro H.
  specialize (H (anchor "?id=5&p=view_event" "Anaheim 1")
                (mkEventRef "5" "Anaheim 1"
                   "https://results.supercrosslive.com/events/?id=5&p=view_event")).
  assert (Hq : Str.startswith
                 (Str.strip (Bs4.get_attr "href" (anchor "?id=5&p=view_event" "Anaheim 1")))
                 "?" = true) by (vm_compute; reflexivity).
  specialize (H Hq). clear Hq.
  vm_compute in H. specialize (H eq_refl). discriminate H.
Qed.

(** C1, amended. Where the link of an anchor starts with [?]: session
    discovery joins it to [RESULTS_ROOT], and the URL of the session is
    [RESULTS_ROOT], then [?] and the query of the link when it has one,
    then [#] and its fragment when it has one; event discovery joins it to
    [EVENTS_URL] in the same way. The link [?id=77&p=view_race_result] of
    an event page gives the session 77 at [RESULTS_ROOT] followed by the
    link itself. *)
Theorem query_only_href_resolution (a : Bs4.node) (q : string) :
  Str.strip (Bs4.get_attr "href" a) = String "?" q ->
  let qq := fst (Urllib.split_once "#" (Str.remove Urllib.is_unsafe q)) in
  let ff := snd (Urllib.split_once "#" (Str.remove Urllib.is_unsafe q)) in
  (session_href (String "?" q) = Urllib.urljoin RESULTS_ROOT (String "?" q)
   /\ session_href (String "?" q) =
      Ok (Urllib.add_part (Urllib.add_part RESULTS_ROOT "?" qq) "#" ff))
  /\ (forall s, session_of_anchor a = Ok (Some s) ->
        session_url s = Urllib.add_part (Urllib.add_part RESULTS_ROOT "?" qq) "#" ff)
  /\ (forall e, event_of_anchor a = Ok (Some e) ->
        url e = Urllib.add_part (Urllib.add_part EVENTS_URL "?" qq) "#" ff)
  /\ discover_sessions [anchor "?id=77&p=view_race_result" "450SX Main Event"] =
     Ok [mkSessionRef "77" "450SX Main Event"
           (RESULTS_ROOT ++ "?id=77&p=view_race_result")].
Proof.
  intros Hhref qq ff.
  assert (Hs : session_href (String "?" q) = Urllib.urljoin RESULTS_ROOT (String "?" q))
    by reflexivity.
  split; [split; [exact Hs | rewrite Hs; apply urljoin_RESULTS_ROOT_query_only] |].
  split; [|split].
  - intros s H. apply session_of_anchor_url in H.
    rewrite Hhref, Hs, urljoin_RESULTS_ROOT_query_only in H.
    now inversion H.
  - intros e H. apply event_of_anchor_url in H.
    rewrite Hhref, urljoin_EVENTS_URL_query_only in H.
    now inversion H.
  - vm_compute. reflexivity.
Qed.

Lemma query_only_href_resolution_witness :
  Str.strip (Bs4.get_attr "href" (anchor "?id=77&p=view_race_result" "450SX Main Event"))
    = String "?" "id=77&p=view_race_result"
  /\ forall s,
       session_of_anchor (anchor "?id=77&p=view_race_result" "450SX Main Event")
         = Ok (Some s) ->
       session_url s = "https://results.supercrosslive.com/results/?id=77&p=view_race_result".
Proof.
  assert (Hhref :
    Str.strip (Bs4.get_attr "href" (anchor "?id=77&p=view_race_result" "450SX Main Event"))
      = String "?" "id=77&p=view_race_result") by (vm_compute; reflexivity).
  split; [exact Hhref|].
  intros s Hs.
  rewrite (proj1 (proj2
    (query_only_href_resolution
       (anchor "?id=77&p=view_race_result" "450SX Main Event")
       "id=77&p=view_race_result" Hhref)) s Hs).
  vm_compute. reflexivity.
Defined.

(** ** Discovery: the discriminator and the pre-filter *)

(** C4 at the link [?id=77&p=VIEW_RACE_RESULT]: its URL passes the test on
    [p] and carries the id 77, yet session discovery returns nothing,
    because the pre-filter compares letter case; event discovery, which
    has no pre-filter, finds the like link. *)
Theorem session_prefilter_is_case_sensitive :
  discover_sessions [anchor "?id=77&p=VIEW_RACE_RESULT" "450SX Main Event"] = Ok []
  /\ (exists href r,
        session_href "?id=77&p=VIEW_RACE_RESULT" = Ok href
        /\ Urllib.urlparse href "" = Ok r
        /\ pval_of (Urllib.parse_qs (Urllib.query r)) = Ok "view_race_result"
        /\ id_of (Urllib.parse_qs (Urllib.query r)) = Ok (Some "77")
        /\ Str.contains "view_race_result" href = false)
  /\ discover_events [anchor "?id=77&p=VIEW_EVENT" "Anaheim 1"] =
     Ok [mkEventRef "77" "Anaheim 1" (EVENTS_URL ++ "?id=77&p=VIEW_EVENT")].
Proof.
  split; [vm_compute; reflexivity|]. split; [|vm_compute; reflexivity].
  exists "https://results.supercrosslive.com/results/?id=77&p=VIEW_RACE_RESULT".
  exists (Urllib.mkParseResult "https" "results.supercrosslive.com" "/results/" ""
            "id=77&p=VIEW_RACE_RESULT" "").
  repeat split; vm_compute; reflexivity.
Qed.

(** ** Discovery: links that do not parse *)

(** A loop whose every pass [continue]s returns the empty list. *)
Lemma collect_nothing {A B : Type} (body : A -> result (option B)) (l : list A) :
  (forall x, In x l -> body x = Ok None) -> collect body l = Ok [].
Proof.
  induction l as [|x r IH]; intro H; cbn [collect]; [reflexivity|].
  rewrite (H x (or_introl eq_refl)), IH; [reflexivity|].
  intros y Hy. apply H. now right.
Qed.

(** The first pass of a loop that raises ends the loop. *)
Lemma collect_raises {A B : Type} (body : A -> result (option B))
  (pre : list A) (x : A) (post : list A) (e : exn) :
  (forall y, In y pre -> exists o, body y = Ok o) ->
  body x = Raise e ->
  collect body (pre ++ x :: post) = Raise e.
Proof.
  intros Hpre Hx. induction pre as [|y r IH]; cbn [collect app].
  - now rewrite Hx.
  - destruct (Hpre y (or_introl eq_refl)) as [o Ho]. rewrite Ho. cbn [bind].
    rewrite IH; [reflexivity|]. intros z Hz. apply Hpre. now right.
Qed.

(** Where no anchor gives an entity, discovery returns the empty list. *)
Lemma discovery_without_matches (soup : list Bs4.node) :
  ((forall a, In a (Bs4.find_all_with "a" "href" soup) -> event_of_anchor a = Ok None) ->
   discover_events soup = Ok [])
  /\ ((forall a, In a (Bs4.find_all_with "a" "href" soup) -> session_of_anchor a = Ok None) ->
      discover_sessions soup = Ok []).
Proof.
  split; intro H.
  - unfold discover_events. now rewrite (collect_nothing _ _ H).
  - unfold discover_sessions. now rewrite (collect_nothing _ _ H).
Qed.

(** An anchor whose link [urljoin] rejects makes event discovery raise,
    whatever follows it in the document. *)
Lemma discover_events_raises (soup pre post : list Bs4.node) (a : Bs4.node) (e : exn) :
  Bs4.find_all_with "a" "href" soup = pre ++ a :: post ->
  (forall y, In y pre -> exists o, event_of_anchor y = Ok o) ->
  Str.truthy (Str.strip (Bs4.get_attr "href" a)) = true ->
  Urllib.urljoin EVENTS_URL (Str.strip (Bs4.get_attr "href" a)) = Raise e ->
  discover_events soup = Raise e.
Proof.
  intros E Hpre Ht Hj. unfold discover_events. rewrite E.
  rewrite (collect_raises event_of_anchor pre a post e Hpre); [reflexivity|].
  unfold event_of_anchor. rewrite Ht, Hj. reflexivity.
Qed.

(** C9 at the document [<a href="//[">x</a>]: the link has an opening
    bracket without its closing one in the place of the host, [urljoin]
    raises [ValueError], and both discovery functions let it escape;
    [extract_query_param], which catches, returns [None] on the same link. *)
Theorem discovery_raises_on_unbalanced_bracket :
  discover_events [anchor "//[" "x"] = Raise ValueError
  /\ discover_sessions [anchor "//[" "x"] = Raise ValueError
  /\ Urllib.urljoin EVENTS_URL "//[" = Raise ValueError
  /\ extract_query_param "//[" "p" = Ok None.
Proof. repeat split; vm_compute; reflexivity. Qed.

(** ** De-duplication *)

Section Dedupe.

Variable V : Type.
Variable key : V -> string.

Lemma setdefault_old (d : list (string * V)) (k : string) (v : V) :
  has_key k d = true -> setdefault d k v = d.
Proof.
  induction d as [|[k' v'] r IH]; simpl; intro H.
  - discriminate.
  - destruct (String.eqb k k') eqn:E; [reflexivity|].
    simpl in H. rewrite IH by exact H. reflexivity.
Qed.

Lemma setdefault_new (d : list (string * V)) (k : string) (v : V) :
  has_key k d = false -> setdefault d k v = d ++ [(k, v)].
Proof.
  induction d as [|[k' v'] r IH]; simpl; intro H.
  - reflexivity.
  - destruct (String.eqb k k') eqn:E; [discriminate|].
    simpl in H. rewrite IH by exact H. reflexivity.
Qed.

Lemma has_key_app (k : string) (d1 d2 : list (string * V)) :
  has_key k (d1 ++ d2) = has_key k d1 || has_key k d2.
Proof. unfold has_key. apply existsb_app. Qed.

Lemma filter_filter_comm (p q : V -> bool) (l : list V) :
  filter p (filter q l) = filter q (filter p l).
Proof.
  induction l as [|x r IH]; simpl; [reflexivity|].
  destruct (p x) eqn:Ep, (q x) eqn:Eq; simpl; rewrite ?Ep, ?Eq, IH; reflexivity.
Qed.

Lemma filter_absorb (p q : V -> bool) (l : list V) :
  (forall y, p y = true -> q y = true) ->
  filter p (filter q l) = filter p l.
Proof.
  intro H. induction l as [|x r IH]; simpl; [reflexivity|].
  destruct (q x) eqn:Eq; simpl.
  - now rewrite IH.
  - destruct (p x) eqn:Ep; [|exact IH].
    apply H in Ep. congruence.
Qed.

(** A filter on keys commutes with the choice of first occurrences. *)
Lemma first_occurrences_filter (f : string -> bool) (l : list V) :
  first_occurrences key (filter (fun y => f (key y)) l) =
  filter (fun y => f (key y)) (first_occurrences key l).
Proof.
  induction l as [|x r IH]; simpl; [reflexivity|].
  destruct (f (key x)) eqn:E; simpl.
  - rewrite IH. f_equal. apply filter_filter_comm.
  - rewrite IH. symmetry. apply filter_absorb.
    intros y Hy. destruct (String.eqb (key y) (key x)) eqn:Ek; [|reflexivity].
    apply String.eqb_eq in Ek. congruence.
Qed.

Lemma dedupe_fold (l : list V) :
  forall acc,
    List.map snd (fold_left (dedupe_step key) l acc) =
    List.map snd acc ++
    first_occurrences key (filter (fun y => negb (has_key (key y) acc)) l).
Proof.
  induction l as [|x r IH]; intro acc; simpl.
  - now rewrite app_nil_r.
  - rewrite IH. unfold dedupe_step at 1 2.
    destruct (has_key (key x) acc) eqn:E; simpl.
    + rewrite setdefault_old by exact E. reflexivity.
    + rewrite setdefault_new by exact E.
      rewrite map_app, <- app_assoc. simpl. do 2 f_equal.
      rewrite <- (first_occurrences_filter
                    (fun k => negb (String.eqb k (key x)))).
      f_equal.
      clear. induction r as [|y r IH]; simpl; [reflexivity|].
      rewrite has_key_app. simpl. rewrite orb_false_r.
      destruct (has_key (key y) acc); simpl.
      * exact IH.
      * destruct (String.eqb (key y) (key x)); simpl; now rewrite IH.
Qed.

(** The de-dupe loop keeps the first occurrences. *)
Lemma dedupe_first_occurrences (l : list V) :
  dedupe key l = first_occurrences key l.
Proof.
  unfold dedupe. rewrite dedupe_fold. simpl.
  f_equal. induction l as [|x r IH]; simpl; [reflexivity|]. now rewrite IH.
Qed.

Lemma first_occurrences_NoDup (l : list V) :
  NoDup (List.map key (first_occurrences key l)).
Proof.
  induction l as [|x r IH]; simpl; [constructor|].
  constructor.
  - intro H. apply in_map_iff in H. destruct H as [y [Hk Hy]].
    apply filter_In in Hy. destruct Hy as [_ Hy].
    rewrite Hk, String.eqb_refl in Hy. discriminate.
  - clear -IH. induction (first_occurrences key r) as [|y t IHt]; simpl.
    + constructor.
    + inversion IH; subst.
      destruct (negb (String.eqb (key y) (key x))); simpl; [|auto].
      constructor; [|auto].
      intro H. apply H1. apply in_map_iff in H. destruct H as [z [Hz Hin]].
      apply filter_In in Hin. apply in_map_iff. exists z. tauto.
Qed.

Lemma first_occurrences_covers (l : list V) (e : V) :
  In e l -> exists e', In e' (first_occurrences key l) /\ key e' = key e.
Proof.
  induction l as [|x r IH]; simpl; [tauto|].
  intros [<-|H].
  - exists x. auto.
  - destruct (IH H) as [e' [Hin Hk]].
    destruct (String.eqb (key e') (key x)) eqn:E.
    + apply String.eqb_eq in E. exists x. split; [now left|congruence].
    + exists e'. split; [|exact Hk]. right. apply filter_In. now rewrite E.
Qed.

Lemma first_occurrences_find (l : list V) (e' : V) :
  In e' (first_occurrences key l) ->
  List.find (fun x => String.eqb (key x) (key e')) l = Some e'.
Proof.
  induction l as [|x r IH]; simpl; [tauto|].
  intros [<-|H].
  - now rewrite String.eqb_refl.
  - apply filter_In in H. destruct H as [H Hne].
    destruct (String.eqb (key x) (key e')) eqn:E.
    + rewrite String.eqb_sym, E in Hne. discriminate.
    + auto.
Qed.

(** The first element of [l] with the key of an element kept. *)
Lemma first_occurrences_split (l : list V) (b : V) :
  In b (first_occurrences key l) ->
  exists l2 l3, l = l2 ++ b :: l3 /\ ~ In (key b) (List.map key l2).
Proof.
  induction l as [|x r IH]; simpl; [tauto|].
  intros [<-|H].
  - exists [], r. simpl. auto.
  - apply filter_In in H. destruct H as [H Hne].
    destruct (IH H) as [l2 [l3 [-> Hnot]]].
    exists (x :: l2), l3. split; [reflexivity|].
    simpl. intros [Hk|Hk]; [|auto].
    rewrite Hk, String.eqb_refl in Hne. discriminate.
Qed.

Lemma filter_split2 (f : V -> bool) (l : list V) :
  forall p a m b s,
    filter f l = p ++ a :: m ++ b :: s ->
    exists p' m' s', l = p' ++ a :: m' ++ b :: s'.
Proof.
  induction l as [|x r IH]; simpl; intros p a m b s H.
  - destruct p; discriminate.
  - destruct (f x).
    + destruct p as [|y p]; simpl in H; inversion H; subst.
      * assert (Hb : In b (filter f r)) by (rewrite H2; apply in_elt).
        apply filter_In in Hb. destruct Hb as [Hb _].
        apply in_split in Hb. destruct Hb as [m' [s' ->]].
        exists [], m', s'. reflexivity.
      * destruct (IH _ _ _ _ _ H2) as [p' [m' [s' ->]]].
        exists (y :: p'), m', s'. reflexivity.
    + destruct (IH _ _ _ _ _ H) as [p' [m' [s' ->]]].
      exists (x :: p'), m', s'. reflexivity.
Qed.

Lemma first_occurrences_order (l : list V) :
  forall p a m b s,
    first_occurrences key l = p ++ a :: m ++ b :: s ->
    first_before key a b l.
Proof.
  induction l as [|x r IH]; simpl; intros p a m b s H.
  - destruct p; discriminate.
  - destruct p as [|y p]; simpl in H; inversion H; subst; clear H.
    + assert (Hb : In b (filter (fun y => negb (String.eqb (key y) (key a)))
                           (first_occurrences key r)))
        by (rewrite H2; apply in_elt).
      apply filter_In in Hb. destruct Hb as [Hb Hne].
      destruct (first_occurrences_split r b Hb) as [l2 [l3 [-> Hnot]]].
      exists [], l2, l3. simpl. repeat split; auto.
      intros [Hk|Hk]; [|auto].
      rewrite <- Hk, String.eqb_refl in Hne. discriminate.
    + assert (Ha : In a (filter (fun z => negb (String.eqb (key z) (key y)))
                           (first_occurrences key r)))
        by (rewrite H2; apply in_elt).
      assert (Hb : In b (filter (fun z => negb (String.eqb (key z) (key y)))
                           (first_occurrences key r)))
        by (rewrite H2, app_comm_cons, app_assoc; apply in_elt).
      apply filter_In in Ha, Hb. destruct Ha as [_ Ha], Hb as [_ Hb].
      destruct (filter_split2 _ _ _ _ _ _ _ H2) as [p' [m' [s' E]]].
      destruct (IH _ _ _ _ _ E) as [l1 [l2 [l3 [-> [H1 H3]]]]].
      exists (y :: l1), l2, l3. simpl. repeat split; auto.
      * intros [Hk|Hk]; [|auto].
        rewrite <- Hk, String.eqb_refl in Ha. discriminate.
      * intros [Hk|Hk]; [|auto].
        rewrite <- Hk, String.eqb_refl in Hb. discriminate.
Qed.

Lemma dedupe_first_of_each_key (found : list V) :
  first_of_each_key key found (dedupe key found).
Proof.
  rewrite dedupe_first_occurrences. repeat split.
  - apply first_occurrences_NoDup.
  - apply first_occurrences_covers.
  - apply first_occurrences_find.
  - apply first_occurrences_order.
Qed.

End Dedupe.

(** C5. When the loop over the anchors has found the list [found], event
    discovery returns the first occurrences of [found] by [event_id], and
    session discovery those by [race_result_id]: one entity for every id,
    each the first of [found] with its id (so with the label and the URL
    of the first anchor), in the order of these first places. Of the two
    links to the event 5 of the sample listing, the first is returned. *)
Theorem discovery_keeps_first_occurrence (soup : list Bs4.node) :
  (forall found,
      collect event_of_anchor (Bs4.find_all_with "a" "href" soup) = Ok found ->
      discover_events soup = Ok (first_occurrences event_id found)
      /\ first_of_each_key event_id found (first_occurrences event_id found))
  /\ (forall found,
        collect session_of_anchor (Bs4.find_all_with "a" "href" soup) = Ok found ->
        discover_sessions soup = Ok (first_occurrences race_result_id found)
        /\ first_of_each_key race_result_id found
             (first_occurrences race_result_id found))
  /\ discover_events twice_linked_doc =
     Ok [mkEventRef "5" "Anaheim 1"
           "https://results.supercrosslive.com/results/?id=5&p=view_event";
         mkEventRef "9" "San Diego"
           "https://results.supercrosslive.com/results/?id=9&p=view_event"].
Proof.
  split; [|split].
  - intros found H. unfold discover_events. rewrite H. cbn [bind].
    rewrite dedupe_first_occurrences. split; [reflexivity|].
    rewrite <- dedupe_first_occurrences. apply dedupe_first_of_each_key.
  - intros found H. unfold discover_sessions. rewrite H. cbn [bind].
    rewrite dedupe_first_occurrences. split; [reflexivity|].
    rewrite <- dedupe_first_occurrences. apply dedupe_first_of_each_key.
  - vm_compute. reflexivity.
Qed.

Lemma discovery_keeps_first_occurrence_witness :
  collect event_of_anchor (Bs4.find_all_with "a" "href" twice_linked_doc) =
    Ok [mkEventRef "5" "Anaheim 1"
          "https://results.supercrosslive.com/results/?id=5&p=view_event";
        mkEventRef "9" "San Diego"
          "https://results.supercrosslive.com/results/?id=9&p=view_event";
        mkEventRef "5" "Round 1 (Anaheim)"
          "https://results.supercrosslive.com/results/?p=view_event&id=5"]
  /\ discover_events twice_linked_doc =
     Ok [mkEventRef "5" "Anaheim 1"
           "https://results.supercrosslive.com/results/?id=5&p=view_event";
         mkEventRef "9" "San Diego"
           "https://results.supercrosslive.com/results/?id=9&p=view_event"].
Proof.
  assert (H : collect event_of_anchor (Bs4.find_all_with "a" "href" twice_linked_doc) =
    Ok [mkEventRef "5" "Anaheim 1"
          "https://results.supercrosslive.com/results/?id=5&p=view_event";
        mkEventRef "9" "San Diego"
          "https://results.supercrosslive.com/results/?id=9&p=view_event";
        mkEventRef "5" "Round 1 (Anaheim)"
          "https://results.supercrosslive.com/results/?p=view_event&id=5"])
    by (vm_compute; reflexivity).
  split; [exact H|].
  rewrite (proj1 (proj1 (discovery_keeps_first_occurrence twice_linked_doc) _ H)).
  vm_compute. reflexivity.
Defined.

(** ** The table parser *)


Lemma kept_In {A B : Type} (f : A -> option B) (l : list A) (y : B) :
  In y (kept f l) <-> exists x, In x l /\ f x = Some y.
Proof.
  unfold kept. rewrite in_flat_map. split.
  - intros [x [Hx Hy]]. exists x. split; [exact Hx|].
    destruct (f x) as [z|]; simpl in Hy; [|tauto].
    destruct Hy as [->|[]]. reflexivity.
  - intros [x [Hx Hy]]. exists x. split; [exact Hx|].
    rewrite Hy. now left.
Qed.

(** [get_cell] never raises: the index it reads is below [len(cells)]. *)
Lemma get_cell_field_of (col_map : list (string * nat)) (cells names : list string) :
  get_cell col_map cells names = Ok (field_of col_map cells names).
Proof.
  unfold field_of.
  induction names as [|n r IH]; cbn [get_cell List.find]; [reflexivity|].
  unfold alias_usable at 1.
  destruct (Urllib.dict_lookup col_map (Str.upper n)) as [i|] eqn:El; [|exact IH].
  destruct (i <? length cells) eqn:E; [|exact IH].
  apply Nat.ltb_lt in E.
  destruct (index_in_range cells i E) as [v [Hv Hn]].
  unfold cell_of_alias. rewrite Hv, El, Hn. reflexivity.
Qed.

Lemma int_of_digits (s : string) :
  Re.fullmatch_digits s = true -> Str.int s = Ok (Str.int_aux 0 s).
Proof. unfold Re.fullmatch_digits, Str.int. now intros ->. Qed.


Lemma fullmatch_digits_truthy (s : string) :
  Re.fullmatch_digits s = true -> Str.truthy s = true.
Proof. unfold Re.fullmatch_digits. intro H. now apply andb_prop in H. Qed.

(** One pass of the row loop never raises, and appends [table_row]. *)
Lemma row_of_tr_table_row (col_map : list (string * nat)) (tr : Bs4.node) :
  row_of_tr col_map tr = Ok (option_map FromTable (table_row col_map (cells_of tr))).
Proof.
  unfold row_of_tr, table_row. fold (cells_of tr).
  destruct (cells_of tr) as [|c cs] eqn:Ec; [reflexivity|].
  rewrite <- Ec. clear Ec.
  rewrite get_cell_field_of. cbn [bind].
  destruct (field_of col_map (cells_of tr) ["POS"]) as [s|]; [|reflexivity].
  destruct (Re.fullmatch_digits s) eqn:Ed.
  - rewrite (fullmatch_digits_truthy s Ed). cbn [negb orb].
    rewrite (int_of_digits s Ed). cbn [bind].
    rewrite !get_cell_field_of. reflexivity.
  - rewrite orb_true_r. reflexivity.
Qed.



(** ** The text fallback *)

Lemma span_split (p : ascii -> bool) (s : string) :
  forall a b, Str.span p s = (a, b) ->
    s = (a ++ b)%string /\ Str.all p a = true.
Proof.
  induction s as [|c r IH]; simpl; intros a b H.
  - inversion H. auto.
  - destruct (p c) eqn:E.
    + destruct (Str.span p r) as [a' b'] eqn:Es.
      inversion H; subst. destruct (IH a' b eq_refl) as [-> Ha].
      simpl. rewrite E, Ha. auto.
    + inversion H. auto.
Qed.







Lemma isdigit_not_space (c : ascii) : Str.isdigit c = true -> Str.isspace c = false.
Proof.
  unfold Str.isdigit, Str.isspace, Str.between. intro H.
  apply andb_prop in H. destruct H as [H1 H2].
  apply Nat.leb_le in H1. apply Nat.leb_le in H2.
  repeat rewrite orb_false_iff, ?andb_false_iff.
  repeat split.
  - right. apply Nat.leb_gt. lia.
  - right. apply Nat.leb_gt. lia.
  - apply Nat.eqb_neq. lia.
Qed.

Lemma span_rest (p : ascii -> bool) (s : string) :
  forall a b, Str.span p s = (a, b) ->
    b = EmptyString \/ exists c r, b = String c r /\ p c = false.
Proof.
  induction s as [|c r IH]; simpl; intros a b H.
  - inversion H. auto.
  - destruct (p c) eqn:E.
    + destruct (Str.span p r) as [a' b'] eqn:Es.
      inversion H; subst. exact (IH a' b eq_refl).
    + inversion H. right. eauto.
Qed.

Lemma no_LF_mem (s : string) :
  Str.all (fun c => negb (Ascii.eqb c Str.LF)) s = true <-> Str.mem Str.LF s = false.
Proof.
  induction s as [|c r IH]; cbn [Str.all Str.mem]; [tauto|].
  rewrite andb_true_iff, orb_false_iff, IH, negb_true_iff, (Ascii.eqb_sym c).
  tauto.
Qed.

(** What the row pattern has matched has the shape of a data line. *)
Lemma match_row_sound (ln g1 g2 g3 : string) :
  Re.match_row ln = Some (g1, g2, g3) -> row_shape ln g1 g2 g3.
Proof.
  unfold Re.match_row, Re.dot_star_eol.
  destruct (Str.span Str.isdigit ln) as [d s1] eqn:E1.
  destruct (Str.span Str.isspace s1) as [w1 s2] eqn:E2.
  destruct (Str.span (fun c => negb (Str.isspace c)) s2) as [t s3] eqn:E3.
  destruct (Str.span Str.isspace s3) as [w2 s4] eqn:E4.
  destruct (Str.span (fun c => negb (Ascii.eqb c Str.LF)) s4) as [body rest] eqn:E5.
  pose proof (span_rest _ _ _ _ E5) as Hrest.
  apply span_split in E1, E2, E3, E4, E5.
  destruct E1 as [-> Hd], E2 as [-> Hw1], E3 as [-> Ht], E4 as [-> Hw2], E5 as [-> Hb].
  destruct (Str.truthy d) eqn:Td; [|discriminate].
  destruct (Str.truthy w1) eqn:Tw1; [|discriminate].
  destruct (Str.truthy t) eqn:Tt; [|discriminate].
  destruct (Str.truthy w2) eqn:Tw2; [|discriminate].
  cbn [andb].
  apply no_LF_mem in Hb.
  intro H.
  assert (Hg : (rest = EmptyString \/ rest = String Str.LF EmptyString)
               /\ d = g1 /\ t = g2 /\ body = g3).
  { destruct rest as [|c [|c' r']].
    - inversion H. auto.
    - inversion H; subst. split; [|auto]. right.
      destruct Hrest as [Hr|[c0 [r0 [Hr Hc]]]]; [discriminate|].
      inversion Hr; subst. apply negb_false_iff, Ascii.eqb_eq in Hc.
      now subst.
    - discriminate. }
  destruct Hg as [Hnl [-> [-> ->]]].
  exists w1, w2, rest. unfold Re.fullmatch_digits. rewrite Td, Hd.
  repeat split; auto.
Qed.


(** The loop over the lines never raises: [int] reads digits only. *)
Lemma scan_lines_text_rows (lines : list string) :
  scan_lines lines = Ok (text_rows lines).
Proof.
  unfold text_rows.
  induction lines as [|ln r IH]; cbn [scan_lines until_footer]; [reflexivity|].
  destruct (is_footer_line ln); [reflexivity|].
  unfold kept. cbn [flat_map]. fold (kept (fun ln => option_map FromText (text_row ln)) (until_footer r)).
  unfold text_row at 1.
  destruct (Re.match_row ln) as [[[g1 g2] g3]|] eqn:E; [|exact IH].
  destruct (match_row_sound ln g1 g2 g3 E) as [w1 [w2 [nl [_ [Hd _]]]]].
  rewrite (int_of_digits g1 Hd), IH. reflexivity.
Qed.




Lemma fallback_of_lines_rows (lines : list string) :
  fallback_of_lines lines = Ok (fallback_rows lines).
Proof.
  unfold fallback_of_lines, fallback_rows.
  destruct (find_header 0 lines); [apply scan_lines_text_rows|reflexivity].
Qed.






(** ** The table parser: which table, which rows *)






(** ** The rows of a table *)

Lemma dict_lookup_set {V : Type} (d : list (string * V)) (k k' : string) (v : V) :
  Urllib.dict_lookup (dict_set d k v) k' =
  if String.eqb k' k then Some v else Urllib.dict_lookup d k'.
Proof.
  induction d as [|[k0 v0] r IH]; cbn [dict_set Urllib.dict_lookup].
  - reflexivity.
  - destruct (String.eqb k k0) eqn:E; cbn [Urllib.dict_lookup].
    + apply String.eqb_eq in E. subst k0. now destruct (String.eqb k' k).
    + rewrite IH. destruct (String.eqb k' k0) eqn:E'; [|reflexivity].
      apply String.eqb_eq in E'. subst k0.
      destruct (String.eqb k' k) eqn:E''; [|reflexivity].
      apply String.eqb_eq in E''. subst k'. rewrite String.eqb_refl in E. discriminate.
Qed.

(** The column map sends a header text to a place where it stands. *)
Lemma col_map_from_lookup (full : list string) (header : list string) :
  forall i d,
    (forall j, nth_error header j = nth_error full (i + j)) ->
    (forall k j, Urllib.dict_lookup d k = Some j -> nth_error full j = Some k) ->
    forall k j,
      Urllib.dict_lookup (col_map_from i header d) k = Some j ->
      nth_error full j = Some k.
Proof.
  induction header as [|h r IH]; intros i d Hh Hd k j; cbn [col_map_from].
  - apply Hd.
  - apply IH.
    + intro j'. specialize (Hh (S j')). cbn [nth_error] in Hh.
      rewrite Hh. f_equal. lia.
    + intros k' j'. rewrite dict_lookup_set.
      destruct (String.eqb k' h) eqn:E.
      * apply String.eqb_eq in E. subst k'. intro H. inversion H; subst j'.
        specialize (Hh 0). cbn [nth_error] in Hh. rewrite Nat.add_0_r in Hh. auto.
      * apply Hd.
Qed.

Lemma col_map_of_lookup (header : list string) (k : string) (j : nat) :
  Urllib.dict_lookup (col_map_of header) k = Some j -> nth_error header j = Some k.
Proof.
  unfold col_map_of. apply col_map_from_lookup.
  - intro j'. reflexivity.
  - intros k' j' H. discriminate.
Qed.

(** What [field_of] returns is a cell of the row, not blank, in the
    column of one of the aliases. *)
Lemma field_of_Some (col_map : list (string * nat)) (cells names : list string)
  (v : string) :
  field_of col_map cells names = Some v ->
  exists n i,
    In n names
    /\ Urllib.dict_lookup col_map (Str.upper n) = Some i
    /\ nth_error cells i = Some v
    /\ Str.truthy v = true.
Proof.
  unfold field_of.
  destruct (List.find (alias_usable col_map cells) names) as [n|] eqn:E; [|discriminate].
  apply find_some in E. destruct E as [Hin _].
  unfold cell_of_alias.
  destruct (Urllib.dict_lookup col_map (Str.upper n)) as [i|] eqn:El; [|discriminate].
  destruct (nth_error cells i) as [c|] eqn:En; [|discriminate].
  unfold non_blank. destruct (Str.truthy c) eqn:Et; [|discriminate].
  intro H. inversion H; subst. exists n, i. auto.
Qed.

Lemma truthy_not_empty (v : string) : Str.truthy v = true -> v <> EmptyString.
Proof. destruct v; [discriminate|discriminate]. Qed.

(** The fields of a row the table parser has built. *)
Lemma table_row_Some (col_map : list (string * nat)) (cells : list string) (t : TableRow) :
  table_row col_map cells = Some t ->
  cells <> []
  /\ raw t = cells
  /\ (exists s, field_of col_map cells ["POS"] = Some s
                /\ Re.fullmatch_digits s = true
                /\ pos t = Str.int_aux 0 s)
  /\ number t = field_of col_map cells ["#"; "NUM"; "NO"; "NUMBER"]
  /\ rider t = field_of col_map cells ["RIDER"; "NAME"]
  /\ bike t = field_of col_map cells ["BIKE"]
  /\ best_lap t = field_of col_map cells ["BEST LAP"; "BEST"]
  /\ time t = field_of col_map cells ["TIME"; "TOTAL TIME"]
  /\ gap t = field_of col_map cells ["GAP"; "INTERVAL"]
  /\ points t = field_of col_map cells ["POINTS"; "PTS"].
Proof.
  unfold table_row.
  destruct cells as [|c cs]; [discriminate|].
  destruct (field_of col_map (c :: cs) ["POS"]) as [s|] eqn:Es; [|discriminate].
  destruct (Re.fullmatch_digits s) eqn:Ed; [|discriminate].
  intro H. inversion H; subst; clear H. cbn.
  repeat split; try reflexivity; try discriminate.
  exists s. auto.
Qed.



(** ** Positions *)




(** ** Named fields *)

(** C6, as stated, fails: with the headers [NAME] and [RIDER] both present
    and a row that stops before the [RIDER] column, the rider is read from
    the [NAME] column, whose alias comes second. *)
Lemma rider_of_short_row_from_second_alias :
  ~ (forall header tr t n i,
        row_of_tr (col_map_of header) tr = Ok (Some (FromTable t)) ->
        List.find (fun n => has_key (Str.upper n) (col_map_of header)) ["RIDER"; "NAME"]
          = Some n ->
        Urllib.dict_lookup (col_map_of header) (Str.upper n) = Some i ->
        rider t = match nth_error (raw t) i with
                  | Some v => non_blank v
                  | None => None
                  end).
Proof.
  intro H.
  specialize (H ["POS"; "NAME"; "RIDER"] (tr_of "td" ["1"; "Bob"])
                (mkTableRow 1 None (Some "Bob") None None None None None ["1"; "Bob"])
                "RIDER" 2).
  assert (H1 : row_of_tr (col_map_of ["POS"; "NAME"; "RIDER"]) (tr_of "td" ["1"; "Bob"])
               = Ok (Some (FromTable
                       (mkTableRow 1 None (Some "Bob") None None None None None
                          ["1"; "Bob"])))) by (vm_compute; reflexivity).
  assert (H2 : List.find (fun n => has_key (Str.upper n) (col_map_of ["POS"; "NAME"; "RIDER"]))
                 ["RIDER"; "NAME"] = Some "RIDER") by (vm_compute; reflexivity).
  assert (H3 : Urllib.dict_lookup (col_map_of ["POS"; "NAME"; "RIDER"]) (Str.upper "RIDER")
               = Some 2) by (vm_compute; reflexivity).
  specialize (H H1 H2 H3). cbn in H. discriminate H.
Qed.

(** C6, amended. Each named field of a row is read by [get_cell], which
    never raises, from the column of the first alias of the field that is
    in the header and whose column the row reaches; a blank cell there
    gives an absent field, without a look at the later aliases; no field
    is the empty string. *)
Theorem named_fields_first_usable_alias
  (col_map : list (string * nat)) (tr : Bs4.node) (t : TableRow) :
  row_of_tr col_map tr = Ok (Some (FromTable t)) ->
  (forall cells names,
      get_cell col_map cells names =
      Ok (match List.find (alias_usable col_map cells) names with
          | Some n => cell_of_alias col_map cells n
          | None => None
          end))
  /\ (forall cells n,
        alias_usable col_map cells n = true <->
        exists i, Urllib.dict_lookup col_map (Str.upper n) = Some i /\ i < length cells)
  /\ (forall cells n v,
        cell_of_alias col_map cells n = Some v <->
        exists i, Urllib.dict_lookup col_map (Str.upper n) = Some i
                  /\ nth_error cells i = Some v /\ v <> EmptyString)
  /\ number t = field_of col_map (raw t) ["#"; "NUM"; "NO"; "NUMBER"]
  /\ rider t = field_of col_map (raw t) ["RIDER"; "NAME"]
  /\ bike t = field_of col_map (raw t) ["BIKE"]
  /\ best_lap t = field_of col_map (raw t) ["BEST LAP"; "BEST"]
  /\ time t = field_of col_map (raw t) ["TIME"; "TOTAL TIME"]
  /\ gap t = field_of col_map (raw t) ["GAP"; "INTERVAL"]
  /\ points t = field_of col_map (raw t) ["POINTS"; "PTS"]
  /\ (forall f, In f [number; rider; bike; best_lap; time; gap; points] ->
                f t <> Some EmptyString).
Proof.
  intro H. rewrite row_of_tr_table_row in H.
  destruct (table_row col_map (cells_of tr)) as [t'|] eqn:Et; [|discriminate].
  inversion H; subst t'; clear H.
  destruct (table_row_Some _ _ _ Et)
    as [_ [Hraw [_ [Hnum [Hrid [Hbik [Hbest [Htim [Hgap Hpts]]]]]]]]].
  rewrite Hraw.
  split; [intros; apply get_cell_field_of|].
  split.
  { intros cells n. unfold alias_usable. split.
    - destruct (Urllib.dict_lookup col_map (Str.upper n)) as [i|]; [|discriminate].
      rewrite Nat.ltb_lt. eauto.
    - intros [i [-> Hlt]]. now apply Nat.ltb_lt. }
  split.
  { intros cells n v. unfold cell_of_alias, non_blank. split.
    - destruct (Urllib.dict_lookup col_map (Str.upper n)) as [i|]; [|discriminate].
      destruct (nth_error cells i) as [c|] eqn:En; [|discriminate].
      destruct (Str.truthy c) eqn:Tc; [|discriminate].
      intro Hv. injection Hv as <-. exists i.
      split; [reflexivity|]. split; [exact En|]. now apply truthy_not_empty.
    - intros [i [-> [-> Hne]]]. destruct v; [now elim Hne|reflexivity]. }
  repeat (split; [assumption|]).
  intros f Hf Heq.
  assert (Hfield : exists names, field_of col_map (cells_of tr) names = Some EmptyString).
  { cbn [In] in Hf.
    destruct Hf as [<-|[<-|[<-|[<-|[<-|[<-|[<-|[]]]]]]]]; eexists;
      [rewrite <- Hnum|rewrite <- Hrid|rewrite <- Hbik|rewrite <- Hbest
      |rewrite <- Htim|rewrite <- Hgap|rewrite <- Hpts]; exact Heq. }
  destruct Hfield as [names Hfield].
  destruct (field_of_Some _ _ _ _ Hfield) as [_ [_ [_ [_ [_ Ht]]]]]. discriminate.
Qed.

Lemma named_fields_first_usable_alias_witness :
  row_of_tr (col_map_of (header_of short_row_table)) (tr_of "td" ["1"; "Bob"])
    = Ok (Some (FromTable
                  (mkTableRow 1 None (Some "Bob") None None None None None ["1"; "Bob"])))
  /\ List.find (alias_usable (col_map_of (header_of short_row_table)) ["1"; "Bob"])
       ["RIDER"; "NAME"] = Some "NAME"
  /\ field_of (col_map_of (header_of short_row_table)) ["1"; "Bob"] ["RIDER"; "NAME"]
     = Some "Bob".
Proof.
  assert (H : row_of_tr (col_map_of (header_of short_row_table)) (tr_of "td" ["1"; "Bob"])
    = Ok (Some (FromTable
                  (mkTableRow 1 None (Some "Bob") None None None None None ["1"; "Bob"]))))
    by (vm_compute; reflexivity).
  split; [exact H|]. split; [vm_compute; reflexivity|].
  pose proof (named_fields_first_usable_alias _ _ _ H) as T.
  destruct T as [_ [_ [_ [_ [Hr _]]]]]. cbn [raw rider] in Hr.
  symmetry. exact Hr.
Defined.

(** * Further properties *)

From Stdlib Require Import Permutation Sorted.
From Stdlib Require OrderedTypeEx.

(** ** White space *)

Lemma squeeze_not_started (p : bool) (s : string) :
  squeeze p false s = squeeze false false s.
Proof.
  revert p. induction s as [|c r IH]; intro p; cbn [squeeze]; [reflexivity|].
  destruct (Str.isspace c).
  - rewrite (IH true). reflexivity.
  - now rewrite andb_false_r.
Qed.

Lemma squeeze_pending (s : string) :
  squeeze true true s =
  match squeeze false false s with
  | EmptyString => EmptyString
  | w => String " " w
  end.
Proof.
  induction s as [|c r IH]; cbn [squeeze]; [reflexivity|].
  destruct (Str.isspace c).
  - now rewrite IH, (squeeze_not_started true).
  - reflexivity.
Qed.

(** The right strip of the collapsed text, in the two states of the
    collapse. *)
Lemma rstrip_sub_ws (s : string) :
  Str.rstrip_by Str.isspace (Re.sub_ws true s) = squeeze false false s
  /\ Str.rstrip_by Str.isspace (Re.sub_ws false s) = squeeze false true s.
Proof.
  induction s as [|c r [IH1 IH2]]; cbn [Re.sub_ws squeeze]; [split; reflexivity|].
  destruct (Str.isspace c) eqn:E.
  - split.
    + rewrite IH1. symmetry. apply squeeze_not_started.
    + cbn [Str.rstrip_by]. rewrite IH1, squeeze_pending.
      destruct (squeeze false false r); reflexivity.
  - cbn [Str.rstrip_by andb]. rewrite IH2, E.
    split; destruct (squeeze false true r); reflexivity.
Qed.

Lemma squeeze_head (s : string) :
  squeeze false false s = EmptyString
  \/ exists c r, squeeze false false s = String c r /\ Str.isspace c = false.
Proof.
  induction s as [|c r IH]; cbn [squeeze]; [now left|].
  destruct (Str.isspace c) eqn:E.
  - rewrite (squeeze_not_started true). exact IH.
  - cbn [andb]. right. exists c, (squeeze false true r). split; [reflexivity|exact E].
Qed.

Lemma squeeze_started (s : string) :
  Str.lstrip_by Str.isspace (squeeze false true s) = squeeze false false s.
Proof.
  destruct s as [|c r]; cbn [squeeze]; [reflexivity|].
  destruct (Str.isspace c) eqn:E.
  - rewrite squeeze_pending, (squeeze_not_started true).
    destruct (squeeze_head r) as [H|[d [t [H Hd]]]]; rewrite H; [reflexivity|].
    cbn [Str.lstrip_by]. change (Str.isspace " ") with true. cbn [Str.lstrip_by].
    now rewrite Hd.
  - cbn [andb Str.lstrip_by]. now rewrite E.
Qed.

Lemma normalize_ws_squeeze (s : string) :
  normalize_ws s = squeeze false false s.
Proof.
  unfold normalize_ws, Str.strip.
  rewrite (proj2 (rstrip_sub_ws s)). apply squeeze_started.
Qed.

Lemma str_app_nil_r (s : string) : (s ++ "")%string = s.
Proof. induction s as [|c r IH]; cbn [String.append]; [reflexivity|now rewrite IH]. Qed.

Lemma str_app_assoc (a b c : string) :
  ((a ++ b) ++ c)%string = (a ++ b ++ c)%string.
Proof. induction a as [|x r IH]; cbn [String.append]; [reflexivity|now rewrite IH]. Qed.

Lemma all_app (p : ascii -> bool) (a b : string) :
  Str.all p (a ++ b) = Str.all p a && Str.all p b.
Proof.
  induction a as [|c r IH]; cbn [String.append Str.all]; [reflexivity|].
  now rewrite IH, andb_assoc.
Qed.

Lemma truthy_app_l (a b : string) : Str.truthy a = true -> Str.truthy (a ++ b) = true.
Proof. destruct a; [discriminate|reflexivity]. Qed.

Lemma is_word_snoc (w : string) (c : ascii) :
  is_word w = true -> Str.isspace c = false -> is_word (w ++ String c "") = true.
Proof.
  unfold is_word. intros H Hc. apply andb_prop in H. destruct H as [Ht Ha].
  rewrite (truthy_app_l _ _ Ht), all_app, Ha. cbn [Str.all andb]. now rewrite Hc.
Qed.

(** [s.split()] returns words. *)
Lemma split_ws_aux_words (s : string) :
  forall cur,
    match cur with Some w => is_word w = true | None => True end ->
    Forall (fun w => is_word w = true) (Str.split_ws_aux cur s).
Proof.
  induction s as [|c r IH]; intros cur Hcur; cbn [Str.split_ws_aux].
  - destruct cur; [constructor; [exact Hcur|constructor]|constructor].
  - destruct (Str.isspace c) eqn:E.
    + destruct cur as [w|].
      * constructor; [exact Hcur|]. now apply IH.
      * now apply IH.
    + destruct cur as [w|]; apply IH.
      * now apply is_word_snoc.
      * unfold is_word. cbn [Str.truthy Str.all andb]. now rewrite E.
Qed.

Lemma join_words_not_empty (x : string) (l : list string) :
  is_word x = true -> Str.join " " (x :: l) <> EmptyString.
Proof.
  unfold is_word. intro H. apply andb_prop in H. destruct H as [Ht _].
  destruct x as [|c x]; [discriminate|].
  cbn [Str.join]. destruct l; cbn [String.append]; discriminate.
Qed.

(** The words of [s], joined by single spaces, in the two states of
    [split]. *)
Lemma join_split_ws_aux (s : string) :
  Str.join " " (Str.split_ws_aux None s) = squeeze false false s
  /\ forall w, is_word w = true ->
       Str.join " " (Str.split_ws_aux (Some w) s) = (w ++ squeeze false true s)%string.
Proof.
  induction s as [|c r [IH1 IH2]]; cbn [Str.split_ws_aux squeeze].
  - split; [reflexivity|]. intros w _. cbn [Str.join]. now rewrite str_app_nil_r.
  - destruct (Str.isspace c) eqn:E.
    + split; [now rewrite (squeeze_not_started true)|].
      intros w Hw. rewrite squeeze_pending, <- IH1.
      pose proof (split_ws_aux_words r None I) as Hall.
      destruct (Str.split_ws_aux None r) as [|x l] eqn:El.
      * cbn [Str.join]. now rewrite str_app_nil_r.
      * inversion Hall; subst.
        change (Str.join " " (w :: x :: l))
          with (w ++ " " ++ Str.join " " (x :: l))%string.
        pose proof (join_words_not_empty x l H1) as Hne.
        destruct (Str.join " " (x :: l)); [now elim Hne|reflexivity].
    + cbn [andb]. split.
      * rewrite IH2; [reflexivity|].
        unfold is_word. cbn [Str.truthy Str.all andb]. now rewrite E.
      * intros w Hw. rewrite IH2 by now apply is_word_snoc.
        now rewrite str_app_assoc.
Qed.

(** X1. [normalize_ws] returns the words of its argument, in their order,
    with one space between two words: [" ".join(s.split())]. *)
Theorem normalize_ws_joins_words (s : string) :
  normalize_ws s = Str.join " " (Str.split_ws s)
  /\ Forall (fun w => is_word w = true) (Str.split_ws s).
Proof.
  split.
  - rewrite normalize_ws_squeeze. symmetry. exact (proj1 (join_split_ws_aux s)).
  - exact (split_ws_aux_words s None I).
Qed.

Lemma split_ws_aux_word (t : string) :
  forall w rest,
    Str.all (fun c => negb (Str.isspace c)) t = true ->
    Str.split_ws_aux (Some w) (t ++ rest) = Str.split_ws_aux (Some (w ++ t)%string) rest.
Proof.
  induction t as [|c r IH]; intros w rest H; cbn [String.append].
  - now rewrite str_app_nil_r.
  - cbn [Str.all] in H. apply andb_prop in H. destruct H as [Hc Hr].
    apply negb_true_iff in Hc. cbn [Str.split_ws_aux]. rewrite Hc.
    rewrite (IH _ rest Hr), str_app_assoc. reflexivity.
Qed.

Lemma split_ws_aux_start (x rest : string) :
  is_word x = true ->
  Str.split_ws_aux None (x ++ rest) = Str.split_ws_aux (Some x) rest.
Proof.
  unfold is_word. intro H. apply andb_prop in H. destruct H as [Ht Ha].
  destruct x as [|c t]; [discriminate|].
  cbn [Str.all] in Ha. apply andb_prop in Ha. destruct Ha as [Hc Hr].
  apply negb_true_iff in Hc.
  cbn [String.append Str.split_ws_aux]. rewrite Hc.
  now rewrite (split_ws_aux_word t _ rest Hr).
Qed.

(** Splitting what [join] has made of words gives the words back. *)
Lemma split_ws_join (l : list string) :
  Forall (fun w => is_word w = true) l ->
  Str.split_ws (Str.join " " l) = l.
Proof.
  unfold Str.split_ws.
  induction l as [|x r IH]; intro H; [reflexivity|].
  inversion H as [|x' r' Hx Hr]; subst.
  destruct r as [|y r].
  - cbn [Str.join]. rewrite <- (str_app_nil_r x) at 1.
    now rewrite (split_ws_aux_start x "" Hx).
  - change (Str.join " " (x :: y :: r)) with (x ++ " " ++ Str.join " " (y :: r))%string.
    rewrite (split_ws_aux_start x _ Hx).
    cbn [String.append Str.split_ws_aux].
    change (Str.isspace " ") with true. cbn iota.
    now rewrite (IH Hr).
Qed.

Lemma squeeze_empty (s : string) :
  squeeze false false s = EmptyString <-> Str.all Str.isspace s = true.
Proof.
  induction s as [|c r IH]; cbn [squeeze Str.all]; [tauto|].
  destruct (Str.isspace c).
  - rewrite (squeeze_not_started true). exact IH.
  - cbn [andb]. split; discriminate.
Qed.

Lemma split_ws_normalize_ws (s : string) :
  Str.split_ws (normalize_ws s) = Str.split_ws s.
Proof.
  rewrite normalize_ws_squeeze, <- (proj1 (join_split_ws_aux s)).
  apply split_ws_join. exact (split_ws_aux_words s None I).
Qed.

Lemma normalize_ws_again (s : string) :
  normalize_ws (normalize_ws s) = normalize_ws s.
Proof.
  rewrite (normalize_ws_squeeze (normalize_ws s)).
  rewrite <- (proj1 (join_split_ws_aux (normalize_ws s))).
  fold (Str.split_ws (normalize_ws s)). rewrite split_ws_normalize_ws.
  rewrite normalize_ws_squeeze. exact (proj1 (join_split_ws_aux s)).
Qed.

(** X2. [normalize_ws] is idempotent and keeps the words of its argument;
    its result is empty exactly for an argument of white space only. *)
Theorem normalize_ws_idempotent (s : string) :
  normalize_ws (normalize_ws s) = normalize_ws s
  /\ Str.split_ws (normalize_ws s) = Str.split_ws s
  /\ (normalize_ws s = EmptyString <-> Str.all Str.isspace s = true).
Proof.
  split; [apply normalize_ws_again|]. split; [apply split_ws_normalize_ws|].
  rewrite normalize_ws_squeeze. apply squeeze_empty.
Qed.

(** ** Main events *)











(** ** What discovery returns *)

Lemma collect_member {A B : Type} (body : A -> result (option B)) (l : list A) :
  forall ys y, collect body l = Ok ys -> In y ys ->
  exists x, In x l /\ body x = Ok (Some y).
Proof.
  induction l as [|x r IH]; cbn [collect]; intros ys y H Hy.
  - inversion H; subst. destruct Hy.
  - apply bind_ok in H. destruct H as [o [Ho H]].
    apply bind_ok in H. destruct H as [rest [Hrest H]].
    inversion H; subst ys; clear H.
    destruct o as [y0|].
    + destruct Hy as [<-|Hy].
      * exists x. split; [now left|exact Ho].
      * destruct (IH rest y Hrest Hy) as [x' [Hx' Hb]]. exists x'. split; [now right|exact Hb].
    + destruct (IH rest y Hrest Hy) as [x' [Hx' Hb]]. exists x'. split; [now right|exact Hb].
Qed.

Lemma first_occurrences_subset {V : Type} (key : V -> string) (l : list V) (x : V) :
  In x (first_occurrences key l) -> In x l.
Proof.
  induction l as [|y r IH]; cbn [first_occurrences]; [tauto|].
  intros [H|H]; [now left|].
  apply filter_In in H. right. apply IH. tauto.
Qed.

Lemma dedupe_subset {V : Type} (key : V -> string) (l : list V) (x : V) :
  In x (dedupe key l) -> In x l.
Proof. rewrite dedupe_first_occurrences. apply first_occurrences_subset. Qed.

(** Reading the id back from a URL whose query carries it. *)
Lemma extract_id (u i : string) (r : Urllib.ParseResult) :
  Urllib.urlparse u "" = Ok r ->
  id_of (Urllib.parse_qs (Urllib.query r)) = Ok (Some i) ->
  extract_query_param u "id" = Ok (Some i).
Proof.
  intros Hr Hi. unfold extract_query_param. rewrite Hr. cbn [bind].
  unfold id_of in Hi. unfold Urllib.dict_get.
  destruct (Urllib.dict_lookup (Urllib.parse_qs (Urllib.query r)) "id") as [vals|];
    [|discriminate].
  destruct vals as [|v vs]; [discriminate|].
  cbn in Hi. inversion Hi; subst. reflexivity.
Qed.

(** Reading the discriminator back. *)
Lemma extract_p (u pv : string) (r : Urllib.ParseResult) :
  Urllib.urlparse u "" = Ok r ->
  pval_of (Urllib.parse_qs (Urllib.query r)) = Ok pv ->
  pv <> EmptyString ->
  exists v, extract_query_param u "p" = Ok (Some v) /\ Str.lower (Str.strip v) = pv.
Proof.
  intros Hr Hp Hne. unfold extract_query_param. rewrite Hr. cbn [bind].
  unfold pval_of in Hp. unfold Urllib.dict_get in *.
  destruct (Urllib.dict_lookup (Urllib.parse_qs (Urllib.query r)) "p") as [vals|].
  - destruct vals as [|v vs]; [discriminate|].
    cbn in Hp. inversion Hp; subst. exists v. split; reflexivity.
  - cbn in Hp. inversion Hp; subst. now elim Hne.
Qed.

Lemma or_else_not_empty (s d : string) :
  d <> EmptyString -> or_else s d <> EmptyString.
Proof.
  unfold or_else. intro H. destruct s; cbn [Str.truthy]; [exact H|discriminate].
Qed.

Lemma or_else_cases (s d : string) :
  or_else s d = d \/ (or_else s d = s /\ s <> EmptyString).
Proof.
  unfold or_else. destruct s; cbn [Str.truthy]; [now left|right; split; [reflexivity|discriminate]].
Qed.

(** What one pass of the loop of [discover_events] has checked. *)
Lemma event_of_anchor_checked (a : Bs4.node) (e : EventRef) :
  event_of_anchor a = Ok (Some e) ->
  Urllib.urljoin EVENTS_URL (Str.strip (Bs4.get_attr "href" a)) = Ok (url e)
  /\ (exists r, Urllib.urlparse (url e) "" = Ok r
        /\ pval_of (Urllib.parse_qs (Urllib.query r)) = Ok "view_event"
        /\ id_of (Urllib.parse_qs (Urllib.query r)) = Ok (Some (event_id e)))
  /\ Str.truthy (event_id e) = true
  /\ name e = or_else (normalize_ws (Bs4.get_text " " (Bs4.contents_of a)))
                ("event_" ++ event_id e).
Proof.
  unfold event_of_anchor.
  destruct (negb (Str.truthy (Str.strip (Bs4.get_attr "href" a)))); [discriminate|].
  destruct (Urllib.urljoin EVENTS_URL (Str.strip (Bs4.get_attr "href" a)))
    as [href|]; [|discriminate].
  cbn [bind].
  destruct (Urllib.urlparse href "") as [r|] eqn:Er; [|discriminate].
  cbn [bind].
  destruct (pval_of (Urllib.parse_qs (Urllib.query r))) as [pv|] eqn:Ep; [|discriminate].
  cbn [bind].
  destruct (String.eqb pv "view_event") eqn:Epv; [|discriminate].
  apply String.eqb_eq in Epv. subst pv. cbn [negb].
  destruct (id_of (Urllib.parse_qs (Urllib.query r))) as [[eid|]|] eqn:Ei; try discriminate.
  cbn [bind].
  destruct (Str.truthy eid) eqn:Et; [|discriminate].
  cbn [negb]. intro H. inversion H; subst; clear H. cbn [url event_id name].
  split; [reflexivity|]. split; [exists r; auto|]. split; [exact Et|reflexivity].
Qed.

(** What one pass of the loop of [discover_sessions] has checked. *)
Lemma session_of_anchor_checked (a : Bs4.node) (s : SessionRef) :
  session_of_anchor a = Ok (Some s) ->
  session_href (Str.strip (Bs4.get_attr "href" a)) = Ok (session_url s)
  /\ Str.contains "view_race_result" (session_url s) = true
  /\ (exists r, Urllib.urlparse (session_url s) "" = Ok r
        /\ pval_of (Urllib.parse_qs (Urllib.query r)) = Ok "view_race_result"
        /\ id_of (Urllib.parse_qs (Urllib.query r)) = Ok (Some (race_result_id s)))
  /\ Str.truthy (race_result_id s) = true
  /\ session_name s = or_else (normalize_ws (Bs4.get_text " " (Bs4.contents_of a)))
                        ("race_result_" ++ race_result_id s).
Proof.
  unfold session_of_anchor.
  destruct (negb (Str.truthy (Str.strip (Bs4.get_attr "href" a)))); [discriminate|].
  destruct (session_href (Str.strip (Bs4.get_attr "href" a)))
    as [href|]; [|discriminate].
  cbn [bind].
  destruct (Str.contains "view_race_result" href) eqn:Ec; [|discriminate].
  cbn [negb].
  destruct (Urllib.urlparse href "") as [r|] eqn:Er; [|discriminate].
  cbn [bind].
  destruct (pval_of (Urllib.parse_qs (Urllib.query r))) as [pv|] eqn:Ep; [|discriminate].
  cbn [bind].
  destruct (String.eqb pv "view_race_result") eqn:Epv; [|discriminate].
  apply String.eqb_eq in Epv. subst pv. cbn [negb].
  destruct (id_of (Urllib.parse_qs (Urllib.query r))) as [[rrid|]|] eqn:Ei; try discriminate.
  cbn [bind].
  destruct (Str.truthy rrid) eqn:Et; [|discriminate].
  cbn [negb]. intro H. inversion H; subst; clear H.
  cbn [session_url race_result_id session_name].
  split; [reflexivity|]. split; [exact Ec|]. split; [exists r; auto|].
  split; [exact Et|reflexivity].
Qed.

(** X4. Every event that [discover_events] returns has an id and a name
    that are not empty; the name is the normalized text of its anchor, or
    [event_] and the id; [extract_query_param] reads the id back from the
    URL of the event, and a [p] that is [view_event] after [strip] and
    [lower]; the URL is the link of an anchor of the document joined to
    [EVENTS_URL]. *)
Theorem discovered_events_are_checked
  (soup : list Bs4.node) (out : list EventRef) (e : EventRef) :
  discover_events soup = Ok out ->
  In e out ->
  event_id e <> EmptyString
  /\ name e <> EmptyString
  /\ (name e = ("event_" ++ event_id e)%string \/ normalize_ws (name e) = name e)
  /\ extract_query_param (url e) "id" = Ok (Some (event_id e))
  /\ (exists v, extract_query_param (url e) "p" = Ok (Some v)
                /\ Str.lower (Str.strip v) = "view_event")
  /\ exists a, In a (Bs4.find_all_with "a" "href" soup)
               /\ Urllib.urljoin EVENTS_URL (Str.strip (Bs4.get_attr "href" a)) = Ok (url e).
Proof.
  unfold discover_events. intros H Hin.
  apply bind_ok in H. destruct H as [found [Hf H]]. inversion H; subst out; clear H.
  apply dedupe_subset in Hin.
  destruct (collect_member _ _ _ _ Hf Hin) as [a [Ha Hb]].
  destruct (event_of_anchor_checked a e Hb) as [Hj [[r [Hr [Hp Hi]]] [Ht Hn]]].
  split; [now apply truthy_not_empty|].
  split; [rewrite Hn; apply or_else_not_empty; discriminate|].
  split.
  { destruct (or_else_cases (normalize_ws (Bs4.get_text " " (Bs4.contents_of a)))
                ("event_" ++ event_id e)) as [Hc|[Hc _]]; rewrite Hn, Hc.
    - now left.
    - right. apply normalize_ws_again. }
  split; [exact (extract_id _ _ _ Hr Hi)|].
  split; [apply (extract_p _ _ _ Hr Hp); discriminate|].
  exists a. auto.
Qed.

Lemma discovered_events_are_checked_witness :
  discover_events twice_linked_doc =
    Ok [mkEventRef "5" "Anaheim 1"
          "https://results.supercrosslive.com/results/?id=5&p=view_event";
        mkEventRef "9" "San Diego"
          "https://results.supercrosslive.com/results/?id=9&p=view_event"]
  /\ extract_query_param
       "https://results.supercrosslive.com/results/?id=9&p=view_event" "id"
     = Ok (Some "9").
Proof.
  assert (H : discover_events twice_linked_doc =
    Ok [mkEventRef "5" "Anaheim 1"
          "https://results.supercrosslive.com/results/?id=5&p=view_event";
        mkEventRef "9" "San Diego"
          "https://results.supercrosslive.com/results/?id=9&p=view_event"])
    by (vm_compute; reflexivity).
  split; [exact H|].
  exact (proj1 (proj2 (proj2 (proj2
    (discovered_events_are_checked twice_linked_doc _
       (mkEventRef "9" "San Diego"
          "https://results.supercrosslive.com/results/?id=9&p=view_event")
       H (or_intror (or_introl eq_refl))))))).
Defined.

(** X5. Every session that [discover_sessions] returns has an id and a
    name that are not empty; the name is the normalized text of its
    anchor, or [race_result_] and the id; its URL holds the text
    [view_race_result]; [extract_query_param] reads the id back from the
    URL, and a [p] that is [view_race_result] after [strip] and [lower];
    the URL is the link of an anchor of the document joined by
    [session_href]. *)
Theorem discovered_sessions_are_checked
  (soup : list Bs4.node) (out : list SessionRef) (s : SessionRef) :
  discover_sessions soup = Ok out ->
  In s out ->
  race_result_id s <> EmptyString
  /\ session_name s <> EmptyString
  /\ (session_name s = ("race_result_" ++ race_result_id s)%string
      \/ normalize_ws (session_name s) = session_name s)
  /\ Str.contains "view_race_result" (session_url s) = true
  /\ extract_query_param (session_url s) "id" = Ok (Some (race_result_id s))
  /\ (exists v, extract_query_param (session_url s) "p" = Ok (Some v)
                /\ Str.lower (Str.strip v) = "view_race_result")
  /\ exists a, In a (Bs4.find_all_with "a" "href" soup)
               /\ session_href (Str.strip (Bs4.get_attr "href" a)) = Ok (session_url s).
Proof.
  unfold discover_sessions. intros H Hin.
  apply bind_ok in H. destruct H as [found [Hf H]]. inversion H; subst out; clear H.
  apply dedupe_subset in Hin.
  destruct (collect_member _ _ _ _ Hf Hin) as [a [Ha Hb]].
  destruct (session_of_anchor_checked a s Hb) as [Hj [Hc [[r [Hr [Hp Hi]]] [Ht Hn]]]].
  split; [now apply truthy_not_empty|].
  split; [rewrite Hn; apply or_else_not_empty; discriminate|].
  split.
  { destruct (or_else_cases (normalize_ws (Bs4.get_text " " (Bs4.contents_of a)))
                ("race_result_" ++ race_result_id s)) as [Hd|[Hd _]]; rewrite Hn, Hd.
    - now left.
    - right. apply normalize_ws_again. }
  split; [exact Hc|].
  split; [exact (extract_id _ _ _ Hr Hi)|].
  split; [apply (extract_p _ _ _ Hr Hp); discriminate|].
  exists a. auto.
Qed.

Lemma discovered_sessions_are_checked_witness :
  discover_sessions [anchor "?id=77&p=view_race_result" "  450SX   Main Event "] =
    Ok [mkSessionRef "77" "450SX Main Event"
          "https://results.supercrosslive.com/results/?id=77&p=view_race_result"]
  /\ extract_query_param
       "https://results.supercrosslive.com/results/?id=77&p=view_race_result" "id"
     = Ok (Some "77").
Proof.
  assert (H : discover_sessions [anchor "?id=77&p=view_race_result" "  450SX   Main Event "] =
    Ok [mkSessionRef "77" "450SX Main Event"
          "https://results.supercrosslive.com/results/?id=77&p=view_race_result"])
    by (vm_compute; reflexivity).
  split; [exact H|].
  exact (proj1 (proj2 (proj2 (proj2 (proj2
    (discovered_sessions_are_checked _ _
       (mkSessionRef "77" "450SX Main Event"
          "https://results.supercrosslive.com/results/?id=77&p=view_race_result")
       H (or_introl eq_refl))))))).
Defined.

(** ** The three forms of a session link *)

Lemma remove_app (p : ascii -> bool) (a b : string) :
  Str.remove p (a ++ b) = (Str.remove p a ++ Str.remove p b)%string.
Proof.
  induction a as [|c r IH]; cbn [String.append Str.remove]; [reflexivity|].
  destruct (p c); cbn [String.append]; now rewrite IH.
Qed.

Lemma partition_app_none (c : ascii) (a b : string) :
  Str.mem c a = false ->
  Str.partition c (a ++ b) =
  match Str.partition c b with
  | Some (x, y) => Some ((a ++ x)%string, y)
  | None => None
  end.
Proof.
  induction a as [|d r IH]; cbn [String.append Str.mem Str.partition]; intro H.
  - now destruct (Str.partition c b) as [[x y]|].
  - apply orb_false_iff in H. destruct H as [Hd Hr].
    rewrite Hd, (IH Hr). now destruct (Str.partition c b) as [[x y]|].
Qed.

Lemma partition_app_some (c : ascii) (a b x y : string) :
  Str.partition c a = Some (x, y) ->
  Str.partition c (a ++ b) = Some (x, (y ++ b)%string).
Proof.
  revert x y. induction a as [|d r IH]; cbn [String.append Str.partition]; intros x y H.
  - discriminate.
  - destruct (Ascii.eqb c d).
    + now inversion H.
    + destruct (Str.partition c r) as [[x' y']|]; [|discriminate].
      inversion H; subst. now rewrite (IH x' y eq_refl).
Qed.

Lemma split_once_app_none (c : ascii) (a b : string) :
  Str.mem c a = false ->
  Urllib.split_once c (a ++ b) =
  ((a ++ fst (Urllib.split_once c b))%string, snd (Urllib.split_once c b)).
Proof.
  intro H. unfold Urllib.split_once. rewrite (partition_app_none c a b H).
  now destruct (Str.partition c b) as [[x y]|].
Qed.

Lemma all_scheme_char_query (a b : string) :
  Str.all Urllib.is_scheme_char (a ++ String "?" b) = false.
Proof.
  rewrite all_app. cbn [Str.all].
  change (Urllib.is_scheme_char "?") with false.
  cbn [andb]. apply andb_false_r.
Qed.

(** A link without a colon before its question mark has the default
    scheme. *)
Lemma split_scheme_no_colon (dflt P q : string) :
  Str.mem ":" P = false ->
  Urllib.split_scheme dflt (P ++ String "?" q) = (dflt, (P ++ String "?" q)%string).
Proof.
  intro H. unfold Urllib.split_scheme.
  destruct (P ++ String "?" q)%string as [|c0 t] eqn:E; [reflexivity|]. rewrite <- E.
  rewrite (partition_app_none ":" P _ H). cbn [Str.partition].
  change (Ascii.eqb ":" "?") with false. cbn iota.
  destruct (Str.partition ":" q) as [[x y]|]; [|reflexivity].
  destruct (P ++ String "?" x)%string as [|p0 pt] eqn:Ep; [reflexivity|].
  rewrite <- Ep, all_scheme_char_query, andb_false_r. reflexivity.
Qed.

(** [urlparse] of a path followed by a query: nothing but the path, the
    query and the fragment. *)
Lemma urlparse_path_query (P q : string) :
  Str.lstrip_by Urllib.is_c0_or_space P = P ->
  Str.truthy P = true ->
  Str.remove Urllib.is_unsafe P = P ->
  Str.mem ":" P = false ->
  Str.mem "#" P = false ->
  Str.mem "?" P = false ->
  Str.mem ";" P = false ->
  Str.startswith P "//" = false ->
  Urllib.urlparse (P ++ String "?" q) "https" =
  Ok (Urllib.mkParseResult "https" "" P ""
        (fst (Urllib.split_once "#" (Str.remove Urllib.is_unsafe q)))
        (snd (Urllib.split_once "#" (Str.remove Urllib.is_unsafe q)))).
Proof.
  intros Hl Ht Hr Hc Hh Hq Hs Hn.
  unfold Urllib.urlparse, Urllib.urlsplit.
  assert (E1 : Str.lstrip_by Urllib.is_c0_or_space (P ++ String "?" q)
               = (P ++ String "?" q)%string).
  { destruct P as [|c t]; [discriminate|].
    cbn [String.append Str.lstrip_by] in *.
    destruct (Urllib.is_c0_or_space c); [|reflexivity].
    (* a stripped text does not start with what is stripped *)
    exfalso. clear -Hl.
    assert (L : forall s, String.length (Str.lstrip_by Urllib.is_c0_or_space s)
                          <= String.length s).
    { induction s as [|d r IH]; cbn [Str.lstrip_by String.length]; [lia|].
      destruct (Urllib.is_c0_or_space d); cbn [String.length]; lia. }
    specialize (L t). rewrite Hl in L. cbn [String.length] in L. lia. }
  rewrite E1, remove_app, Hr.
  change (Str.remove Urllib.is_unsafe (String "?" q))
    with (String "?" (Str.remove Urllib.is_unsafe q)).
  set (q' := Str.remove Urllib.is_unsafe q).
  change (Str.remove Urllib.is_unsafe
            (Str.rstrip_by Urllib.is_c0_or_space
               (Str.lstrip_by Urllib.is_c0_or_space "https"))) with "https".
  rewrite (split_scheme_no_colon "https" P q' Hc).
  assert (E2 : match (P ++ String "?" q')%string with
               | String "/" (String "/" r) =>
                   let (nl, rest) := Str.span (fun c => negb (Urllib.is_netloc_end c)) r in
                   if xorb (Str.mem "[" nl) (Str.mem "]" nl)
                   then Raise ValueError
                   else Ok (nl, rest)
               | _ => Ok (EmptyString, (P ++ String "?" q')%string)
               end = Ok (EmptyString, (P ++ String "?" q')%string)).
  { destruct P as [|c0 [|c1 t]]; try discriminate.
    - cbn [String.append].
      destruct (Ascii.eqb "/" c0) eqn:E0.
      + apply Ascii.eqb_eq in E0. subst c0. reflexivity.
      + destruct c0 as [[] [] [] [] [] [] [] []]; try reflexivity; discriminate.
    - cbn [String.append]. cbn [Str.startswith] in Hn.
      destruct c0 as [[] [] [] [] [] [] [] []]; try reflexivity.
      destruct c1 as [[] [] [] [] [] [] [] []]; try reflexivity. discriminate. }
  rewrite E2. cbn [bind].
  rewrite (split_once_app_none "#" P _ Hh), split_once_query_only.
  destruct (Urllib.split_once "#" q') as [x y]. cbn [fst snd].
  rewrite (split_once_app_none "?" P _ Hq).
  change (Urllib.split_once "?" (String "?" x)) with (EmptyString, x).
  cbn [fst snd]. rewrite str_app_nil_r.
  cbn [bind]. cbv iota beta.
  change (Urllib.str_in "https" Urllib.uses_params) with true.
  rewrite Hs. reflexivity.
Qed.

Lemma span_app_inside (p : ascii -> bool) (a b x y : string) (d : ascii) :
  Str.span p a = (x, String d y) ->
  Str.span p (a ++ b) = (x, (String d y ++ b)%string).
Proof.
  revert x. induction a as [|c r IH]; cbn [String.append Str.span]; intros x H.
  - discriminate.
  - destruct (p c).
    + destruct (Str.span p r) as [x' y'] eqn:E.
      inversion H; subst. now rewrite (IH x' eq_refl).
    + now inversion H.
Qed.

Lemma urlparse_BASE_slash :
  Urllib.urlparse (BASE ++ "/") "" =
  Ok (Urllib.mkParseResult "https" "results.supercrosslive.com" "/" "" "" "").
Proof. vm_compute. reflexivity. Qed.

(** [urlparse] of a link that spells out [RESULTS_ROOT] before its
    query. *)
Lemma urlparse_absolute (q : string) :
  Urllib.urlparse (RESULTS_ROOT ++ String "?" q) "https" =
  Ok (Urllib.mkParseResult "https" "results.supercrosslive.com" "/results/" ""
        (fst (Urllib.split_once "#" (Str.remove Urllib.is_unsafe q)))
        (snd (Urllib.split_once "#" (Str.remove Urllib.is_unsafe q)))).
Proof.
  unfold Urllib.urlparse, Urllib.urlsplit.
  change (Str.lstrip_by Urllib.is_c0_or_space (RESULTS_ROOT ++ String "?" q))
    with (RESULTS_ROOT ++ String "?" q)%string.
  rewrite remove_app.
  change (Str.remove Urllib.is_unsafe RESULTS_ROOT) with RESULTS_ROOT.
  change (Str.remove Urllib.is_unsafe (String "?" q))
    with (String "?" (Str.remove Urllib.is_unsafe q)).
  set (q' := Str.remove Urllib.is_unsafe q).
  assert (E1 : Urllib.split_scheme
                 (Str.remove Urllib.is_unsafe
                    (Str.rstrip_by Urllib.is_c0_or_space
                       (Str.lstrip_by Urllib.is_c0_or_space "https")))
                 (RESULTS_ROOT ++ String "?" q')
               = ("https", ("//results.supercrosslive.com/results/" ++ String "?" q')%string)).
  { unfold Urllib.split_scheme.
    rewrite (partition_app_some ":" RESULTS_ROOT (String "?" q') "https"
               "//results.supercrosslive.com/results/" eq_refl).
    reflexivity. }
  rewrite E1.
  assert (E2 : Str.span (fun c => negb (Urllib.is_netloc_end c))
                 ("results.supercrosslive.com/results/" ++ String "?" q')
               = ("results.supercrosslive.com", ("/results/" ++ String "?" q')%string)).
  { apply (span_app_inside (fun c => negb (Urllib.is_netloc_end c))
             "results.supercrosslive.com/results/" (String "?" q')
             "results.supercrosslive.com" "results/" "/").
    vm_compute. reflexivity. }
  change ("//results.supercrosslive.com/results/" ++ String "?" q')%string
    with (String "/" (String "/" ("results.supercrosslive.com/results/" ++ String "?" q'))).
  cbv iota beta. rewrite E2.
  change (xorb (Str.mem "[" "results.supercrosslive.com")
               (Str.mem "]" "results.supercrosslive.com")) with false.
  cbn [bind]. cbv iota beta.
  rewrite (split_once_app_none "#" "/results/" _ eq_refl), split_once_query_only.
  destruct (Urllib.split_once "#" q') as [x y]. cbn [fst snd].
  rewrite (split_once_app_none "?" "/results/" _ eq_refl).
  change (Urllib.split_once "?" (String "?" x)) with (EmptyString, x).
  cbn [fst snd]. rewrite str_app_nil_r.
  cbn [bind]. cbv iota beta.
  reflexivity.
Qed.

(** X6. The three forms of a session link that the comment of
    [discover_sessions] names, and the absolute form, resolve to the same
    URL: [RESULTS_ROOT], then the query and the fragment of the link. *)
Theorem session_link_forms_agree (q : string) :
  let u := Urllib.add_part
             (Urllib.add_part RESULTS_ROOT "?"
                (fst (Urllib.split_once "#" (Str.remove Urllib.is_unsafe q))))
             "#" (snd (Urllib.split_once "#" (Str.remove Urllib.is_unsafe q))) in
  session_href ("?" ++ q) = Ok u
  /\ session_href ("/results/?" ++ q) = Ok u
  /\ session_href ("results/?" ++ q) = Ok u
  /\ session_href (RESULTS_ROOT ++ "?" ++ q) = Ok u.
Proof.
  cbv zeta.
  split; [exact (urljoin_RESULTS_ROOT_query_only q)|].
  split; [|split].
  - unfold session_href.
    change (Str.startswith ("/results/?" ++ q) "?") with false. cbv iota.
    unfold Urllib.urljoin.
    change (Str.truthy (BASE ++ "/")) with true.
    change (Str.truthy ("/results/?" ++ q)) with true.
    cbn [negb]. rewrite urlparse_BASE_slash. cbn [bind Urllib.scheme].
    change ("/results/?" ++ q)%string with ("/results/" ++ String "?" q)%string.
    rewrite (urlparse_path_query "/results/" q eq_refl eq_refl eq_refl eq_refl eq_refl
               eq_refl eq_refl eq_refl).
    destruct (Urllib.split_once "#" (Str.remove Urllib.is_unsafe q)) as [x y].
    cbn [bind fst snd]. destruct x, y; vm_compute; reflexivity.
  - unfold session_href.
    change (Str.startswith ("results/?" ++ q) "?") with false. cbv iota.
    unfold Urllib.urljoin.
    change (Str.truthy (BASE ++ "/")) with true.
    change (Str.truthy ("results/?" ++ q)) with true.
    cbn [negb]. rewrite urlparse_BASE_slash. cbn [bind Urllib.scheme].
    change ("results/?" ++ q)%string with ("results/" ++ String "?" q)%string.
    rewrite (urlparse_path_query "results/" q eq_refl eq_refl eq_refl eq_refl eq_refl
               eq_refl eq_refl eq_refl).
    destruct (Urllib.split_once "#" (Str.remove Urllib.is_unsafe q)) as [x y].
    cbn [bind fst snd]. destruct x, y; vm_compute; reflexivity.
  - unfold session_href.
    change (Str.startswith (RESULTS_ROOT ++ "?" ++ q) "?") with false. cbv iota.
    unfold Urllib.urljoin.
    change (Str.truthy (BASE ++ "/")) with true.
    change (Str.truthy (RESULTS_ROOT ++ "?" ++ q)) with true.
    cbn [negb]. rewrite urlparse_BASE_slash. cbn [bind Urllib.scheme].
    change (RESULTS_ROOT ++ "?" ++ q)%string with (RESULTS_ROOT ++ String "?" q)%string.
    rewrite urlparse_absolute.
    destruct (Urllib.split_once "#" (Str.remove Urllib.is_unsafe q)) as [x y].
    cbn [bind fst snd]. destruct x, y; vm_compute; reflexivity.
Qed.

(** ** The column map *)

Lemma col_map_from_last_index (header : list string) (k : string) :
  forall i d,
    Urllib.dict_lookup (col_map_from i header d) k =
    match last_index k header with
    | Some j => Some (i + j)
    | None => Urllib.dict_lookup d k
    end.
Proof.
  induction header as [|h r IH]; intros i d; cbn [col_map_from last_index].
  - reflexivity.
  - rewrite IH, dict_lookup_set.
    destruct (last_index k r) as [j|].
    + f_equal. lia.
    + destruct (String.eqb k h); [f_equal; lia|reflexivity].
Qed.

Lemma last_index_Some (k : string) (l : list string) :
  forall j, last_index k l = Some j <->
            nth_error l j = Some k /\ forall j', j < j' -> nth_error l j' <> Some k.
Proof.
  induction l as [|h r IH]; intro j; cbn [last_index].
  - split; [discriminate|]. intros [H _]. destruct j; discriminate.
  - destruct (last_index k r) as [i|] eqn:E.
    + split.
      * intro H. inversion H; subst j. cbn [nth_error].
        destruct (proj1 (IH i) eq_refl) as [Hn Hlast].
        split; [exact Hn|].
        intros j' Hlt. destruct j' as [|j']; [lia|]. cbn [nth_error]. apply Hlast. lia.
      * intros [Hn Hlast]. destruct j as [|j].
        -- exfalso. destruct (proj1 (IH i) eq_refl) as [Hi _].
           apply (Hlast (S i)); [lia|exact Hi].
        -- f_equal. f_equal.
           cbn [nth_error] in Hn.
           assert (Hj : Some i = Some j).
           { apply IH. split; [exact Hn|].
             intros j' Hlt. specialize (Hlast (S j')). cbn [nth_error] in Hlast.
             apply Hlast. lia. }
           now inversion Hj.
    + split.
      * destruct (String.eqb k h) eqn:Ek; [|discriminate].
        apply String.eqb_eq in Ek. subst h.
        intro H. inversion H; subst j. cbn [nth_error]. split; [reflexivity|].
        intros j' Hlt Hn. destruct j' as [|j']; [lia|]. cbn [nth_error] in Hn.
        assert (Hex : exists i, last_index k r = Some i).
        { clear -Hn. revert j' Hn. induction r as [|x r IH]; intros j' Hn.
          - destruct j'; discriminate.
          - cbn [last_index]. destruct (last_index k r) as [i|] eqn:E; [eauto|].
            destruct j' as [|j'].
            + cbn [nth_error] in Hn. inversion Hn; subst. rewrite String.eqb_refl. eauto.
            + cbn [nth_error] in Hn. destruct (IH j' Hn) as [i Hi]. discriminate. }
        destruct Hex as [i Hi]. congruence.
      * intros [Hn Hlast]. destruct j as [|j].
        -- cbn [nth_error] in Hn. inversion Hn; subst. now rewrite String.eqb_refl.
        -- exfalso. cbn [nth_error] in Hn.
           assert (Hex : exists i, last_index k r = Some i).
           { clear -Hn. revert j Hn. induction r as [|x r IH]; intros j Hn.
             - destruct j; discriminate.
             - cbn [last_index]. destruct (last_index k r) as [i|] eqn:E; [eauto|].
               destruct j as [|j].
               + cbn [nth_error] in Hn. inversion Hn; subst. rewrite String.eqb_refl. eauto.
               + cbn [nth_error] in Hn. destruct (IH j Hn) as [i Hi]. discriminate. }
           destruct Hex as [i Hi]. congruence.
Qed.

Lemma last_index_None (k : string) (l : list string) :
  last_index k l = None <-> ~ In k l.
Proof.
  induction l as [|h r IH]; cbn [last_index In]; [tauto|].
  destruct (last_index k r) as [i|].
  - split; [discriminate|]. intro H. exfalso. apply H. right.
    destruct (In_dec string_dec k r) as [Hin|Hin]; [exact Hin|].
    apply IH in Hin. discriminate.
  - destruct (String.eqb k h) eqn:E.
    + apply String.eqb_eq in E. subst h. split; [discriminate|]. intro H. elim H. now left.
    + apply String.eqb_neq in E. split; [|reflexivity].
      intros _ [H|H]; [congruence|]. now apply (proj1 IH eq_refl).
Qed.

(** X7. The column map sends a header text to the place of its last
    occurrence in the header, and knows no text that is not in the
    header: of two columns with the same header the later one is read. *)
Theorem col_map_last_occurrence (header : list string) (k : string) :
  (forall i,
      Urllib.dict_lookup (col_map_of header) k = Some i <->
      nth_error header i = Some k
      /\ forall j, i < j -> nth_error header j <> Some k)
  /\ (Urllib.dict_lookup (col_map_of header) k = None <-> ~ In k header).
Proof.
  unfold col_map_of. rewrite col_map_from_last_index.
  split.
  - intro i. rewrite <- last_index_Some.
    destruct (last_index k header); cbn [Urllib.dict_lookup Nat.add]; tauto.
  - rewrite <- last_index_None.
    destruct (last_index k header); cbn [Urllib.dict_lookup]; split; congruence.
Qed.

(** ** The header row and the kinds of rows *)

Lemma is_tag_named_swap (a b : string) (n : Bs4.node) :
  Bs4.is_tag_named [a; b] n = Bs4.is_tag_named [b; a] n.
Proof.
  destruct n as [s|nm attrs cs]; cbn [Bs4.is_tag_named existsb]; [reflexivity|].
  rewrite !orb_false_r. apply orb_comm.
Qed.

Lemma find_all_swap (a b : string) (cs : list Bs4.node) :
  Bs4.find_all [a; b] cs = Bs4.find_all [b; a] cs.
Proof.
  unfold Bs4.find_all. apply filter_ext. intro n. apply is_tag_named_swap.
Qed.

Lemma to_upper_digit (c : ascii) : Str.isdigit c = true -> Str.to_upper c = c.
Proof. destruct c as [[] [] [] [] [] [] [] []]; vm_compute; intro H; congruence. Qed.

Lemma upper_digits (s : string) :
  Str.all Str.isdigit s = true -> Str.upper s = s.
Proof.
  unfold Str.upper.
  induction s as [|c r IH]; cbn [Str.all Str.map]; intro H; [reflexivity|].
  apply andb_prop in H. destruct H as [Hc Hr].
  now rewrite (to_upper_digit c Hc), (IH Hr).
Qed.

(** A row whose cells read as the header does is dropped: the cell under
    [POS] reads [POS], which is no number. *)
Lemma header_like_row_dropped (cells : list string) :
  table_row (col_map_of (List.map Str.upper cells)) cells = None.
Proof.
  unfold table_row. destruct cells as [|c cs] eqn:Ec; [reflexivity|]. rewrite <- Ec.
  destruct (field_of (col_map_of (List.map Str.upper cells)) cells ["POS"]) as [s|] eqn:Es;
    [|reflexivity].
  destruct (field_of_Some _ _ _ _ Es) as [n [i [Hn [Hl [Hc _]]]]].
  destruct Hn as [<-|[]]. change (Str.upper "POS") with "POS" in Hl.
  apply col_map_of_lookup in Hl.
  rewrite nth_error_map, Hc in Hl. cbn in Hl. inversion Hl as [Hu].
  destruct (Re.fullmatch_digits s) eqn:Ed; [|reflexivity].
  exfalso. unfold Re.fullmatch_digits in Ed. apply andb_prop in Ed. destruct Ed as [_ Ha].
  rewrite (upper_digits s Ha) in Hu. subst s. vm_compute in Ha. discriminate.
Qed.

(** X8. In a table without [thead], the first row, which gives the
    header, is never returned as a result row. *)
Theorem header_row_is_no_result (t first_tr : Bs4.node) :
  Bs4.find "thead" (Bs4.contents_of t) = None ->
  Bs4.find "tr" (Bs4.contents_of t) = Some first_tr ->
  header_of t = List.map Str.upper (cells_of first_tr)
  /\ row_of_tr (col_map_of (header_of t)) first_tr = Ok None.
Proof.
  intros Hh Hr.
  assert (E : header_of t = List.map Str.upper (cells_of first_tr)).
  { unfold header_of, cells_of. rewrite Hh, Hr, (find_all_swap "th" "td"), map_map.
    reflexivity. }
  split; [exact E|].
  rewrite row_of_tr_table_row, E, header_like_row_dropped. reflexivity.
Qed.

Lemma header_row_is_no_result_witness :
  Bs4.find "thead" (Bs4.contents_of (table_of ["Pos"; "Rider"] [["1"; "Eli Tomac"]])) = None
  /\ row_of_tr (col_map_of (header_of (table_of ["Pos"; "Rider"] [["1"; "Eli Tomac"]])))
       (tr_of "th" ["Pos"; "Rider"]) = Ok None.
Proof.
  assert (H1 : Bs4.find "thead"
                 (Bs4.contents_of (table_of ["Pos"; "Rider"] [["1"; "Eli Tomac"]])) = None)
    by (vm_compute; reflexivity).
  assert (H2 : Bs4.find "tr"
                 (Bs4.contents_of (table_of ["Pos"; "Rider"] [["1"; "Eli Tomac"]]))
               = Some (tr_of "th" ["Pos"; "Rider"])) by (vm_compute; reflexivity).
  split; [exact H1|].
  exact (proj2 (header_row_is_no_result _ _ H1 H2)).
Defined.


(** ** The fields of a text row *)

Lemma split_ws_aux_tail_space (s w : string) :
  Str.all Str.isspace w = true ->
  forall cur, Str.split_ws_aux cur (s ++ w) = Str.split_ws_aux cur s.
Proof.
  intro Hw. induction s as [|c r IH]; intro cur; cbn [String.append].
  - revert cur. induction w as [|c r IHw]; intro cur; [reflexivity|].
    cbn [Str.all] in Hw. apply andb_prop in Hw. destruct Hw as [Hc Hr].
    cbn [Str.split_ws_aux]. rewrite Hc.
    destruct cur as [x|]; rewrite (IHw Hr); reflexivity.
  - cbn [Str.split_ws_aux]. destruct (Str.isspace c); destruct cur; now rewrite IH.
Qed.

Lemma split_ws_aux_skip_space (w rest : string) :
  Str.all Str.isspace w = true ->
  Str.split_ws_aux None (w ++ rest) = Str.split_ws_aux None rest.
Proof.
  induction w as [|c r IH]; cbn [String.append Str.all]; intro H; [reflexivity|].
  apply andb_prop in H. destruct H as [Hc Hr].
  cbn [Str.split_ws_aux]. rewrite Hc. now apply IH.
Qed.

Lemma split_ws_aux_end_word (x w rest : string) :
  Str.truthy w = true -> Str.all Str.isspace w = true ->
  Str.split_ws_aux (Some x) (w ++ rest) = x :: Str.split_ws_aux None rest.
Proof.
  intros Ht Ha. destruct w as [|c r]; [discriminate|].
  cbn [Str.all] in Ha. apply andb_prop in Ha. destruct Ha as [Hc Hr].
  cbn [String.append Str.split_ws_aux]. rewrite Hc.
  now rewrite (split_ws_aux_skip_space r rest Hr).
Qed.

Lemma digits_word (g : string) : Re.fullmatch_digits g = true -> is_word g = true.
Proof.
  unfold Re.fullmatch_digits, is_word. intro H. apply andb_prop in H.
  destruct H as [Ht Ha]. rewrite Ht. cbn [andb].
  induction g as [|c r IH]; [reflexivity|].
  cbn [Str.all] in *. apply andb_prop in Ha. destruct Ha as [Hc Hr].
  rewrite (isdigit_not_space c Hc). cbn [negb andb].
  destruct r; [reflexivity|]. now apply IH.
Qed.

(** The words of a line of the shape of a data line: the integer, the
    token, the words of the remaining text. *)
Lemma row_shape_words (ln g1 g2 g3 : string) :
  row_shape ln g1 g2 g3 ->
  Str.split_ws ln = g1 :: g2 :: Str.split_ws g3.
Proof.
  intros [w1 [w2 [nl [-> [Hd [[Tw1 Hw1] [[Tt Ht] [[Tw2 Hw2] [Hno Hnl]]]]]]]]].
  unfold Str.split_ws.
  rewrite (split_ws_aux_start g1 _ (digits_word g1 Hd)).
  rewrite (split_ws_aux_end_word g1 w1 _ Tw1 Hw1).
  assert (Hg2 : is_word g2 = true) by (unfold is_word; now rewrite Tt, Ht).
  rewrite (split_ws_aux_start g2 _ Hg2).
  rewrite (split_ws_aux_end_word g2 w2 _ Tw2 Hw2).
  do 2 f_equal. apply split_ws_aux_tail_space.
  destruct Hnl as [->| ->]; reflexivity.
Qed.

Lemma guess_rider_words (g3 : string) :
  guess_rider g3 =
  match Str.split_ws g3 with
  | a :: b :: _ => Some (a ++ " " ++ b)%string
  | _ => None
  end.
Proof.
  unfold guess_rider.
  destruct (Str.split_ws g3) as [|a [|b r]]; reflexivity.
Qed.

Lemma until_footer_subset (l : list string) (x : string) :
  In x (until_footer l) -> In x l.
Proof.
  induction l as [|y r IH]; cbn [until_footer]; [tauto|].
  destruct (is_footer_line y); [intros []|].
  intros [->|H]; [now left|right; now apply IH].
Qed.

Lemma skipn_subset {A : Type} (n : nat) (l : list A) (x : A) :
  In x (skipn n l) -> In x l.
Proof.
  revert l. induction n as [|n IH]; intros l H; [exact H|].
  destruct l as [|y r]; [destruct H|]. right. now apply IH.
Qed.

(** X10. The fields of a row of the text fallback are the words of its
    line: the position is the integer the first word spells, the number
    is the second word, and the rider guess is the third and the fourth
    word with a space between them, absent when the line has fewer than
    four words. The line is one of the lines given. *)
Theorem text_row_fields_are_words
  (lines : list string) (rows : list ResultRow) (r : ResultRow) :
  fallback_of_lines lines = Ok rows ->
  In r rows ->
  exists t d n rest,
    r = FromText t
    /\ In (line t) lines
    /\ Str.split_ws (line t) = d :: n :: rest
    /\ Str.int d = Ok (text_pos t)
    /\ text_number t = n
    /\ rider_guess t = match rest with
                       | a :: b :: _ => Some (a ++ " " ++ b)%string
                       | _ => None
                       end.
Proof.
  rewrite fallback_of_lines_rows. intro H. inversion H; subst rows; clear H.
  unfold fallback_rows.
  destruct (find_header 0 lines) as [i|]; [|intros []].
  unfold text_rows. intro Hr. apply kept_In in Hr. destruct Hr as [ln [Hin Hr]].
  apply until_footer_subset, skipn_subset in Hin.
  unfold text_row in Hr.
  destruct (Re.match_row ln) as [[[g1 g2] g3]|] eqn:E; [|discriminate].
  inversion Hr; subst r; clear Hr.
  pose proof (match_row_sound ln g1 g2 g3 E) as Hs.
  exists (mkTextRow (Str.int_aux 0 g1) g2 (guess_rider g3) ln), g1, g2, (Str.split_ws g3).
  cbn [line text_pos text_number rider_guess].
  split; [reflexivity|]. split; [exact Hin|].
  split; [exact (row_shape_words ln g1 g2 g3 Hs)|].
  destruct Hs as [w1 [w2 [nl [_ [Hd _]]]]].
  split; [exact (int_of_digits g1 Hd)|]. split; [reflexivity|].
  apply guess_rider_words.
Qed.

Lemma text_row_fields_are_words_witness :
  fallback_of_lines ["POS # RIDER BIKE"; "1 21 Cooper Webb Yamaha"; "2 3 Tomac"] =
    Ok [FromText (mkTextRow 1 "21" (Some "Cooper Webb") "1 21 Cooper Webb Yamaha");
        FromText (mkTextRow 2 "3" None "2 3 Tomac")]
  /\ exists t d n rest,
       FromText (mkTextRow 2 "3" None "2 3 Tomac") = FromText t
       /\ In (line t) ["POS # RIDER BIKE"; "1 21 Cooper Webb Yamaha"; "2 3 Tomac"]
       /\ Str.split_ws (line t) = d :: n :: rest
       /\ Str.int d = Ok (text_pos t)
       /\ text_number t = n
       /\ rider_guess t = match rest with
                          | a :: b :: _ => Some (a ++ " " ++ b)%string
                          | _ => None
                          end.
Proof.
  assert (H : fallback_of_lines ["POS # RIDER BIKE"; "1 21 Cooper Webb Yamaha"; "2 3 Tomac"] =
    Ok [FromText (mkTextRow 1 "21" (Some "Cooper Webb") "1 21 Cooper Webb Yamaha");
        FromText (mkTextRow 2 "3" None "2 3 Tomac")]) by (vm_compute; reflexivity).
  split; [exact H|].
  exact (text_row_fields_are_words _ _ _ H (or_intror (or_introl eq_refl))).
Defined.

(** X11. The lines the fallback reads are never empty and are
    normalized; each is the normalized form of a line of the text. *)
Theorem lines_of_text_are_normalized (text ln : string) :
  In ln (lines_of_text text) ->
  ln <> EmptyString
  /\ normalize_ws ln = ln
  /\ exists raw_ln, In raw_ln (Str.splitlines text) /\ ln = normalize_ws raw_ln.
Proof.
  unfold lines_of_text. intro H. apply in_map_iff in H.
  destruct H as [raw_ln [<- H]]. apply filter_In in H. destruct H as [Hin Ht].
  split; [now apply truthy_not_empty|].
  split; [apply normalize_ws_again|]. eauto.
Qed.

Lemma lines_of_text_are_normalized_witness :
  In "1 21 Cooper Webb"
     (lines_of_text ("  POS   # " ++ String Str.LF (String Str.LF " 1  21 Cooper   Webb ")))
  /\ normalize_ws "1 21 Cooper Webb" = "1 21 Cooper Webb".
Proof.
  assert (H : In "1 21 Cooper Webb"
     (lines_of_text ("  POS   # " ++ String Str.LF (String Str.LF " 1  21 Cooper   Webb "))))
    by (vm_compute; right; left; reflexivity).
  split; [exact H|].
  exact (proj1 (proj2 (lines_of_text_are_normalized _ _ H))).
Defined.

(** ** De-duplication once more *)

Lemma filter_all_true {A : Type} (p : A -> bool) (l : list A) :
  (forall x, In x l -> p x = true) -> filter p l = l.
Proof.
  induction l as [|x r IH]; intro H; cbn [filter]; [reflexivity|].
  rewrite (H x (or_introl eq_refl)), IH; [reflexivity|].
  intros y Hy. apply H. now right.
Qed.

Lemma first_occurrences_fixed {V : Type} (key : V -> string) (l : list V) :
  NoDup (List.map key l) -> first_occurrences key l = l.
Proof.
  induction l as [|x r IH]; cbn [first_occurrences List.map]; intro H; [reflexivity|].
  inversion H as [|k ks Hnot Hnd]; subst.
  rewrite (IH Hnd). f_equal. apply filter_all_true.
  intros y Hy. apply negb_true_iff, String.eqb_neq. intro E.
  apply Hnot. rewrite <- E. now apply in_map.
Qed.

Lemma filter_length_le {A : Type} (p : A -> bool) (l : list A) :
  length (filter p l) <= length l.
Proof.
  induction l as [|x r IH]; cbn [filter length]; [lia|].
  destruct (p x); cbn [length]; lia.
Qed.

Lemma first_occurrences_length {V : Type} (key : V -> string) (l : list V) :
  length (first_occurrences key l) <= length l.
Proof.
  induction l as [|x r IH]; cbn [first_occurrences length]; [lia|].
  pose proof (filter_length_le
                (fun y => negb (String.eqb (key y) (key x))) (first_occurrences key r)).
  lia.
Qed.

(** X12. The de-dupe loop is idempotent, leaves a list of distinct ids as
    it is, and never returns more elements than it was given. *)
Theorem dedupe_idempotent {V : Type} (key : V -> string) (l : list V) :
  dedupe key (dedupe key l) = dedupe key l
  /\ (NoDup (List.map key l) -> dedupe key l = l)
  /\ length (dedupe key l) <= length l.
Proof.
  rewrite !dedupe_first_occurrences.
  split; [apply first_occurrences_fixed, first_occurrences_NoDup|].
  split; [apply first_occurrences_fixed|apply first_occurrences_length].
Qed.

Lemma dedupe_idempotent_witness :
  NoDup (List.map event_id [mkEventRef "5" "A" "u"; mkEventRef "9" "B" "v"])
  /\ dedupe event_id [mkEventRef "5" "A" "u"; mkEventRef "9" "B" "v"]
     = [mkEventRef "5" "A" "u"; mkEventRef "9" "B" "v"].
Proof.
  assert (H : NoDup (List.map event_id [mkEventRef "5" "A" "u"; mkEventRef "9" "B" "v"])).
  { cbn. constructor; [intros [E|[]]; discriminate|].
    constructor; [intros []|constructor]. }
  split; [exact H|].
  exact (proj1 (proj2 (dedupe_idempotent event_id _)) H).
Defined.

(** ** The rows of a table, in order *)



(** ** The sessions [main] fetches *)

Lemma compare_refl (a : string) : String.compare a a = Eq.
Proof. apply (proj2 (OrderedTypeEx.String_as_OT.cmp_eq a a)). reflexivity. Qed.

Lemma compare_lt_trans (a b c : string) :
  String.compare a b = Lt -> String.compare b c = Lt -> String.compare a c = Lt.
Proof.
  intros H1 H2.
  apply (proj2 (OrderedTypeEx.String_as_OT.cmp_lt a c)).
  apply (OrderedTypeEx.String_as_OT.lt_trans a b c).
  - now apply (proj1 (OrderedTypeEx.String_as_OT.cmp_lt a b)).
  - now apply (proj1 (OrderedTypeEx.String_as_OT.cmp_lt b c)).
Qed.

Lemma key_lt_compare (a b : string * string) :
  key_lt a b = match key_compare a b with Lt => true | _ => false end.
Proof.
  unfold key_lt, key_compare, String.ltb.
  destruct (String.compare (fst a) (fst b)); reflexivity.
Qed.

Lemma key_compare_refl (a : string * string) : key_compare a a = Eq.
Proof. unfold key_compare. now rewrite !compare_refl. Qed.

Lemma key_compare_eq (a b : string * string) : key_compare a b = Eq -> a = b.
Proof.
  unfold key_compare. destruct a as [a1 a2], b as [b1 b2]. cbn [fst snd].
  destruct (String.compare a1 b1) eqn:E1; try discriminate.
  intro E2. apply String.compare_eq_iff in E1, E2. now subst.
Qed.

Lemma key_compare_antisym (a b : string * string) :
  key_compare a b = CompOpp (key_compare b a).
Proof.
  unfold key_compare.
  rewrite (String.compare_antisym (fst a) (fst b)).
  destruct (String.compare (fst b) (fst a)); cbn [CompOpp]; [|reflexivity|reflexivity].
  apply String.compare_antisym.
Qed.

Lemma key_compare_lt_trans (a b c : string * string) :
  key_compare a b = Lt -> key_compare b c = Lt -> key_compare a c = Lt.
Proof.
  unfold key_compare.
  destruct (String.compare (fst a) (fst b)) eqn:E1; try discriminate;
  destruct (String.compare (fst b) (fst c)) eqn:E2; try discriminate; intros H1 H2.
  - apply String.compare_eq_iff in E1, E2. rewrite E1, E2, compare_refl.
    exact (compare_lt_trans _ _ _ H1 H2).
  - apply String.compare_eq_iff in E1. now rewrite E1, E2.
  - apply String.compare_eq_iff in E2. now rewrite <- E2, E1.
  - now rewrite (compare_lt_trans _ _ _ E1 E2).
Qed.

Lemma key_lt_irrefl (a : string * string) : key_lt a a = false.
Proof. now rewrite key_lt_compare, key_compare_refl. Qed.

(** [not (c < b)] and [not (b < a)] give [not (c < a)]. *)
Lemma key_le_trans (a b c : string * string) :
  key_lt b a = false -> key_lt c b = false -> key_lt c a = false.
Proof.
  rewrite !key_lt_compare.
  rewrite (key_compare_antisym b a), (key_compare_antisym c b), (key_compare_antisym c a).
  destruct (key_compare a b) eqn:E1; cbn [CompOpp]; try discriminate;
  destruct (key_compare b c) eqn:E2; cbn [CompOpp]; try discriminate; intros _ _.
  - apply key_compare_eq in E1, E2. subst. now rewrite key_compare_refl.
  - apply key_compare_eq in E1. subst. now rewrite E2.
  - apply key_compare_eq in E2. subst. now rewrite E1.
  - now rewrite (key_compare_lt_trans _ _ _ E1 E2).
Qed.

Lemma key_lt_asym (a b : string * string) : key_lt a b = true -> key_lt b a = false.
Proof.
  rewrite !key_lt_compare, (key_compare_antisym b a).
  destruct (key_compare a b); cbn [CompOpp]; congruence.
Qed.

Lemma key_eqb_eq (a b : string * string) : key_eqb a b = true <-> a = b.
Proof.
  unfold key_eqb. destruct a as [a1 a2], b as [b1 b2]. cbn [fst snd].
  rewrite andb_true_iff, !String.eqb_eq. split; [intros [-> ->]; reflexivity|].
  intro H. now inversion H.
Qed.

Lemma insert_session_perm (x : SessionRef) (l : list SessionRef) :
  Permutation (x :: l) (insert_session x l).
Proof.
  induction l as [|y r IH]; cbn [insert_session]; [apply Permutation_refl|].
  destruct (key_lt (session_key y) (session_key x)); [|apply Permutation_refl].
  eapply Permutation_trans; [apply perm_swap|]. now apply perm_skip.
Qed.

Lemma sort_sessions_perm (l : list SessionRef) : Permutation l (sort_sessions l).
Proof.
  induction l as [|x r IH]; cbn [sort_sessions]; [apply Permutation_refl|].
  eapply Permutation_trans; [apply perm_skip, IH|apply insert_session_perm].
Qed.

Lemma insert_session_sorted (x : SessionRef) (l : list SessionRef) :
  StronglySorted (fun a b => key_lt (session_key b) (session_key a) = false) l ->
  StronglySorted (fun a b => key_lt (session_key b) (session_key a) = false)
    (insert_session x l).
Proof.
  induction l as [|y r IH]; intro H; cbn [insert_session].
  - constructor; constructor.
  - inversion H as [|y' r' Hr Hy]; subst.
    destruct (key_lt (session_key y) (session_key x)) eqn:E.
    + constructor; [now apply IH|].
      apply Forall_forall. intros z Hz.
      apply (Permutation_in _ (Permutation_sym (insert_session_perm x r))) in Hz.
      destruct Hz as [<-|Hz].
      * now apply key_lt_asym.
      * rewrite Forall_forall in Hy. now apply Hy.
    + constructor; [exact H|].
      constructor; [exact E|].
      apply Forall_forall. intros z Hz. rewrite Forall_forall in Hy.
      exact (key_le_trans _ _ _ E (Hy z Hz)).
Qed.

Lemma sort_sessions_sorted (l : list SessionRef) :
  StronglySorted (fun a b => key_lt (session_key b) (session_key a) = false)
    (sort_sessions l).
Proof.
  induction l as [|x r IH]; cbn [sort_sessions]; [constructor|].
  now apply insert_session_sorted.
Qed.

Lemma insert_session_stable (k : string * string) (x : SessionRef) (l : list SessionRef) :
  filter (fun y => key_eqb (session_key y) k) (insert_session x l) =
  filter (fun y => key_eqb (session_key y) k) (x :: l).
Proof.
  induction l as [|y r IH]; cbn [insert_session]; [reflexivity|].
  destruct (key_lt (session_key y) (session_key x)) eqn:E; [|reflexivity].
  cbn [filter] in *. rewrite IH.
  destruct (key_eqb (session_key x) k) eqn:Ex; [|reflexivity].
  destruct (key_eqb (session_key y) k) eqn:Ey; [|reflexivity].
  apply key_eqb_eq in Ex, Ey. rewrite Ex, <- Ey, key_lt_irrefl in E. discriminate.
Qed.

Lemma sort_sessions_stable (k : string * string) (l : list SessionRef) :
  filter (fun y => key_eqb (session_key y) k) (sort_sessions l) =
  filter (fun y => key_eqb (session_key y) k) l.
Proof.
  induction l as [|x r IH]; cbn [sort_sessions]; [reflexivity|].
  rewrite insert_session_stable. cbn [filter]. now rewrite IH.
Qed.

Lemma firstn_sorted {A : Type} (R : A -> A -> Prop) (n : nat) (l : list A) :
  StronglySorted R l -> StronglySorted R (firstn n l).
Proof.
  revert l. induction n as [|n IH]; intros l H; [constructor|].
  destruct l as [|x r]; [constructor|].
  inversion H as [|x' r' Hr Hx]; subst. cbn [firstn].
  constructor; [now apply IH|].
  apply Forall_forall. intros z Hz. rewrite Forall_forall in Hx.
  apply Hx. revert Hz. clear. revert r. induction n as [|n IH]; intros r Hz; [destruct Hz|].
  destruct r as [|y r]; [destruct Hz|]. destruct Hz as [->|Hz]; [now left|right; now apply IH].
Qed.

Lemma firstn_subset {A : Type} (n : nat) (l : list A) (x : A) :
  In x (firstn n l) -> In x l.
Proof.
  revert l. induction n as [|n IH]; intros l H; [destruct H|].
  destruct l as [|y r]; [destruct H|].
  destruct H as [->|H]; [now left|right; now apply IH].
Qed.

(** X14. The sessions [main] fetches are in ascending order of the
    lower-cased name, then of the id; sessions with the same key keep their
    order. Without a positive limit they are the sessions discovered, or
    the main events among them when asked, each once; a positive limit
    keeps the first so many of that order. *)
Theorem select_sessions_sorted_and_cut
  (only_main_events : bool) (limit_sessions : Z) (sessions : list SessionRef) :
  let chosen :=
    if only_main_events
    then filter (fun sess => is_main_event (session_name sess)) sessions
    else sessions in
  let out := select_sessions only_main_events limit_sessions sessions in
  StronglySorted (fun a b => key_lt (session_key b) (session_key a) = false) out
  /\ (forall s, In s out ->
        In s sessions
        /\ (only_main_events = true -> is_main_event (session_name s) = true))
  /\ ((limit_sessions <= 0)%Z ->
      Permutation chosen out
      /\ forall k, filter (fun y => key_eqb (session_key y) k) out =
                   filter (fun y => key_eqb (session_key y) k) chosen)
  /\ ((0 < limit_sessions)%Z ->
      out = firstn (Z.to_nat limit_sessions) (select_sessions only_main_events 0 sessions)
      /\ length out = Nat.min (Z.to_nat limit_sessions) (length chosen)).
Proof.
  cbv zeta. unfold select_sessions.
  set (chosen := if only_main_events
                 then filter (fun sess => is_main_event (session_name sess)) sessions
                 else sessions).
  assert (Hchosen : forall s, In s chosen ->
            In s sessions
            /\ (only_main_events = true -> is_main_event (session_name s) = true)).
  { intros s Hs. subst chosen. destruct only_main_events.
    - apply filter_In in Hs. tauto.
    - split; [exact Hs|discriminate]. }
  change (0 <? 0)%Z with false. cbv iota.
  split; [|split; [|split]].
  - destruct (0 <? limit_sessions)%Z.
    + apply firstn_sorted, sort_sessions_sorted.
    + apply sort_sessions_sorted.
  - intros s Hs. apply Hchosen.
    apply (Permutation_in _ (Permutation_sym (sort_sessions_perm chosen))).
    destruct (0 <? limit_sessions)%Z; [now apply firstn_subset in Hs|exact Hs].
  - intro Hle. assert (E : (0 <? limit_sessions)%Z = false) by (apply Z.ltb_ge; lia).
    rewrite E. split; [apply sort_sessions_perm|].
    intro k. apply sort_sessions_stable.
  - intro Hlt. assert (E : (0 <? limit_sessions)%Z = true) by (apply Z.ltb_lt; lia).
    rewrite E. split; [reflexivity|].
    rewrite length_firstn. f_equal.
    symmetry. apply Permutation_length, sort_sessions_perm.
Qed.

Lemma select_sessions_sorted_and_cut_witness :
  (0 < 2)%Z
  /\ select_sessions true 2
       [mkSessionRef "30" "450SX Main Event Results" "c";
        mkSessionRef "10" "250SX main event results" "a";
        mkSessionRef "20" "250SX Heat 1 Results" "b";
        mkSessionRef "40" "450SX LCQ main event Results" "d"]
     = [mkSessionRef "10" "250SX main event results" "a";
        mkSessionRef "40" "450SX LCQ main event Results" "d"].
Proof.
  split; [lia|].
  rewrite (proj1 (proj2 (proj2 (proj2
    (select_sessions_sorted_and_cut true 2
       [mkSessionRef "30" "450SX Main Event Results" "c";
        mkSessionRef "10" "250SX main event results" "a";
        mkSessionRef "20" "250SX Heat 1 Results" "b";
        mkSessionRef "40" "450SX LCQ main event Results" "d"]))) ltac:(lia))).
  vm_compute. reflexivity.
Defined.

(** ** Links without brackets *)

Lemma bracket_free_mem (s : string) :
  bracket_free s = true <-> Str.mem "[" s = false /\ Str.mem "]" s = false.
Proof.
  unfold bracket_free. induction s as [|c r IH]; cbn [Str.all Str.mem]; [tauto|].
  rewrite andb_true_iff, IH. unfold no_bracket.
  rewrite (Ascii.eqb_sym c "["), (Ascii.eqb_sym c "]").
  destruct (Ascii.eqb "[" c), (Ascii.eqb "]" c); cbn [orb negb]; intuition congruence.
Qed.

Lemma bracket_free_app (a b : string) :
  bracket_free a = true -> bracket_free b = true -> bracket_free (a ++ b) = true.
Proof.
  unfold bracket_free. intros Ha Hb. now rewrite all_app, Ha, Hb.
Qed.

Lemma bracket_free_lstrip (f : ascii -> bool) (s : string) :
  bracket_free s = true -> bracket_free (Str.lstrip_by f s) = true.
Proof.
  unfold bracket_free. induction s as [|c r IH]; cbn [Str.lstrip_by]; [trivial|].
  intro H. destruct (f c); [|exact H].
  cbn [Str.all] in H. apply andb_true_iff in H. now apply IH.
Qed.

Lemma bracket_free_rstrip (f : ascii -> bool) (s : string) :
  bracket_free s = true -> bracket_free (Str.rstrip_by f s) = true.
Proof.
  unfold bracket_free. induction s as [|c r IH]; cbn [Str.rstrip_by]; [trivial|].
  cbn [Str.all]. intro H. apply andb_true_iff in H. destruct H as [Hc Hr].
  specialize (IH Hr). destruct (Str.rstrip_by f r) as [|d r'].
  - destruct (f c); [reflexivity|]. cbn [Str.all]. now rewrite Hc.
  - cbn [Str.all] in *. now rewrite Hc, IH.
Qed.

Lemma bracket_free_strip (s : string) :
  bracket_free s = true -> bracket_free (Str.strip s) = true.
Proof. intro H. now apply bracket_free_lstrip, bracket_free_rstrip. Qed.

Lemma bracket_free_remove (f : ascii -> bool) (s : string) :
  bracket_free s = true -> bracket_free (Str.remove f s) = true.
Proof.
  unfold bracket_free. induction s as [|c r IH]; cbn [Str.remove]; [trivial|].
  cbn [Str.all]. intro H. apply andb_true_iff in H. destruct H as [Hc Hr].
  destruct (f c); [now apply IH|]. cbn [Str.all]. now rewrite Hc, IH.
Qed.

Lemma bracket_free_partition (c : ascii) (s a b : string) :
  bracket_free s = true -> Str.partition c s = Some (a, b) ->
  bracket_free a = true /\ bracket_free b = true.
Proof.
  unfold bracket_free. revert a b.
  induction s as [|d r IH]; intros a b; cbn [Str.partition]; [discriminate|].
  cbn [Str.all]. intro H. apply andb_true_iff in H. destruct H as [Hd Hr].
  destruct (Ascii.eqb c d).
  - intro E. inversion E; subst. now split.
  - destruct (Str.partition c r) as [[a' b']|]; [|discriminate].
    intro E. inversion E; subst. destruct (IH a' b Hr eq_refl) as [Ha Hb].
    cbn [Str.all]. now rewrite Hd, Ha.
Qed.

Lemma no_bracket_to_lower (c : ascii) :
  no_bracket c = true -> no_bracket (Str.to_lower c) = true.
Proof. destruct c as [[] [] [] [] [] [] [] []]; vm_compute; trivial. Qed.

Lemma bracket_free_lower (s : string) :
  bracket_free s = true -> bracket_free (Str.lower s) = true.
Proof.
  unfold bracket_free, Str.lower.
  induction s as [|c r IH]; cbn [Str.map Str.all]; [trivial|].
  intro H. apply andb_true_iff in H. destruct H as [Hc Hr].
  now rewrite (no_bracket_to_lower c Hc), IH.
Qed.

Lemma bracket_free_split_scheme (dflt url : string) :
  bracket_free dflt = true -> bracket_free url = true ->
  bracket_free (fst (Urllib.split_scheme dflt url)) = true
  /\ bracket_free (snd (Urllib.split_scheme dflt url)) = true.
Proof.
  intros Hd Hu. unfold Urllib.split_scheme.
  destruct url as [|c0 r]; [now split|].
  destruct (Str.partition ":" (String c0 r)) as [[pre post]|] eqn:E; [|now split].
  destruct pre as [|p0 pre']; [now split|].
  destruct (Str.isalpha c0 && Str.all Urllib.is_scheme_char (String p0 pre'));
    [|now split].
  destruct (bracket_free_partition _ _ _ _ Hu E) as [Ha Hb].
  cbn [fst snd]. split; [now apply bracket_free_lower|exact Hb].
Qed.

Lemma bracket_free_span (p : ascii -> bool) (s : string) :
  bracket_free s = true ->
  bracket_free (fst (Str.span p s)) = true /\ bracket_free (snd (Str.span p s)) = true.
Proof.
  unfold bracket_free. induction s as [|c r IH]; cbn [Str.span]; [now split|].
  cbn [Str.all]. intro H. apply andb_true_iff in H. destruct H as [Hc Hr].
  destruct (p c).
  - destruct (IH Hr) as [Ha Hb]. destruct (Str.span p r) as [a b].
    cbn [fst snd Str.all] in *. now rewrite Hc, Ha.
  - cbn [fst snd Str.all]. now rewrite Hc, Hr.
Qed.

Lemma bracket_free_split_once (c : ascii) (s : string) :
  bracket_free s = true ->
  bracket_free (fst (Urllib.split_once c s)) = true
  /\ bracket_free (snd (Urllib.split_once c s)) = true.
Proof.
  intro H. unfold Urllib.split_once.
  destruct (Str.partition c s) as [[a b]|] eqn:E; [|now split].
  exact (bracket_free_partition _ _ _ _ H E).
Qed.

(** [urlsplit] of a text without brackets returns, and its parts have no
    bracket. *)
Lemma urlsplit_bracket_free (url dflt : string) :
  bracket_free url = true -> bracket_free dflt = true ->
  exists sch nl p q f,
    Urllib.urlsplit url dflt = Ok (sch, nl, p, q, f)
    /\ bracket_free sch = true /\ bracket_free nl = true /\ bracket_free p = true
    /\ bracket_free q = true /\ bracket_free f = true.
Proof.
  intros Hu Hd. unfold Urllib.urlsplit.
  pose proof (bracket_free_remove Urllib.is_unsafe _
                (bracket_free_lstrip Urllib.is_c0_or_space _ Hu)) as Hu1.
  pose proof (bracket_free_remove Urllib.is_unsafe _
                (bracket_free_rstrip Urllib.is_c0_or_space _
                   (bracket_free_lstrip Urllib.is_c0_or_space _ Hd))) as Hd1.
  destruct (bracket_free_split_scheme _ _ Hd1 Hu1) as [Hs Hr].
  destruct (Urllib.split_scheme _ _) as [sch u1]. cbn [fst snd] in Hs, Hr.
  assert (Hnl : exists nl u2,
            match u1 with
            | String "/" (String "/" r) =>
                let (nl, rest) := Str.span (fun c => negb (Urllib.is_netloc_end c)) r in
                if xorb (Str.mem "[" nl) (Str.mem "]" nl)
                then Raise ValueError
                else Ok (nl, rest)
            | _ => Ok (EmptyString, u1)
            end = Ok (nl, u2)
            /\ bracket_free nl = true /\ bracket_free u2 = true).
  { assert (Hdef : exists nl u2, Ok (EmptyString, u1) = Ok (nl, u2)
                     /\ bracket_free nl = true /\ bracket_free u2 = true)
      by (exists EmptyString, u1; now repeat split).
    destruct u1 as [|c1 u]; [exact Hdef|].
    destruct (Ascii.eqb c1 "/") eqn:E1;
      [apply Ascii.eqb_eq in E1; subst c1
      |destruct c1 as [[] [] [] [] [] [] [] []]; try discriminate E1; exact Hdef].
    destruct u as [|c2 r]; [exact Hdef|].
    destruct (Ascii.eqb c2 "/") eqn:E2;
      [apply Ascii.eqb_eq in E2; subst c2
      |destruct c2 as [[] [] [] [] [] [] [] []]; try discriminate E2; exact Hdef].
    assert (Hr' : bracket_free r = true).
    { unfold bracket_free in *. cbn [Str.all] in Hr.
      apply andb_true_iff in Hr. destruct Hr as [_ Hr].
      apply andb_true_iff in Hr. tauto. }
    destruct (bracket_free_span (fun c => negb (Urllib.is_netloc_end c)) r Hr')
      as [Ha Hb].
    destruct (Str.span _ r) as [nl rest]. cbn [fst snd] in Ha, Hb.
    destruct (proj1 (bracket_free_mem nl) Ha) as [M1 M2]. rewrite M1, M2.
    cbn [xorb]. exists nl, rest. now repeat split. }
  destruct Hnl as (nl & u2 & -> & Hn & Hu2). cbn [bind].
  destruct (bracket_free_split_once "#" u2 Hu2) as [H3 Hf].
  destruct (Urllib.split_once "#" u2) as [u3 f]. cbn [fst snd] in H3, Hf.
  destruct (bracket_free_split_once "?" u3 H3) as [Hp Hq].
  destruct (Urllib.split_once "?" u3) as [p q]. cbn [fst snd] in Hp, Hq.
  exists sch, nl, p, q, f. now repeat split.
Qed.

Lemma bracket_free_rsplit_slash (s : string) :
  bracket_free s = true ->
  bracket_free (fst (Urllib.rsplit_slash s)) = true
  /\ bracket_free (snd (Urllib.rsplit_slash s)) = true.
Proof.
  unfold bracket_free. induction s as [|c r IH]; cbn [Urllib.rsplit_slash]; [now split|].
  cbn [Str.all]. intro H. apply andb_true_iff in H. destruct H as [Hc Hr].
  destruct (IH Hr) as [Ha Hb]. destruct (Urllib.rsplit_slash r) as [a b].
  cbn [fst snd] in Ha, Hb.
  destruct (Str.mem "/" r); [|destruct (Ascii.eqb c "/")];
    cbn [fst snd Str.all]; rewrite ?Hc, ?Ha, ?Hb, ?Hr; now split.
Qed.

Lemma bracket_free_splitparams (s : string) :
  bracket_free s = true ->
  bracket_free (fst (Urllib.splitparams s)) = true
  /\ bracket_free (snd (Urllib.splitparams s)) = true.
Proof.
  intro H. unfold Urllib.splitparams.
  destruct (bracket_free_rsplit_slash s H) as [Hd Hl].
  destruct (Urllib.rsplit_slash s) as [dir lst]. cbn [fst snd] in Hd, Hl.
  destruct (Str.partition ";" lst) as [[a b]|] eqn:E; [|now split].
  destruct (bracket_free_partition _ _ _ _ Hl E) as [Ha Hb].
  cbn [fst snd]. split; [now apply bracket_free_app|exact Hb].
Qed.

Lemma parts_bracket_free_intro (sch nl p prm q f : string) :
  bracket_free sch = true -> bracket_free nl = true -> bracket_free p = true ->
  bracket_free prm = true -> bracket_free q = true -> bracket_free f = true ->
  parts_bracket_free (Urllib.mkParseResult sch nl p prm q f) = true.
Proof.
  intros H1 H2 H3 H4 H5 H6. unfold parts_bracket_free.
  cbn [Urllib.scheme Urllib.netloc Urllib.path Urllib.params Urllib.query Urllib.fragment].
  now rewrite H1, H2, H3, H4, H5, H6.
Qed.

Lemma parts_bracket_free_elim (r : Urllib.ParseResult) :
  parts_bracket_free r = true ->
  bracket_free (Urllib.scheme r) = true /\ bracket_free (Urllib.netloc r) = true
  /\ bracket_free (Urllib.path r) = true /\ bracket_free (Urllib.params r) = true
  /\ bracket_free (Urllib.query r) = true /\ bracket_free (Urllib.fragment r) = true.
Proof.
  unfold parts_bracket_free. rewrite !andb_true_iff. tauto.
Qed.

(** [urlparse] of a text without brackets returns. *)
Lemma urlparse_bracket_free (url dflt : string) :
  bracket_free url = true -> bracket_free dflt = true ->
  exists r, Urllib.urlparse url dflt = Ok r /\ parts_bracket_free r = true.
Proof.
  intros Hu Hd. unfold Urllib.urlparse.
  destruct (urlsplit_bracket_free url dflt Hu Hd)
    as (sch & nl & p & q & f & -> & Hs & Hn & Hp & Hq & Hf).
  cbn [bind].
  destruct (Urllib.str_in sch Urllib.uses_params && Str.mem ";" p).
  - destruct (bracket_free_splitparams p Hp) as [Ha Hb].
    destruct (Urllib.splitparams p) as [p' prm]. cbn [fst snd] in Ha, Hb.
    eexists. split; [reflexivity|]. now apply parts_bracket_free_intro.
  - eexists. split; [reflexivity|]. now apply parts_bracket_free_intro.
Qed.

Lemma bracket_free_add_part (url mark part : string) :
  bracket_free url = true -> bracket_free mark = true -> bracket_free part = true ->
  bracket_free (Urllib.add_part url mark part) = true.
Proof.
  intros H1 H2 H3. unfold Urllib.add_part.
  destruct (Str.truthy part); [|exact H1].
  now repeat apply bracket_free_app.
Qed.

Lemma bracket_free_urlunsplit (sch nl url q f : string) :
  bracket_free sch = true -> bracket_free nl = true -> bracket_free url = true ->
  bracket_free q = true -> bracket_free f = true ->
  bracket_free (Urllib.urlunsplit sch nl url q f) = true.
Proof.
  intros H1 H2 H3 H4 H5. unfold Urllib.urlunsplit.
  repeat apply bracket_free_add_part; try reflexivity; try assumption.
  repeat match goal with |- context [if ?b then _ else _] => destruct b end;
    repeat apply bracket_free_app; try reflexivity; assumption.
Qed.

Lemma bracket_free_urlunparse (r : Urllib.ParseResult) :
  parts_bracket_free r = true -> bracket_free (Urllib.urlunparse r) = true.
Proof.
  intro H. apply parts_bracket_free_elim in H.
  destruct H as (H1 & H2 & H3 & H4 & H5 & H6).
  unfold Urllib.urlunparse. apply bracket_free_urlunsplit; try assumption.
  destruct (Str.truthy (Urllib.params r)); [|exact H3].
  repeat apply bracket_free_app; try reflexivity; assumption.
Qed.

Lemma bracket_free_split (c : ascii) (s : string) :
  bracket_free s = true -> Forall (fun x => bracket_free x = true) (Str.split c s).
Proof.
  unfold bracket_free. induction s as [|d r IH]; cbn [Str.split].
  - intros _. now constructor.
  - cbn [Str.all]. intro H. apply andb_true_iff in H. destruct H as [Hd Hr].
    specialize (IH Hr). destruct (Ascii.eqb c d).
    + now constructor.
    + destruct (Str.split c r) as [|h t].
      * constructor; [|constructor]. cbn [Str.all]. now rewrite Hd.
      * inversion IH as [|h' t' Hh Ht]; subst. constructor; [|exact Ht].
        cbn [Str.all]. now rewrite Hd, Hh.
Qed.

Lemma bracket_free_join (sep : string) (l : list string) :
  bracket_free sep = true -> Forall (fun x => bracket_free x = true) l ->
  bracket_free (Str.join sep l) = true.
Proof.
  intros Hs H. induction H as [|x r Hx Hr IH]; [reflexivity|].
  cbn [Str.join]. destruct r as [|y r']; [exact Hx|].
  now repeat apply bracket_free_app.
Qed.

Lemma Forall_removelast {A : Type} (P : A -> Prop) (l : list A) :
  Forall P l -> Forall P (removelast l).
Proof.
  intro H. induction H as [|x r Hx Hr IH]; [constructor|].
  cbn [removelast]. destruct r; [constructor|]. now constructor.
Qed.

Lemma Forall_last {A : Type} (P : A -> Prop) (l : list A) (d : A) :
  P d -> Forall P l -> P (last l d).
Proof.
  intros Hd H. induction H as [|x r Hx Hr IH]; [exact Hd|].
  cbn [last]. destruct r; [exact Hx|exact IH].
Qed.

Lemma Forall_filter {A : Type} (P : A -> Prop) (f : A -> bool) (l : list A) :
  Forall P l -> Forall P (filter f l).
Proof.
  intro H. induction H as [|x r Hx Hr IH]; [constructor|].
  cbn [filter]. destruct (f x); [now constructor|exact IH].
Qed.

Lemma Forall_filter_middle (P : string -> Prop) (l : list string) :
  P EmptyString -> Forall P l -> Forall P (Urllib.filter_middle l).
Proof.
  intros H0 H. unfold Urllib.filter_middle.
  destruct l as [|x [|y r]]; [constructor|exact H|].
  inversion H as [|x' r' Hx Hr]; subst.
  constructor; [exact Hx|].
  apply Forall_app. split.
  - now apply Forall_filter, Forall_removelast.
  - constructor; [|constructor]. now apply Forall_last.
Qed.

Lemma Forall_resolve_segments (P : string -> Prop) (segs : list string) :
  forall resolved, Forall P resolved -> Forall P segs ->
  Forall P (Urllib.resolve_segments resolved segs).
Proof.
  induction segs as [|seg r IH]; intros resolved Hr Hs; cbn [Urllib.resolve_segments];
    [exact Hr|].
  inversion Hs as [|seg' r' Hseg Hr']; subst.
  destruct (String.eqb seg ".."); [|destruct (String.eqb seg ".")].
  - apply IH; [now apply Forall_removelast|exact Hr'].
  - now apply IH.
  - apply IH; [|exact Hr']. apply Forall_app. split; [exact Hr|]. now repeat constructor.
Qed.

(** Joining a link without brackets to a base without brackets
    returns, and the result has no bracket. *)
Lemma urljoin_bracket_free (base url : string) :
  bracket_free base = true -> bracket_free url = true ->
  exists h, Urllib.urljoin base url = Ok h /\ bracket_free h = true.
Proof.
  intros Hb Hu. unfold Urllib.urljoin.
  destruct (negb (Str.truthy base)); [now exists url|].
  destruct (negb (Str.truthy url)); [now exists base|].
  destruct (urlparse_bracket_free base EmptyString Hb eq_refl) as (b & -> & Pb).
  cbn [bind].
  pose proof (parts_bracket_free_elim b Pb) as (B1 & B2 & B3 & B4 & B5 & B6).
  destruct (urlparse_bracket_free url (Urllib.scheme b) Hu B1) as (u & -> & Pu).
  cbn [bind].
  pose proof (parts_bracket_free_elim u Pu) as (U1 & U2 & U3 & U4 & U5 & U6).
  destruct (negb (String.eqb (Urllib.scheme u) (Urllib.scheme b))
            || negb (Urllib.str_in (Urllib.scheme u) Urllib.uses_relative));
    [now exists url|].
  destruct (Urllib.str_in (Urllib.scheme u) Urllib.uses_netloc
            && Str.truthy (Urllib.netloc u)).
  { eexists. split; [reflexivity|]. now apply bracket_free_urlunparse. }
  assert (Hnl : bracket_free
            (if Urllib.str_in (Urllib.scheme u) Urllib.uses_netloc
             then Urllib.netloc b else Urllib.netloc u) = true)
    by (destruct (Urllib.str_in (Urllib.scheme u) Urllib.uses_netloc); assumption).
  destruct (negb (Str.truthy (Urllib.path u)) && negb (Str.truthy (Urllib.params u))).
  { eexists. split; [reflexivity|].
    apply bracket_free_urlunparse, parts_bracket_free_intro; try assumption.
    destruct (Str.truthy (Urllib.query u)); assumption. }
  eexists. split; [reflexivity|].
  apply bracket_free_urlunparse, parts_bracket_free_intro; try assumption.
  match goal with |- bracket_free (if Str.truthy ?j then _ else _) = true =>
    assert (Hj : bracket_free j = true); [|destruct (Str.truthy j); [exact Hj|reflexivity]]
  end.
  apply bracket_free_join; [reflexivity|].
  assert (Hsegs : Forall (fun x => bracket_free x = true)
            (if Str.startswith (Urllib.path u) "/"
             then Str.split "/" (Urllib.path u)
             else Urllib.filter_middle
                    ((if Str.truthy (last (Str.split "/" (Urllib.path b)) EmptyString)
                      then removelast (Str.split "/" (Urllib.path b))
                      else Str.split "/" (Urllib.path b))
                     ++ Str.split "/" (Urllib.path u)))).
  { destruct (Str.startswith (Urllib.path u) "/"); [now apply bracket_free_split|].
    apply Forall_filter_middle; [reflexivity|].
    apply Forall_app. split; [|now apply bracket_free_split].
    destruct (Str.truthy _);
      [apply Forall_removelast|]; now apply bracket_free_split. }
  match goal with |- Forall _ (if ?c then _ else _) => destruct c end.
  - apply Forall_app. split; [|now repeat constructor].
    apply Forall_resolve_segments; [constructor|exact Hsegs].
  - apply Forall_resolve_segments; [constructor|exact Hsegs].
Qed.

(** Every key of a [parse_qs] dictionary has at least one value. *)
Lemma dict_append_values (d : list (string * list string)) (k v : string) :
  Forall (fun kv => snd kv <> []) d ->
  Forall (fun kv => snd kv <> []) (Urllib.dict_append d k v).
Proof.
  intro H. induction H as [|[k' vs] r Hk Hr IH]; cbn [Urllib.dict_append].
  - constructor; [discriminate|constructor].
  - destruct (String.eqb k k'); constructor; trivial.
    cbn [snd]. destruct vs; discriminate.
Qed.

Lemma parse_qs_values (qs : string) :
  Forall (fun kv => snd kv <> []) (Urllib.parse_qs qs).
Proof.
  unfold Urllib.parse_qs.
  assert (G : forall pairs d, Forall (fun kv : string * list string => snd kv <> []) d ->
            Forall (fun kv => snd kv <> [])
              (fold_left (fun d nv => Urllib.dict_append d (fst nv) (snd nv)) pairs d)).
  { induction pairs as [|nv r IH]; intros d Hd; cbn [fold_left]; [exact Hd|].
    apply IH. now apply dict_append_values. }
  apply G. constructor.
Qed.

Lemma dict_lookup_values (d : list (string * list string)) (k : string) (vs : list string) :
  Forall (fun kv => snd kv <> []) d -> Urllib.dict_lookup d k = Some vs -> vs <> [].
Proof.
  intro H. induction H as [|[k' vs'] r Hk Hr IH]; cbn [Urllib.dict_lookup]; [discriminate|].
  destruct (String.eqb k k'); [|exact IH].
  intro E. inversion E; subst. exact Hk.
Qed.

Lemma pval_of_returns (qs : string) :
  exists v, pval_of (Urllib.parse_qs qs) = Ok v.
Proof.
  unfold pval_of, Urllib.dict_get.
  destruct (Urllib.dict_lookup (Urllib.parse_qs qs) "p") as [vs|] eqn:E.
  - pose proof (dict_lookup_values _ _ _ (parse_qs_values qs) E) as Hne.
    destruct vs as [|v r]; [congruence|]. cbn [index0 bind]. eauto.
  - cbn [index0 bind]. eauto.
Qed.

Lemma id_of_returns (qs : string) :
  exists v, id_of (Urllib.parse_qs qs) = Ok v.
Proof.
  unfold id_of.
  destruct (Urllib.dict_lookup (Urllib.parse_qs qs) "id") as [vs|] eqn:E.
  - pose proof (dict_lookup_values _ _ _ (parse_qs_values qs) E) as Hne.
    destruct vs as [|v r]; [congruence|]. cbn [index0 bind]. eauto.
  - cbn [index0]. eauto.
Qed.

Lemma event_of_anchor_returns (a : Bs4.node) :
  bracket_free (Bs4.get_attr "href" a) = true ->
  exists o, event_of_anchor a = Ok o.
Proof.
  intro H. unfold event_of_anchor.
  destruct (negb (Str.truthy (Str.strip (Bs4.get_attr "href" a)))); [eauto|].
  destruct (urljoin_bracket_free EVENTS_URL _ eq_refl (bracket_free_strip _ H))
    as (href & -> & Hh).
  cbn [bind].
  destruct (urlparse_bracket_free href EmptyString Hh eq_refl) as (r & -> & _).
  cbn [bind].
  destruct (pval_of_returns (Urllib.query r)) as (pv & ->). cbn [bind].
  destruct (negb (String.eqb pv "view_event")); [eauto|].
  destruct (id_of_returns (Urllib.query r)) as ([eid|] & ->); cbn [bind]; [|eauto].
  destruct (negb (Str.truthy eid)); eauto.
Qed.

Lemma session_of_anchor_returns (a : Bs4.node) :
  bracket_free (Bs4.get_attr "href" a) = true ->
  exists o, session_of_anchor a = Ok o.
Proof.
  intro H. unfold session_of_anchor.
  destruct (negb (Str.truthy (Str.strip (Bs4.get_attr "href" a)))); [eauto|].
  assert (Hj : exists h, session_href (Str.strip (Bs4.get_attr "href" a)) = Ok h
                         /\ bracket_free h = true).
  { unfold session_href. destruct (Str.startswith _ "?").
    - exact (urljoin_bracket_free RESULTS_ROOT _ eq_refl (bracket_free_strip _ H)).
    - exact (urljoin_bracket_free (BASE ++ "/") _ eq_refl (bracket_free_strip _ H)). }
  destruct Hj as (href & -> & Hh). cbn [bind].
  destruct (negb (Str.contains "view_race_result" href)); [eauto|].
  destruct (urlparse_bracket_free href EmptyString Hh eq_refl) as (r & -> & _).
  cbn [bind].
  destruct (pval_of_returns (Urllib.query r)) as (pv & ->). cbn [bind].
  destruct (negb (String.eqb pv "view_race_result")); [eauto|].
  destruct (id_of_returns (Urllib.query r)) as ([rrid|] & ->); cbn [bind]; [|eauto].
  destruct (negb (Str.truthy rrid)); eauto.
Qed.

Lemma collect_returns {A B : Type} (body : A -> result (option B)) (l : list A) :
  (forall x, In x l -> exists o, body x = Ok o) -> exists r, collect body l = Ok r.
Proof.
  induction l as [|x r IH]; intro H; cbn [collect]; [eauto|].
  destruct (H x (or_introl eq_refl)) as (o & ->). cbn [bind].
  destruct IH as (rest & ->); [intros y Hy; apply H; now right|].
  cbn [bind]. eauto.
Qed.

(** X15. On a page none of whose links holds a square bracket, both
    discoveries return a list: the parsing of the links does not raise,
    and the subscripts [[0]] on the query values are in range. *)
Theorem discovery_returns_without_brackets (soup : list Bs4.node) :
  (forall a, In a (Bs4.find_all_with "a" "href" soup) ->
     Str.mem "[" (Bs4.get_attr "href" a) = false
     /\ Str.mem "]" (Bs4.get_attr "href" a) = false) ->
  (exists events, discover_events soup = Ok events)
  /\ (exists sessions, discover_sessions soup = Ok sessions).
Proof.
  intro H. unfold discover_events, discover_sessions. split.
  - destruct (collect_returns event_of_anchor (Bs4.find_all_with "a" "href" soup))
      as (found & ->); [|cbn [bind]; eauto].
    intros a Ha. apply event_of_anchor_returns, bracket_free_mem, H, Ha.
  - destruct (collect_returns session_of_anchor (Bs4.find_all_with "a" "href" soup))
      as (found & ->); [|cbn [bind]; eauto].
    intros a Ha. apply session_of_anchor_returns, bracket_free_mem, H, Ha.
Qed.

Lemma discovery_returns_without_brackets_witness :
  (exists events, discover_events twice_linked_doc = Ok events)
  /\ (exists sessions, discover_sessions twice_linked_doc = Ok sessions).
Proof.
  apply discovery_returns_without_brackets.
  intros a Ha. vm_compute in Ha.
  destruct Ha as [<-|[<-|[<-|[]]]]; split; vm_compute; reflexivity.
Defined.

(** ** From the page to the sessions fetched *)

Lemma NoDup_map_filter {A B : Type} (f : A -> B) (p : A -> bool) (l : list A) :
  NoDup (List.map f l) -> NoDup (List.map f (filter p l)).
Proof.
  induction l as [|x r IH]; cbn [List.map filter]; [trivial|].
  intro H. inversion H as [|y t Hx Hr]; subst.
  destruct (p x); [|now apply IH].
  cbn [List.map]. constructor; [|now apply IH].
  intro Hin. apply Hx. apply in_map_iff in Hin. destruct Hin as (z & Hz & Hin).
  apply filter_In in Hin. apply in_map_iff. exists z. tauto.
Qed.

Lemma NoDup_map_firstn {A B : Type} (f : A -> B) (n : nat) (l : list A) :
  NoDup (List.map f l) -> NoDup (List.map f (firstn n l)).
Proof.
  revert l. induction n as [|n IH]; intros l H; [constructor|].
  destruct l as [|x r]; [constructor|].
  cbn [List.map firstn] in *. inversion H as [|y t Hx Hr]; subst.
  constructor; [|now apply IH].
  intro Hin. apply Hx. apply in_map_iff in Hin. destruct Hin as (z & Hz & Hin).
  apply in_map_iff. exists z. split; [exact Hz|]. now apply firstn_subset in Hin.
Qed.

Lemma key_lt_total (a b : string * string) :
  key_lt b a = false -> a <> b -> key_lt a b = true.
Proof.
  rewrite !key_lt_compare, (key_compare_antisym b a).
  destruct (key_compare a b) eqn:E; cbn [CompOpp]; try congruence.
  intros _ Hne. now apply key_compare_eq in E.
Qed.

Lemma select_sessions_distinct (only_main_events : bool) (limit_sessions : Z)
  (sessions : list SessionRef) :
  NoDup (List.map race_result_id sessions) ->
  NoDup (List.map race_result_id (select_sessions only_main_events limit_sessions sessions)).
Proof.
  intro H. unfold select_sessions.
  set (chosen := if only_main_events
                 then filter (fun sess => is_main_event (session_name sess)) sessions
                 else sessions).
  assert (Hc : NoDup (List.map race_result_id chosen))
    by (subst chosen; destruct only_main_events; [now apply NoDup_map_filter|exact H]).
  assert (Hs : NoDup (List.map race_result_id (sort_sessions chosen))).
  { apply (Permutation_NoDup (l := List.map race_result_id chosen)); [|exact Hc].
    apply Permutation_map, sort_sessions_perm. }
  destruct (0 <? limit_sessions)%Z; [now apply NoDup_map_firstn|exact Hs].
Qed.

Lemma sorted_distinct_strict (l : list SessionRef) :
  NoDup (List.map race_result_id l) ->
  StronglySorted (fun a b => key_lt (session_key b) (session_key a) = false) l ->
  StronglySorted (fun a b => key_lt (session_key a) (session_key b) = true) l.
Proof.
  intros Hn Hs. induction Hs as [|x r Hr IH Hx]; [constructor|].
  cbn [List.map] in Hn. inversion Hn as [|y t Hnx Hnr]; subst.
  constructor; [now apply IH|].
  apply Forall_forall. intros z Hz. rewrite Forall_forall in Hx.
  apply key_lt_total; [now apply Hx|].
  intro E. apply Hnx. apply in_map_iff. exists z. split; [|exact Hz].
  unfold session_key in E. now inversion E.
Qed.

Lemma strictly_sorted_unique (l1 l2 : list SessionRef) :
  StronglySorted (fun a b => key_lt (session_key a) (session_key b) = true) l1 ->
  StronglySorted (fun a b => key_lt (session_key a) (session_key b) = true) l2 ->
  Permutation l1 l2 -> l1 = l2.
Proof.
  intro H1. revert l2. induction H1 as [|x r1 Hr1 IH Hx]; intros l2 H2 HP.
  - apply Permutation_nil in HP. now subst.
  - destruct l2 as [|y r2]; [apply Permutation_sym, Permutation_nil in HP; discriminate|].
    inversion H2 as [|y' r2' Hr2 Hy]; subst.
    rewrite Forall_forall in Hx, Hy.
    assert (E : x = y).
    { destruct (Permutation_in x HP (or_introl eq_refl)) as [E|Hin]; [now symmetry|].
      destruct (Permutation_in y (Permutation_sym HP) (or_introl eq_refl)) as [E|Hin'];
        [exact E|].
      pose proof (Hy x Hin) as L1. pose proof (Hx y Hin') as L2.
      apply key_lt_asym in L1. congruence. }
    subst y. f_equal. apply IH; [exact Hr2|].
    now apply Permutation_cons_inv in HP.
Qed.

(** X16. Whatever the page, the options and the limit, the sessions
    [main] goes on to fetch have pairwise different ids and stand in
    strictly ascending order of the lower-cased name, then of the id, so
    the order of the fetches does not depend on the sorting method; each
    of them is a session the discovery returned. *)
Theorem fetched_sessions_distinct_and_ordered
  (soup : list Bs4.node) (sessions : list SessionRef)
  (only_main_events : bool) (limit_sessions : Z) :
  discover_sessions soup = Ok sessions ->
  let out := select_sessions only_main_events limit_sessions sessions in
  NoDup (List.map race_result_id out)
  /\ StronglySorted (fun a b => key_lt (session_key a) (session_key b) = true) out
  /\ (forall s, In s out -> In s sessions)
  /\ (forall other, Permutation other out ->
        StronglySorted (fun a b => key_lt (session_key b) (session_key a) = false) other ->
        other = out).
Proof.
  intro Hd.
  assert (Hn : NoDup (List.map race_result_id sessions)).
  { apply bind_ok in Hd. destruct Hd as (found & _ & Hd). injection Hd as <-.
    rewrite dedupe_first_occurrences. apply first_occurrences_NoDup. }
  intro out.
  assert (Ho : NoDup (List.map race_result_id out))
    by (now apply select_sessions_distinct).
  assert (Hs : StronglySorted
                 (fun a b => key_lt (session_key b) (session_key a) = false) out).
  { subst out. unfold select_sessions. destruct (0 <? limit_sessions)%Z.
    - apply firstn_sorted, sort_sessions_sorted.
    - apply sort_sessions_sorted. }
  split; [exact Ho|].
  split; [now apply sorted_distinct_strict|].
  split.
  - intros s Hin. subst out. unfold select_sessions in Hin.
    assert (Hin' : In s (sort_sessions
              (if only_main_events
               then filter (fun sess => is_main_event (session_name sess)) sessions
               else sessions)))
      by (destruct (0 <? limit_sessions)%Z; [now apply firstn_subset in Hin|exact Hin]).
    apply (Permutation_in _ (Permutation_sym (sort_sessions_perm _))) in Hin'.
    destruct only_main_events; [apply filter_In in Hin'; tauto|exact Hin'].
  - intros other HP Hso.
    apply strictly_sorted_unique; [| now apply sorted_distinct_strict | exact HP].
    apply sorted_distinct_strict; [|exact Hso].
    apply (Permutation_NoDup (l := List.map race_result_id out)); [|exact Ho].
    apply Permutation_map, Permutation_sym, HP.
Qed.

Lemma fetched_sessions_distinct_and_ordered_witness :
  discover_sessions
    [anchor "?p=view_race_result&id=30" "450SX Main Event Results";
     anchor "?p=view_race_result&id=10" "250SX main event results";
     anchor "?p=view_race_result&id=30" "450SX again";
     anchor "?p=view_race_result&id=20" "250SX Heat 1 Results"]
  = Ok [mkSessionRef "30" "450SX Main Event Results"
          "https://results.supercrosslive.com/results/?p=view_race_result&id=30";
        mkSessionRef "10" "250SX main event results"
          "https://results.supercrosslive.com/results/?p=view_race_result&id=10";
        mkSessionRef "20" "250SX Heat 1 Results"
          "https://results.supercrosslive.com/results/?p=view_race_result&id=20"]
  /\ NoDup (List.map race_result_id
       (select_sessions false 2
          [mkSessionRef "30" "450SX Main Event Results"
             "https://results.supercrosslive.com/results/?p=view_race_result&id=30";
           mkSessionRef "10" "250SX main event results"
             "https://results.supercrosslive.com/results/?p=view_race_result&id=10";
           mkSessionRef "20" "250SX Heat 1 Results"
             "https://results.supercrosslive.com/results/?p=view_race_result&id=20"])).
Proof.
  assert (H : discover_sessions
    [anchor "?p=view_race_result&id=30" "450SX Main Event Results";
     anchor "?p=view_race_result&id=10" "250SX main event results";
     anchor "?p=view_race_result&id=30" "450SX again";
     anchor "?p=view_race_result&id=20" "250SX Heat 1 Results"]
  = Ok [mkSessionRef "30" "450SX Main Event Results"
          "https://results.supercrosslive.com/results/?p=view_race_result&id=30";
        mkSessionRef "10" "250SX main event results"
          "https://results.supercrosslive.com/results/?p=view_race_result&id=10";
        mkSessionRef "20" "250SX Heat 1 Results"
          "https://results.supercrosslive.com/results/?p=view_race_result&id=20"])
    by (vm_compute; reflexivity).
  split; [exact H|].
  exact (proj1 (fetched_sessions_distinct_and_ordered _ _ false 2 H)).
Defined.

(** ** The event [main] scrapes *)

Lemma NoDup_map_same {A B : Type} (f : A -> B) (l : list A) (a b : A) :
  NoDup (List.map f l) -> In a l -> In b l -> f a = f b -> a = b.
Proof.
  induction l as [|x r IH]; cbn [List.map]; [intros _ []|].
  intros H Ha Hb E. inversion H as [|y t Hx Hr]; subst.
  destruct Ha as [->|Ha], Hb as [->|Hb]; trivial.
  - exfalso. apply Hx. rewrite E. now apply in_map.
  - exfalso. apply Hx. rewrite <- E. now apply in_map.
  - now apply IH.
Qed.

(** X17. With an event id, [main] scrapes the one discovered event that
    has this id; with none, or an empty one, the first event discovered.
    It gives up exactly when nothing was discovered or no discovered
    event has the id. *)
Theorem chosen_event_is_the_one_with_the_id
  (soup : list Bs4.node) (events : list EventRef) (wanted : option string) :
  discover_events soup = Ok events ->
  (forall e, choose_event wanted events = Some e ->
     In e events
     /\ (forall w, wanted = Some w -> Str.truthy w = true ->
           event_id e = w
           /\ forall e', In e' events -> event_id e' = w -> e' = e)
     /\ ((wanted = None \/ wanted = Some EmptyString) -> hd_error events = Some e))
  /\ (choose_event wanted events = None <->
      events = []
      \/ exists w, wanted = Some w /\ Str.truthy w = true
                   /\ forall e, In e events -> event_id e <> w).
Proof.
  intro Hd.
  assert (Hn : NoDup (List.map event_id events)).
  { apply bind_ok in Hd. destruct Hd as (found & _ & Hd). injection Hd as <-.
    rewrite dedupe_first_occurrences. apply first_occurrences_NoDup. }
  clear Hd. split.
  - intros e Hc. destruct events as [|first rest]; [discriminate Hc|].
    unfold choose_event in Hc.
    destruct wanted as [[|c w]|].
    + injection Hc as <-. split; [now left|]. split; [|reflexivity].
      intros w Hw Ht. injection Hw as <-. discriminate Ht.
    + apply find_some in Hc. destruct Hc as [Hin He]. apply String.eqb_eq in He.
      split; [exact Hin|]. split.
      * intros w' Hw _. injection Hw as <-. split; [exact He|].
        intros e' Hin' He'. apply (NoDup_map_same event_id _ _ _ Hn Hin' Hin). congruence.
      * intros [H|H]; discriminate H.
    + injection Hc as <-. split; [now left|]. split; [|reflexivity].
      intros w Hw. discriminate Hw.
  - split.
    + intro Hc. destruct events as [|first rest]; [now left|]. right.
      unfold choose_event in Hc. destruct wanted as [[|c w]|]; try discriminate Hc.
      exists (String c w). split; [reflexivity|]. split; [reflexivity|].
      intros e Hin He. apply (find_none _ _ Hc) in Hin.
      rewrite He, String.eqb_refl in Hin. discriminate Hin.
    + intros [->|(w & -> & Ht & Hno)]; [reflexivity|].
      destruct events as [|first rest]; [reflexivity|].
      unfold choose_event. destruct w as [|c w]; [discriminate Ht|].
      destruct (find _ _) as [e|] eqn:E; [|reflexivity].
      apply find_some in E. destruct E as [Hin He]. apply String.eqb_eq in He.
      now destruct (Hno e Hin).
Qed.

Lemma chosen_event_is_the_one_with_the_id_witness :
  discover_events twice_linked_doc =
    Ok [mkEventRef "5" "Anaheim 1"
          "https://results.supercrosslive.com/results/?id=5&p=view_event";
        mkEventRef "9" "San Diego"
          "https://results.supercrosslive.com/results/?id=9&p=view_event"]
  /\ (choose_event (Some "7")
        [mkEventRef "5" "Anaheim 1"
           "https://results.supercrosslive.com/results/?id=5&p=view_event";
         mkEventRef "9" "San Diego"
           "https://results.supercrosslive.com/results/?id=9&p=view_event"] = None <->
      [mkEventRef "5" "Anaheim 1"
         "https://results.supercrosslive.com/results/?id=5&p=view_event";
       mkEventRef "9" "San Diego"
         "https://results.supercrosslive.com/results/?id=9&p=view_event"] = []
      \/ exists w, Some "7" = Some w /\ Str.truthy w = true
           /\ forall e,
                In e [mkEventRef "5" "Anaheim 1"
                        "https://results.supercrosslive.com/results/?id=5&p=view_event";
                      mkEventRef "9" "San Diego"
                        "https://results.supercrosslive.com/results/?id=9&p=view_event"] ->
                event_id e <> w).
Proof.
  assert (H : discover_events twice_linked_doc =
    Ok [mkEventRef "5" "Anaheim 1"
          "https://results.supercrosslive.com/results/?id=5&p=view_event";
        mkEventRef "9" "San Diego"
          "https://results.supercrosslive.com/results/?id=9&p=view_event"])
    by (vm_compute; reflexivity).
  split; [exact H|].
  exact (proj2 (chosen_event_is_the_one_with_the_id twice_linked_doc _ (Some "7") H)).
Defined.
